(** * ChatApp_FastAPI: the real-time delivery subsystem

    A shallow embedding of [backend/websocket_manager.py],
    [backend/redis_client.py], [backend/crud.py] (message and status
    operations) and the WebSocket endpoint of [backend/main.py].

    Python objects that the code mutates in place (the manager's three
    dictionaries, the Redis client's two dictionaries, the tables of the
    database) live in one [World]; every coroutine is a function in a small
    state-and-exception monad over it.  The coroutines are run one after the
    other: an operation is not interleaved with another one. *)

From stdpp Require Import base option list gmap sets strings pretty sorting.

#[local] Set Warnings "-clear-no-such-hyp".

Open Scope Z_scope.
Open Scope string_scope.
Open Scope list_scope.

(** ** Values *)

(** [starlette.websockets.WebSocketState], a plain [enum.Enum]. *)
Inductive WebSocketState := CONNECTING | CONNECTED | DISCONNECTED.

(** [models.MessageStatus] and [models.UserStatus]. *)
Inductive MessageStatus := SENT | DELIVERED | READ.
Inductive UserStatus := ONLINE | OFFLINE | AWAY.

#[global] Instance MessageStatus_eq_dec : EqDecision MessageStatus.
Proof. solve_decision. Defined.

(** [MessageStatus.value] *)
Definition status_value (s : MessageStatus) : string :=
  match s with SENT => "sent" | DELIVERED => "delivered" | READ => "read" end.

(** Position of a status in the lifecycle SENT, DELIVERED, READ. *)
Definition status_rank (s : MessageStatus) : Z :=
  match s with SENT => 0 | DELIVERED => 1 | READ => 2 end.

(** A WebSocket handle.  The transport is outside the program: whether
    [accept], [send_json] and [close] raise on this handle is part of the
    handle. *)
Record WebSocket := {
  ws_id : nat;
  client_state : WebSocketState;
  accept_raises : bool;
  send_json_raises : bool;
  close_raises : bool
}.

(** The [data] member of an outbound frame. *)
Inductive Data :=
| DataText (s : string)
| DataConnection (status : string) (channel_id : Z)
| DataMessage (id : Z) (content : string) (sender_id channel_id : Z)
              (status : string) (created_at : Z).

(** An outbound frame, [{"message_type": ..., "data": ...}].  The
    [timestamp] of the connection confirmation, a floating point clock
    reading, is left out. *)
Record Event := { message_type : string; data : Data }.

(** Rows of the tables [messages], [users] and [channels]. *)
Record Message := {
  id : Z;
  content : string;
  status : MessageStatus;
  sender_id : Z;
  channel_id : Z;
  created_at : Z
}.

Record User := { user_id : Z; username : string; user_status : UserStatus }.

Record Channel := { chan_id : Z; members : list Z }.

(** [schemas.MessageCreate] *)
Record MessageCreate := { mc_content : string; mc_channel_id : Z }.

(** The database session.  [commit_faults] is the schedule of the coming
    [db.commit()] calls: [true] makes that commit raise. *)
Record Db := {
  messages : list Message;
  users : list User;
  channels : list Channel;
  now : Z;
  commit_faults : list bool
}.

(** Calls made on WebSocket handles, oldest first. *)
Inductive WsCall :=
| Accept (ws : nat)
| SendJson (ws : nat) (e : Event)
| Close (ws : nat) (code : Z).

(** [ConnectionManager] *)
Record ConnectionManager := {
  active_connections : gmap Z (gmap Z WebSocket);
  channel_subscribers : gmap Z (gset Z);
  connection_status : gmap Z (gmap Z bool)
}.

(** [RedisClient] together with the part of the Redis server it talks to.
    [pubsub_clients] and [callback_map] are the client's dictionaries; a
    callback is the closure [redis_callback], which captures a channel id.
    [pubsubs] lists the PubSub objects that are subscribed and listening
    (handle and topic), [next_pubsub] is the handle that [redis.pubsub()]
    returns next, [redis_sets] holds the Redis sets and [published] the
    messages handed to PUBLISH, oldest first. *)
Record RedisClient := {
  pubsub_clients : gmap string nat;
  callback_map : gmap string Z;
  pubsubs : list (nat * string);
  next_pubsub : nat;
  redis_sets : gmap string (gset string);
  published : list (string * Event)
}.

Record World := {
  manager : ConnectionManager;
  redis_client : RedisClient;
  wire : list WsCall;
  db : Db
}.

(** ** Exceptions and the monad *)

Inductive Exn :=
| KeyError
| TransportError
| WebSocketDisconnect
| DecodeError
| DatabaseError
| AuthError.

Inductive Outcome (A : Type) :=
| Ret (a : A)
| Raise (e : Exn).
Arguments Ret {A} a.
Arguments Raise {A} e.

Definition M (A : Type) : Type := World → Outcome A * World.

Definition ret {A} (a : A) : M A := λ w, (Ret a, w).
Definition raise {A} (e : Exn) : M A := λ w, (Raise e, w).
Definition bind {A B} (m : M A) (k : A → M B) : M B :=
  λ w, match m w with
       | (Ret a, w') => k a w'
       | (Raise e, w') => (Raise e, w')
       end.

(** [try: m except Exception as e: h e] *)
Definition try_except {A} (m : M A) (h : Exn → M A) : M A :=
  λ w, match m w with
       | (Ret a, w') => (Ret a, w')
       | (Raise e, w') => h e w'
       end.

Notation "'let*' x ':=' m 'in' k" := (bind m (λ x, k))
  (at level 10, x name, m at level 100, k at level 200).
Notation "m >> k" := (bind m (λ _, k))
  (at level 90, right associativity).

Definition gets {A} (f : World → A) : M A := λ w, (Ret (f w), w).
Definition modify (f : World → World) : M unit := λ w, (Ret tt, f w).

Fixpoint for_each {A} (l : list A) (body : A → M unit) : M unit :=
  match l with
  | [] => ret tt
  | x :: l' => body x >> for_each l' body
  end.

(** Field updates. *)
Definition with_manager (f : ConnectionManager → ConnectionManager) (w : World) : World :=
  {| manager := f (manager w); redis_client := redis_client w; wire := wire w; db := db w |}.
Definition with_redis (f : RedisClient → RedisClient) (w : World) : World :=
  {| manager := manager w; redis_client := f (redis_client w); wire := wire w; db := db w |}.
Definition with_wire (f : list WsCall → list WsCall) (w : World) : World :=
  {| manager := manager w; redis_client := redis_client w; wire := f (wire w); db := db w |}.
Definition with_db (f : Db → Db) (w : World) : World :=
  {| manager := manager w; redis_client := redis_client w; wire := wire w; db := f (db w) |}.

Definition set_active (a : gmap Z (gmap Z WebSocket)) (m : ConnectionManager) :=
  {| active_connections := a; channel_subscribers := channel_subscribers m;
     connection_status := connection_status m |}.
Definition set_subscribers (s : gmap Z (gset Z)) (m : ConnectionManager) :=
  {| active_connections := active_connections m; channel_subscribers := s;
     connection_status := connection_status m |}.
Definition set_status (s : gmap Z (gmap Z bool)) (m : ConnectionManager) :=
  {| active_connections := active_connections m;
     channel_subscribers := channel_subscribers m; connection_status := s |}.

(** ** The transport *)

Definition ws_accept (ws : WebSocket) : M unit :=
  modify (with_wire (λ l, l ++ [Accept (ws_id ws)])) >>
  if accept_raises ws then raise TransportError else ret tt.

Definition ws_send_json (ws : WebSocket) (e : Event) : M unit :=
  modify (with_wire (λ l, l ++ [SendJson (ws_id ws) e])) >>
  if send_json_raises ws then raise TransportError else ret tt.

Definition ws_close (ws : WebSocket) (code : Z) : M unit :=
  modify (with_wire (λ l, l ++ [Close (ws_id ws) code])) >>
  if close_raises ws then raise TransportError else ret tt.

Definition WS_1008_POLICY_VIOLATION : Z := 1008.
Definition WS_1011_INTERNAL_ERROR : Z := 1011.

(** [websocket.client_state.DISCONNECTED].  [client_state] holds a member of
    [WebSocketState]; the members of an enum are attributes of its class, so
    looking [DISCONNECTED] up on a member finds the member [DISCONNECTED],
    whichever member it is looked up on.  It is not a comparison. *)
Definition member_DISCONNECTED (state : WebSocketState) : WebSocketState := DISCONNECTED.

(** The truth value that [not] takes of a member: [WebSocketState] is a
    plain [Enum], which defines no [__bool__], so every member is true, the
    one with value 0 too. *)
Definition truthy (state : WebSocketState) : bool := true.

(** ** redis_client.py *)

Definition publish (channel : string) (message : Event) (r : RedisClient) : RedisClient :=
  {| pubsub_clients := pubsub_clients r; callback_map := callback_map r;
     pubsubs := pubsubs r; next_pubsub := next_pubsub r;
     redis_sets := redis_sets r;
     published := published r ++ [(channel, message)] |}.

(** [subscribe] stores the callback, makes a new PubSub object, subscribes
    it and stores it under the channel name, over whatever was there. *)
Definition subscribe (channel : string) (callback : Z) (r : RedisClient) : RedisClient :=
  {| callback_map := <[channel := callback]> (callback_map r);
     pubsubs := pubsubs r ++ [(next_pubsub r, channel)];
     pubsub_clients := <[channel := next_pubsub r]> (pubsub_clients r);
     next_pubsub := S (next_pubsub r);
     redis_sets := redis_sets r;
     published := published r |}.

(** [unsubscribe] closes the PubSub object stored under the channel name. *)
Definition unsubscribe (channel : string) (r : RedisClient) : RedisClient :=
  match pubsub_clients r !! channel with
  | Some h =>
      {| pubsubs := filter (λ p, p.1 ≠ h) (pubsubs r);
         pubsub_clients := delete channel (pubsub_clients r);
         callback_map := delete channel (callback_map r);
         next_pubsub := next_pubsub r;
         redis_sets := redis_sets r;
         published := published r |}
  | None => r
  end.

Definition add_to_set (set_name value : string) (r : RedisClient) : RedisClient :=
  {| pubsub_clients := pubsub_clients r; callback_map := callback_map r;
     pubsubs := pubsubs r; next_pubsub := next_pubsub r;
     redis_sets :=
       <[set_name := {[value]} ∪ default ∅ (redis_sets r !! set_name)]> (redis_sets r);
     published := published r |}.

Definition remove_from_set (set_name value : string) (r : RedisClient) : RedisClient :=
  {| pubsub_clients := pubsub_clients r; callback_map := callback_map r;
     pubsubs := pubsubs r; next_pubsub := next_pubsub r;
     redis_sets :=
       <[set_name := default ∅ (redis_sets r !! set_name) ∖ {[value]}]> (redis_sets r);
     published := published r |}.

Definition get_set_members (set_name : string) (r : RedisClient) : gset string :=
  default ∅ (redis_sets r !! set_name).

Definition redis_publish (channel : string) (message : Event) : M unit :=
  modify (with_redis (publish channel message)).
Definition redis_subscribe (channel : string) (callback : Z) : M unit :=
  modify (with_redis (subscribe channel callback)).
Definition redis_unsubscribe (channel : string) : M unit :=
  modify (with_redis (unsubscribe channel)).
Definition redis_add_to_set (set_name value : string) : M unit :=
  modify (with_redis (add_to_set set_name value)).
Definition redis_remove_from_set (set_name value : string) : M unit :=
  modify (with_redis (remove_from_set set_name value)).

(** [f"chat:{channel_id}"] *)
Definition redis_channel (channel_id : Z) : string := "chat:" +:+ pretty channel_id.

(** ** websocket_manager.py *)

(** The calls of [logger] are left out.  [async with self.lock] has no
    counterpart: nothing runs between the statements of one operation. *)

Definition the_active : M (gmap Z (gmap Z WebSocket)) :=
  gets (λ w, active_connections (manager w)).
Definition the_subscribers : M (gmap Z (gset Z)) :=
  gets (λ w, channel_subscribers (manager w)).
Definition the_status : M (gmap Z (gmap Z bool)) :=
  gets (λ w, connection_status (manager w)).

(** [d[k]] *)
Definition getitem `{Countable K} {V} (d : gmap K V) (k : K) : M V :=
  match d !! k with
  | Some v => ret v
  | None => raise KeyError
  end.

Definition connect (websocket : WebSocket) (user_id channel_id : Z) : M unit :=
  try_except
    (ws_accept websocket >>
     (* async with self.lock: *)
     (let* ac := the_active in
      match ac !! user_id with
      | None =>
          modify (with_manager (set_active (<[user_id := ∅]> ac))) >>
          let* cs := the_status in
          modify (with_manager (set_status (<[user_id := ∅]> cs)))
      | Some _ => ret tt
      end) >>
     (let* ac := the_active in
      let* conns := getitem ac user_id in
      modify (with_manager (set_active (<[user_id := <[channel_id := websocket]> conns]> ac)))) >>
     (let* cs := the_status in
      let* st := getitem cs user_id in
      modify (with_manager (set_status (<[user_id := <[channel_id := true]> st]> cs)))) >>
     (let* subs := the_subscribers in
      match subs !! channel_id with
      | None => modify (with_manager (set_subscribers (<[channel_id := ∅]> subs)))
      | Some _ => ret tt
      end) >>
     (let* subs := the_subscribers in
      let* s := getitem subs channel_id in
      modify (with_manager (set_subscribers (<[channel_id := {[user_id]} ∪ s]> subs)))) >>
     (* the confirmation, sent to this session only *)
     ws_send_json websocket
       {| message_type := "connection_status";
          data := DataConnection "connected" channel_id |} >>
     (let* subs := the_subscribers in
      let* s := getitem subs channel_id in
      if (size s =? 1)%nat
      then redis_subscribe (redis_channel channel_id) channel_id
      else ret tt) >>
     redis_add_to_set "online_users" (pretty user_id))
    (λ _,
       try_except
         (if negb (truthy (member_DISCONNECTED (client_state websocket)))
          then ws_close websocket WS_1011_INTERNAL_ERROR
          else ret tt)
         (λ _, ret tt)).

Definition disconnect (user_id channel_id : Z) : M unit :=
  try_except
    ((* async with self.lock: *)
     (let* cs := the_status in
      match cs !! user_id with
      | Some st =>
          match st !! channel_id with
          | Some _ =>
              modify (with_manager (set_status (<[user_id := <[channel_id := false]> st]> cs)))
          | None => ret tt
          end
      | None => ret tt
      end) >>
     let* ac := the_active in
     match ac !! user_id with
     | Some conns =>
         match conns !! channel_id with
         | Some _ =>
             modify (with_manager (set_active (<[user_id := delete channel_id conns]> ac))) >>
             (if (size (delete channel_id conns) =? 0)%nat
              then
                modify (with_manager (set_active (delete user_id ac))) >>
                (let* cs := the_status in
                 let* _ := getitem cs user_id in
                 modify (with_manager (set_status (delete user_id cs)))) >>
                redis_remove_from_set "online_users" (pretty user_id)
              else ret tt) >>
             let* subs := the_subscribers in
             match subs !! channel_id with
             | Some s =>
                 (if bool_decide (user_id ∈ s)
                  then modify (with_manager (set_subscribers (<[channel_id := s ∖ {[user_id]}]> subs)))
                  else raise KeyError) >>
                 if (size (s ∖ {[user_id]}) =? 0)%nat
                 then
                   redis_unsubscribe (redis_channel channel_id) >>
                   modify (with_manager (set_subscribers (delete channel_id subs)))
                 else ret tt
             | None => ret tt
             end
         | None => ret tt
         end
     | None => ret tt
     end)
    (λ _, ret tt).

Definition send_personal_message (message : Event) (user_id channel_id : Z) : M bool :=
  let* sent :=
    try_except
      (let* ac := the_active in
       match ac !! user_id with
       | Some conns =>
           match conns !! channel_id with
           | Some websocket =>
               if negb (truthy (member_DISCONNECTED (client_state websocket)))
               then ws_send_json websocket message >> ret true
               else
                 (* "WebSocket is disconnected but still in our map" *)
                 disconnect user_id channel_id >> ret false
           | None => ret false
           end
       | None => ret false
       end)
      (λ _, try_except (disconnect user_id channel_id) (λ _, ret tt) >> ret false)
  in ret sent.

(** The body of the loop of [broadcast_to_channel], for one [user_id]. *)
Definition broadcast_turn (channel_id : Z) (message : Event) (user_id : Z) : M unit :=
  let* success := send_personal_message message user_id channel_id in
  let* subs := the_subscribers in
  if negb success && bool_decide (user_id ∈ default ∅ (subs !! channel_id))
  then disconnect user_id channel_id
  else ret tt.

Definition broadcast_to_channel (channel_id : Z) (message : Event) : M unit :=
  let* subs := the_subscribers in
  match subs !! channel_id with
  | Some s =>
      (* list(...): a copy of the subscriber set, made before the loop *)
      let subscribers := elements s in
      for_each subscribers (broadcast_turn channel_id message)
  | None => ret tt
  end.

Definition is_user_connected (w : World) (user_id : Z) : bool :=
  match connection_status (manager w) !! user_id with
  | None => false
  | Some st => existsb snd (map_to_list st)
  end.

Definition is_user_in_channel (w : World) (user_id channel_id : Z) : bool :=
  match connection_status (manager w) !! user_id with
  | None => false
  | Some st => default false (st !! channel_id)
  end.

(** A fresh process: an empty manager and a Redis client that holds no
    PubSub object; the Redis sets and the database are whatever they are. *)
Definition fresh_manager : ConnectionManager :=
  {| active_connections := ∅; channel_subscribers := ∅; connection_status := ∅ |}.

Definition fresh_world (sets : gmap string (gset string)) (d : Db) : World :=
  {| manager := fresh_manager;
     redis_client := {| pubsub_clients := ∅; callback_map := ∅; pubsubs := [];
                        next_pubsub := 0; redis_sets := sets; published := [] |};
     wire := [];
     db := d |}.

(** ** crud.py *)

Definition set_messages (l : list Message) (d : Db) : Db :=
  {| messages := l; users := users d; channels := channels d; now := now d;
     commit_faults := commit_faults d |}.
Definition set_users (l : list User) (d : Db) : Db :=
  {| messages := messages d; users := l; channels := channels d; now := now d;
     commit_faults := commit_faults d |}.
Definition set_commit_faults (l : list bool) (d : Db) : Db :=
  {| messages := messages d; users := users d; channels := channels d; now := now d;
     commit_faults := l |}.

(** [db.commit()]: the pending change is written unless this commit is
    scheduled to fail, in which case it raises and the tables stay as they
    were. *)
Definition db_commit (change : Db → Db) : M unit :=
  let* d := gets db in
  match commit_faults d with
  | true :: rest => modify (with_db (set_commit_faults rest)) >> raise DatabaseError
  | false :: rest => modify (with_db (λ d, change (set_commit_faults rest d)))
  | [] => modify (with_db change)
  end.

(** The key that the table gives a new row: one more than the largest. *)
Definition next_message_id (d : Db) : Z := 1 + foldr Z.max 0 (id <$> messages d).

Definition with_status (s : MessageStatus) (m : Message) : Message :=
  {| id := id m; content := content m; status := s; sender_id := sender_id m;
     channel_id := channel_id m; created_at := created_at m |}.

Definition with_user_status (s : UserStatus) (u : User) : User :=
  {| user_id := user_id u; username := username u; user_status := s |}.

(** [.filter(...).first()] *)
Definition get_user_by_username (d : Db) (name : string) : option User :=
  find (λ u, bool_decide (username u = name)) (users d).

Definition get_channel (d : Db) (channel_id : Z) : option Channel :=
  find (λ ch, bool_decide (chan_id ch = channel_id)) (channels d).

(** [channel and user in channel.members], with [channel] the result of
    [get_channel]. *)
Definition is_member (d : Db) (user : User) (channel_id : Z) : bool :=
  match get_channel d channel_id with
  | Some channel => bool_decide (user_id user ∈ members channel)
  | None => false
  end.

(** Apply [f] to the first element that satisfies [p]. *)
Fixpoint update_first {A} (p : A → bool) (f : A → A) (l : list A) : list A :=
  match l with
  | [] => []
  | x :: l' => if p x then f x :: l' else x :: update_first p f l'
  end.

Definition update_user_status (user_id' : Z) (s : UserStatus) : M (option User) :=
  let* d := gets db in
  match find (λ u, bool_decide (user_id u = user_id')) (users d) with
  | Some db_user =>
      db_commit (λ d, set_users
        (update_first (λ u, bool_decide (user_id u = user_id')) (with_user_status s) (users d)) d) >>
      ret (Some (with_user_status s db_user))
  | None => ret None
  end.

Definition create_message (message : MessageCreate) (user_id' : Z) : M Message :=
  let* d := gets db in
  let db_message :=
    {| id := next_message_id d; content := mc_content message; status := SENT;
       sender_id := user_id'; channel_id := mc_channel_id message; created_at := now d |} in
  db_commit (λ d, set_messages (messages d ++ [db_message]) d) >>
  ret db_message.

Definition update_message_status (message_id : Z) (s : MessageStatus) : M (option Message) :=
  let* d := gets db in
  match find (λ m, bool_decide (id m = message_id)) (messages d) with
  | Some db_message =>
      db_commit (λ d, set_messages
        (update_first (λ m, bool_decide (id m = message_id)) (with_status s) (messages d)) d) >>
      ret (Some (with_status s db_message))
  | None => ret None
  end.

(** The rows that [mark_messages_as_read] selects. *)
Definition unread_from_others (channel_id' user_id' : Z) (m : Message) : bool :=
  bool_decide (channel_id m = channel_id') &&
  negb (bool_decide (sender_id m = user_id')) &&
  negb (bool_decide (status m = READ)).

Definition mark_messages_as_read (channel_id' user_id' : Z) : M (list Message) :=
  let* d := gets db in
  let selected := filter (λ m, unread_from_others channel_id' user_id' m = true) (messages d) in
  db_commit (λ d, set_messages
    ((λ m, if unread_from_others channel_id' user_id' m then with_status READ m else m)
       <$> messages d) d) >>
  ret (with_status READ <$> selected).

(** ** auth.py and the WebSocket endpoint of main.py *)

(** What [jwt.decode] and the construction of [TokenData] make of a token:
    the [sub] member of a valid payload, a [JWTError], or another
    exception. *)
Inductive JwtResult :=
| JwtPayload (sub : option string)
| JwtError
| JwtFault.

(** What [websocket.receive_text()] does next. *)
Inductive Inbound :=
| Text (data : string)
| PeerClosed
| ReceiveError.

Definition error_event : Event :=
  {| message_type := "error"; data := DataText "Error processing your message" |}.

Definition message_event (m : Message) : Event :=
  {| message_type := "message";
     data := DataMessage (id m) (content m) (sender_id m) (channel_id m)
               (status_value (status m)) (created_at m) |}.

Definition notification (text : string) : Event :=
  {| message_type := "notification"; data := DataText text |}.

Section endpoint.
(** The JWT library and the JSON decoder are outside the program.
    [json_content data] is the value of [json.loads(data)["content"]] once
    [MessageCreate] has validated it, or [None] when one of the three
    raises. *)
Variable jwt_decode : string → JwtResult.
Variable json_content : string → option string.

Definition get_user_from_token (token : string) : M (option User) :=
  match jwt_decode token with
  | JwtPayload None => ret None
  | JwtPayload (Some name) =>
      let* d := gets db in ret (get_user_by_username d name)
  | JwtError => ret None
  | JwtFault => raise AuthError
  end.

Definition websocket_auth (websocket : WebSocket) (token : string) : M (option User) :=
  try_except
    (let* user := get_user_from_token token in
     match user with
     | None => ws_close websocket WS_1008_POLICY_VIOLATION >> ret None
     | Some u => ret (Some u)
     end)
    (λ _, ws_close websocket WS_1011_INTERNAL_ERROR >> ret None).

Definition receive_text (inb : Inbound) : M string :=
  match inb with
  | Text data => ret data
  | PeerClosed => raise WebSocketDisconnect
  | ReceiveError => raise TransportError
  end.

(** One turn of the [while True] loop of the endpoint. *)
Definition receive_turn (websocket : WebSocket) (user : User) (channel_id' : Z)
    (inb : Inbound) : M unit :=
  try_except
    (let* data := receive_text inb in
     let* text := match json_content data with
                  | Some text => ret text
                  | None => raise DecodeError
                  end in
     let message_create := {| mc_content := text; mc_channel_id := channel_id' |} in
     let* db_message := create_message message_create (user_id user) in
     let message_out := message_event db_message in
     redis_publish (redis_channel channel_id') message_out)
    (λ e,
       match e with
       | WebSocketDisconnect => raise WebSocketDisconnect
       | _ =>
           try_except
             (ws_send_json websocket error_event)
             (* "If we can't send the error, the connection is probably broken" *)
             (λ _, raise WebSocketDisconnect)
       end).

(** The loop over what the peer does; when the script is used up the
    coroutine waits in [receive_text]. *)
Definition receive_loop (websocket : WebSocket) (user : User) (channel_id' : Z)
    (script : list Inbound) : M unit :=
  for_each script (receive_turn websocket user channel_id').

Definition websocket_endpoint (websocket : WebSocket) (token : string) (channel_id' : Z)
    (script : list Inbound) : M unit :=
  let* user := websocket_auth websocket token in
  match user with
  | None => ret tt
  | Some user =>
      let* d := gets db in
      if negb (is_member d user channel_id')
      then ws_close websocket WS_1008_POLICY_VIOLATION
      else
        try_except
          (connect websocket (user_id user) channel_id' >>
           broadcast_to_channel channel_id'
             (notification (username user +:+ " joined the chat")) >>
           update_user_status (user_id user) ONLINE >>
           receive_loop websocket user channel_id' script)
          (λ e,
             match e with
             | WebSocketDisconnect =>
                 disconnect (user_id user) channel_id' >>
                 broadcast_to_channel channel_id'
                   (notification (username user +:+ " left the chat")) >>
                 let* w := gets (λ w, w) in
                 if negb (is_user_connected w (user_id user))
                 then update_user_status (user_id user) OFFLINE >> ret tt
                 else ret tt
             | _ => try_except (disconnect (user_id user) channel_id') (λ _, ret tt)
             end)
  end.
End endpoint.

(** ** crud.py, the operations behind the REST endpoints *)

(** [get_user]: [.filter(User.id == user_id).first()] *)
Definition get_user (d : Db) (user_id' : Z) : option User :=
  find (λ u, bool_decide (user_id u = user_id')) (users d).

(** The key that the table gives a new user. *)
Definition next_user_id (d : Db) : Z := 1 + foldr Z.max 0 (user_id <$> users d).

(** [create_user].  The columns [hashed_password] and [role] are no part of
    [User]; the new row has the default status, OFFLINE. *)
Definition create_user (username' : string) : M User :=
  let* d := gets db in
  let db_user :=
    {| user_id := next_user_id d; username := username'; user_status := OFFLINE |} in
  db_commit (λ d, set_users (users d ++ [db_user]) d) >>
  ret db_user.

(** [db_user.channels], the channels that have the user among their
    members, or the empty list when there is no such user. *)
Definition get_channels_for_user (d : Db) (user_id' : Z) : list Channel :=
  match get_user d user_id' with
  | Some db_user => filter (λ ch, user_id db_user ∈ members ch) (channels d)
  | None => []
  end.

(** [ORDER BY created_at DESC]: the newer message comes first. *)
Definition newer_first (m1 m2 : Message) : Prop := (created_at m2 ≤ created_at m1)%Z.

#[global] Instance newer_first_dec m1 m2 : Decision (newer_first m1 m2).
Proof. unfold newer_first. apply _. Defined.

(** [OFFSET] and [LIMIT] as SQLite reads them: a negative offset is no
    offset, a negative limit is no limit. *)
Definition sql_offset {A} (skip : Z) (l : list A) : list A := drop (Z.to_nat skip) l.

Definition sql_limit {A} (limit : Z) (l : list A) : list A :=
  if bool_decide (limit < 0)%Z then l else take (Z.to_nat limit) l.

(** [get_messages].  Among messages with one [created_at] the order is the
    one that the merge sort of the rows gives. *)
Definition get_messages (d : Db) (channel_id' : Z) (limit skip : Z) : list Message :=
  sql_limit limit
    (sql_offset skip
       (merge_sort newer_first
          (filter (λ m, channel_id m = channel_id') (messages d)))).

(** ** redis_client.py, the handler of incoming messages *)


(** [is_in_set] *)
Definition is_in_set (set_name value : string) (r : RedisClient) : bool :=
  bool_decide (value ∈ default ∅ (redis_sets r !! set_name)).

Section message_handler.
(** [json.loads] on the data of a message, [None] when it raises. *)
Variable json_loads : string → option Event.

End message_handler.

(** ** auth.py and the REST endpoints of main.py *)

(** The result of a REST endpoint: the response, or the [HTTPException]
    that it raises. *)
Inductive Http (A : Type) :=
| Response (a : A)
| HTTPException (status_code : Z) (detail : string).
Arguments Response {A} a.
Arguments HTTPException {A} status_code detail.

Definition HTTP_401_UNAUTHORIZED : Z := 401.

(** An endpoint that depends on the result of another. *)
Definition depends {A B} (dep : M (Http A)) (k : A → M (Http B)) : M (Http B) :=
  let* r := dep in
  match r with
  | Response a => k a
  | HTTPException code detail => ret (HTTPException code detail)
  end.

Module Main.
Section rest.
Variable jwt_decode : string → JwtResult.

(** [auth.get_current_user] *)
Definition get_current_user (token : string) : M (Http User) :=
  let* user := get_user_from_token jwt_decode token in
  match user with
  | None => ret (HTTPException HTTP_401_UNAUTHORIZED "Could not validate credentials")
  | Some user => ret (Response user)
  end.

Definition signup (username' : string) : M (Http User) :=
  let* d := gets db in
  match get_user_by_username d username' with
  | Some _ => ret (HTTPException 400 "Username already registered")
  | None => let* u := create_user username' in ret (Response u)
  end.

Definition get_channels (token : string) : M (Http (list Channel)) :=
  depends (get_current_user token) (λ current_user,
    let* d := gets db in
    ret (Response (get_channels_for_user d (user_id current_user)))).

Definition get_messages (token : string) (channel_id' limit skip : Z)
    : M (Http (list Message)) :=
  depends (get_current_user token) (λ current_user,
    let* d := gets db in
    if negb (is_member d current_user channel_id')
    then ret (HTTPException 403 "Not a member of this channel")
    else ret (Response (get_messages d channel_id' limit skip))).

Definition mark_messages_as_read (token : string) (channel_id' : Z)
    : M (Http (list Message)) :=
  depends (get_current_user token) (λ current_user,
    let* d := gets db in
    if negb (is_member d current_user channel_id')
    then ret (HTTPException 403 "Not a member of this channel")
    else
      let* l := mark_messages_as_read channel_id' (user_id current_user) in
      ret (Response l)).

Definition get_users (token : string) : M (Http (list User)) :=
  depends (get_current_user token) (λ _,
    let* d := gets db in ret (Response (users d))).

Definition get_online_users : M (Http (list string)) :=
  let* r := gets redis_client in
  ret (Response (elements (get_set_members "online_users" r))).
End rest.
End Main.

(** * Vocabulary of the statements *)

(** ** The registry seen through its lookups *)

(** The socket registered for a user on a channel, the flag kept for it,
    and membership of the subscriber set. *)
Definition session (m : ConnectionManager) (u c : Z) : option WebSocket :=
  active_connections m !! u ≫= (.!! c).

Definition status_of (m : ConnectionManager) (u c : Z) : option bool :=
  connection_status m !! u ≫= (.!! c).

Definition subscribed (m : ConnectionManager) (c u : Z) : Prop :=
  ∃ s, channel_subscribers m !! c = Some s ∧ u ∈ s.

(** What every state of a running manager satisfies. *)
Record consistent (m : ConnectionManager) : Prop := {
  cons_dom : dom (active_connections m) = dom (connection_status m);
  cons_nonempty : ∀ u conns, active_connections m !! u = Some conns → conns ≠ ∅;
  cons_status : ∀ u c, is_Some (session m u c) ↔ status_of m u c = Some true;
  cons_subs : ∀ u c, subscribed m c u ↔ is_Some (session m u c);
  cons_subs_nonempty : ∀ c s, channel_subscribers m !! c = Some s → s ≠ ∅
}.

(** The manager that [disconnect] leaves when the session is registered. *)
Definition dropped (u c : Z) (m : ConnectionManager) : ConnectionManager :=
  let conns := default ∅ (active_connections m !! u) in
  let st := default ∅ (connection_status m !! u) in
  let s := default ∅ (channel_subscribers m !! c) in
  {| active_connections :=
       if (size (delete c conns) =? 0)%nat then delete u (active_connections m)
       else <[u := delete c conns]> (active_connections m);
     connection_status :=
       if (size (delete c conns) =? 0)%nat then delete u (connection_status m)
       else <[u := <[c := false]> st]> (connection_status m);
     channel_subscribers :=
       if (size (s ∖ {[u]}) =? 0)%nat then delete c (channel_subscribers m)
       else <[c := s ∖ {[u]}]> (channel_subscribers m) |}.

(** The Redis client after [disconnect] removed a registered session. *)
Definition dropped_redis (u c : Z) (m : ConnectionManager) (r : RedisClient) : RedisClient :=
  let conns := default ∅ (active_connections m !! u) in
  let s := default ∅ (channel_subscribers m !! c) in
  let r1 := if (size (delete c conns) =? 0)%nat
            then remove_from_set "online_users" (pretty u) r else r in
  if (size (s ∖ {[u]}) =? 0)%nat then unsubscribe (redis_channel c) r1 else r1.

(** The manager after the registration block of [connect]. *)
Definition registered (ws : WebSocket) (u c : Z) (m : ConnectionManager) : ConnectionManager :=
  {| active_connections :=
       <[u := <[c := ws]> (default ∅ (active_connections m !! u))]> (active_connections m);
     connection_status :=
       <[u := <[c := true]> (default ∅ (connection_status m !! u))]> (connection_status m);
     channel_subscribers :=
       <[c := {[u]} ∪ default ∅ (channel_subscribers m !! c)]> (channel_subscribers m) |}.

(** The Redis client after a [connect] that got past the confirmation. *)
Definition registered_redis (u c : Z) (m : ConnectionManager) (r : RedisClient) : RedisClient :=
  add_to_set "online_users" (pretty u)
    (if (size ({[u]} ∪ default ∅ (channel_subscribers m !! c)) =? 1)%nat
     then subscribe (redis_channel c) c r else r).

Definition confirmation (c : Z) : Event :=
  {| message_type := "connection_status"; data := DataConnection "connected" c |}.

(** ** Runs of the manager *)

(** The operations of the manager that change it. *)
Inductive Call :=
| Connect (ws : WebSocket) (u c : Z)
| Disconnect (u c : Z)
| SendPersonalMessage (e : Event) (u c : Z)
| BroadcastToChannel (c : Z) (e : Event).

Definition call (k : Call) : M unit :=
  match k with
  | Connect ws u c => connect ws u c
  | Disconnect u c => disconnect u c
  | SendPersonalMessage e u c => send_personal_message e u c >> ret tt
  | BroadcastToChannel c e => broadcast_to_channel c e
  end.

(** The world after one call, and after a sequence of calls. *)
Definition after (k : Call) (w : World) : World := (call k w).2.

Definition after_all (ks : list Call) (w : World) : World :=
  fold_left (λ w k, after k w) ks w.

(** The members of the Redis set [online_users]. *)
Definition online_users (w : World) : gset string :=
  get_set_members "online_users" (redis_client w).

(** A user that leaves the online set between [w] and [w'] had a session in
    [w] and has none in [w']. *)
Definition removal_justified (w w' : World) : Prop :=
  ∀ u, pretty u ∈ online_users w → pretty u ∉ online_users w' →
       (∃ c, is_Some (session (manager w) u c)) ∧
       ∀ c, session (manager w') u c = None.

Definition sessions_shrink (w w' : World) : Prop :=
  ∀ u c, is_Some (session (manager w') u c) → is_Some (session (manager w) u c).


(** A call that is no connect stopped by its confirmation: the handshake is
    refused, or the confirmation is written. *)
Definition confirmed (k : Call) : Prop :=
  match k with
  | Connect ws _ _ => accept_raises ws = true ∨ send_json_raises ws = false
  | _ => True
  end.

(** ** The database and the endpoint *)

(** The next [db.commit()] goes through. *)
Definition commit_succeeds (d : Db) : Prop := head (commit_faults d) ≠ Some true.

(** The message that [create_message] builds in database [d]. *)
Definition new_message (mc : MessageCreate) (sender : Z) (d : Db) : Message :=
  {| id := next_message_id d; content := mc_content mc; status := SENT;
     sender_id := sender; channel_id := mc_channel_id mc; created_at := now d |}.

(** A frame fails when it does not decode or when the commit of its message
    raises. *)
Definition frame_fails (json_content : string → option string) (data : string) (d : Db) : Prop :=
  json_content data = None ∨ head (commit_faults d) = Some true.

(** The credential does not authenticate: the token is refused, carries no
    subject, or names no user. *)
Definition authentication_fails (jwt_decode : string → JwtResult) (token : string) (d : Db) : Prop :=
  match jwt_decode token with
  | JwtPayload (Some name) => get_user_by_username d name = None
  | JwtPayload None => True
  | JwtError => True
  | JwtFault => False
  end.

Definition authenticates_as (jwt_decode : string → JwtResult) (token : string) (d : Db)
    (user : User) : Prop :=
  ∃ name, jwt_decode token = JwtPayload (Some name) ∧ get_user_by_username d name = Some user.


(** ** Sample data *)

(** A socket on which every call goes through. *)
Definition healthy (n : nat) : WebSocket :=
  {| ws_id := n; client_state := CONNECTED; accept_raises := false;
     send_json_raises := false; close_raises := false |}.

Definition empty_db : Db :=
  {| messages := []; users := []; channels := []; now := 0; commit_faults := [] |}.

Definition hello : Event := {| message_type := "notification"; data := DataText "hi" |}.

Definition alice : User := {| user_id := 1; username := "alice"; user_status := OFFLINE |}.

(** A decoder for the examples: the empty frame does not decode. *)
Definition sample_json (data : string) : option string :=
  if bool_decide (data = "") then None else Some data.

(** A socket whose writes raise. *)
Definition broken (n : nat) : WebSocket :=
  {| ws_id := n; client_state := CONNECTED; accept_raises := false;
     send_json_raises := true; close_raises := false |}.

(** A decoder of tokens for the examples: only the token [t-alice] is
    valid. *)
Definition sample_jwt (token : string) : JwtResult :=
  if bool_decide (token = "t-alice") then JwtPayload (Some "alice") else JwtError.

(** A database where alice is a member of channel 7 and not of channel 8. *)
Definition chat_db : Db :=
  {| messages := []; users := [alice];
     channels := [{| chan_id := 7; members := [1] |}; {| chan_id := 8; members := [] |}];
     now := 100; commit_faults := [] |}.

(** A database with one message, already read. *)
Definition read_message : Message :=
  {| id := 1; content := "hi"; status := READ; sender_id := 1; channel_id := 7;
     created_at := 0 |}.

Definition read_db : Db :=
  {| messages := [read_message]; users := []; channels := []; now := 0;
     commit_faults := [] |}.

(** A database with one message of user 2 on channel 7 that is not read. *)
Definition unread_message : Message :=
  {| id := 2; content := "yo"; status := SENT; sender_id := 2; channel_id := 7;
     created_at := 5 |}.

Definition unread_db : Db :=
  {| messages := [unread_message]; users := [alice];
     channels := [{| chan_id := 7; members := [1; 2] |}]; now := 10; commit_faults := [] |}.



(** Users 1 and 2 connect to channel 7. *)
Definition two_subscribers : list Call :=
  [Connect (healthy 1) 1 7; Connect (healthy 2) 2 7].

(** A decoder of tokens that raises something that is no JWTError. *)
Definition faulty_jwt (token : string) : JwtResult := JwtFault.

(** * Lemmas and theorems *)

(** ** The registry after a disconnect *)

Section registry.
Implicit Types (m : ConnectionManager) (u c : Z).

Lemma size_zero_map {V} (x : gmap Z V) : (size x =? 0)%nat = true ↔ x = ∅.
Proof. rewrite Nat.eqb_eq. apply map_size_empty_iff. Qed.

Lemma size_zero_set (x : gset Z) : (size x =? 0)%nat = true ↔ x = ∅.
Proof. rewrite Nat.eqb_eq, size_empty_iff. by unfold_leibniz. Qed.

Lemma session_dropped m u c u' c' :
  session (dropped u c m) u' c' =
    if decide (u' = u ∧ c' = c) then None else session m u' c'.
Proof.
  unfold session, dropped; simpl.
  destruct (size (delete c (default ∅ (active_connections m !! u))) =? 0)%nat eqn:E.
  - apply size_zero_map in E.
    destruct (decide (u' = u)) as [->|Hu].
    + rewrite lookup_delete_eq. simpl.
      case_decide as Hd; [done|].
      destruct (active_connections m !! u) as [conns|] eqn:Ha; simpl in *; [|done].
      assert (c' ≠ c) as Hc by (intros ->; by apply Hd).
      rewrite <- (lookup_delete_ne conns c c') by done. by rewrite E.
    + rewrite lookup_delete_ne by done. case_decide; naive_solver.
  - destruct (decide (u' = u)) as [->|Hu].
    + rewrite lookup_insert_eq. simpl.
      case_decide as Hd.
      * destruct Hd as [_ ->]. apply lookup_delete_eq.
      * assert (c' ≠ c) as Hc by (intros ->; by apply Hd).
        rewrite lookup_delete_ne by done.
        destruct (active_connections m !! u); simpl; [done|].
        apply lookup_empty.
    + rewrite lookup_insert_ne by done. case_decide; naive_solver.
Qed.

Lemma consistent_session m u c ws :
  consistent m → session m u c = Some ws →
  ∃ conns st s,
    active_connections m !! u = Some conns ∧ conns !! c = Some ws ∧
    connection_status m !! u = Some st ∧ st !! c = Some true ∧
    channel_subscribers m !! c = Some s ∧ u ∈ s.
Proof.
  intros Hm Hs.
  assert (Hst : status_of m u c = Some true) by (apply (cons_status m Hm); eauto).
  assert (Hsub : subscribed m c u) by (apply (cons_subs m Hm); eauto).
  unfold session, status_of in *.
  destruct (active_connections m !! u) as [conns|]; [|done].
  destruct (connection_status m !! u) as [st|]; [|done].
  destruct Hsub as (s & ? & ?). simpl in *. eauto 10.
Qed.

Lemma status_dropped m u c ws u' c' :
  consistent m → session m u c = Some ws →
  status_of (dropped u c m) u' c' = Some true ↔
  status_of m u' c' = Some true ∧ ¬ (u' = u ∧ c' = c).
Proof.
  intros Hm Hs.
  destruct (consistent_session m u c ws Hm Hs) as (conns & st & s & Ha & Hc & Hst & Hstc & _).
  unfold status_of, dropped; simpl. rewrite Ha, Hst. simpl.
  destruct (size (delete c conns) =? 0)%nat eqn:E.
  - apply size_zero_map in E.
    destruct (decide (u' = u)) as [->|Hu].
    + rewrite lookup_delete_eq, Hst. simpl. split; [done|].
      intros [Ht Hne].
      assert (Hc' : c' ≠ c) by (intros ->; by apply Hne).
      assert (Hsome : is_Some (session m u c')).
      { apply (cons_status m Hm). unfold status_of. by rewrite Hst. }
      unfold session in Hsome. rewrite Ha in Hsome. simpl in Hsome.
      rewrite <- (lookup_delete_ne conns c c') in Hsome by done.
      rewrite E, lookup_empty in Hsome. by destruct Hsome.
    + rewrite lookup_delete_ne by done. naive_solver.
  - destruct (decide (u' = u)) as [->|Hu].
    + rewrite lookup_insert_eq, Hst. simpl.
      destruct (decide (c' = c)) as [->|Hc'].
      * rewrite lookup_insert_eq. naive_solver.
      * rewrite lookup_insert_ne by done. naive_solver.
    + rewrite lookup_insert_ne by done. naive_solver.
Qed.

Lemma subscribed_dropped m u c ws u' c' :
  consistent m → session m u c = Some ws →
  subscribed (dropped u c m) c' u' ↔
  subscribed m c' u' ∧ ¬ (u' = u ∧ c' = c).
Proof.
  intros Hm Hs.
  destruct (consistent_session m u c ws Hm Hs) as (conns & st & s & _ & _ & _ & _ & Hsb & Hin).
  unfold subscribed, dropped; simpl. rewrite Hsb. simpl.
  destruct (size (s ∖ {[u]}) =? 0)%nat eqn:E.
  - apply size_zero_set in E.
    destruct (decide (c' = c)) as [->|Hc'].
    + rewrite lookup_delete_eq, Hsb. split; [naive_solver|].
      intros [(s' & [= <-] & Hin') Hne].
      assert (u' ≠ u) by naive_solver. set_solver.
    + rewrite lookup_delete_ne by done. naive_solver.
  - destruct (decide (c' = c)) as [->|Hc'].
    + rewrite lookup_insert_eq, Hsb. split.
      * intros (s' & [= <-] & Hin'). split; [exists s|]; set_solver.
      * intros [(s' & [= <-] & Hin') Hne].
        assert (u' ≠ u) by naive_solver.
        exists (s ∖ {[u]}). set_solver.
    + rewrite lookup_insert_ne by done. naive_solver.
Qed.

Lemma consistent_dropped m u c ws :
  consistent m → session m u c = Some ws → consistent (dropped u c m).
Proof.
  intros Hm Hs.
  destruct (consistent_session m u c ws Hm Hs)
    as (conns & st & s & Ha & Hc & Hst & Hstc & Hsb & Hin).
  split.
  - unfold dropped; simpl. rewrite Ha. simpl.
    pose proof (cons_dom m Hm) as Hd.
    destruct (size (delete c conns) =? 0)%nat.
    + rewrite !dom_delete_L. by rewrite Hd.
    + rewrite !dom_insert_L. by rewrite Hd.
  - intros u0 x. unfold dropped; simpl. rewrite Ha. simpl.
    destruct (size (delete c conns) =? 0)%nat eqn:E.
    + intros Hx. apply lookup_delete_Some in Hx as [_ Hx].
      by apply (cons_nonempty m Hm u0).
    + intros Hx. apply lookup_insert_Some in Hx as [[_ <-]|[_ Hx]].
      * intros Hempty. apply size_zero_map in Hempty. congruence.
      * by apply (cons_nonempty m Hm u0).
  - intros u0 c0. rewrite session_dropped, (status_dropped m u c ws) by done.
    pose proof (cons_status m Hm u0 c0) as H0.
    case_decide as Hd.
    + split; [by intros [? ?]|]. naive_solver.
    + naive_solver.
  - intros u0 c0. rewrite session_dropped, (subscribed_dropped m u c ws) by done.
    pose proof (cons_subs m Hm u0 c0) as H0.
    case_decide as Hd.
    + split; [naive_solver|by intros [? ?]].
    + naive_solver.
  - intros c0 x. unfold dropped; simpl. rewrite Hsb. simpl.
    destruct (size (s ∖ {[u]}) =? 0)%nat eqn:E.
    + intros Hx. apply lookup_delete_Some in Hx as [_ Hx].
      by apply (cons_subs_nonempty m Hm c0).
    + intros Hx. apply lookup_insert_Some in Hx as [[_ <-]|[_ Hx]].
      * intros Hempty. apply size_zero_set in Hempty. congruence.
      * by apply (cons_subs_nonempty m Hm c0).
Qed.
End registry.

(** ** Running the operations *)

(** Unfold the operations and the monad. *)
Ltac run :=
  unfold connect, disconnect, send_personal_message, bind, try_except, gets, modify,
    ret, raise, getitem, the_active, the_status, the_subscribers,
    redis_subscribe, redis_unsubscribe, redis_add_to_set, redis_remove_from_set,
    redis_publish, ws_accept, ws_send_json, ws_close,
    with_manager, with_redis, with_wire, with_db,
    set_active, set_status, set_subscribers in *;
  simpl in *.

(** Follow the program along the lookups whose result is known. *)
Ltac walk :=
  repeat (simpl;
    match goal with
    | H : ?x = _ |- context [match ?x with _ => _ end] => rewrite H
    | |- context [<[?k := _]> _ !! ?k] => rewrite lookup_insert_eq
    | |- context [delete ?k _ !! ?k] => rewrite lookup_delete_eq
    end);
  simpl.

Section disconnect_facts.
Implicit Types (w : World) (u c : Z).

Lemma disconnect_returns u c w : (disconnect u c w).1 = Ret tt.
Proof.
  unfold disconnect, try_except.
  destruct (bind _ _ w) as [[[]|e] w']; reflexivity.
Qed.

Lemma disconnect_registered u c w ws :
  consistent (manager w) → session (manager w) u c = Some ws →
  disconnect u c w =
    (Ret tt, {| manager := dropped u c (manager w);
                redis_client := dropped_redis u c (manager w) (redis_client w);
                wire := wire w; db := db w |}).
Proof.
  intros Hm Hs.
  destruct (consistent_session _ u c ws Hm Hs)
    as (conns & st & s & Ha & Hc & Hst & Hstc & Hsb & Hin).
  destruct w as [[ac sb cs] r wi d]. unfold dropped, dropped_redis. run.
  repeat (first [rewrite Hst | rewrite Ha | rewrite Hsb | rewrite Hstc | rewrite Hc]; simpl).
  destruct (size (delete c conns) =? 0)%nat eqn:E1; simpl.
  - rewrite lookup_insert_eq. simpl. rewrite Hsb. simpl.
    rewrite bool_decide_eq_true_2 by done.
    simpl. rewrite !delete_insert_eq.
    destruct (size (s ∖ {[u]}) =? 0)%nat eqn:E2; simpl; reflexivity.
  - rewrite Hsb. simpl. rewrite bool_decide_eq_true_2 by done. simpl.
    destruct (size (s ∖ {[u]}) =? 0)%nat eqn:E2; simpl; reflexivity.
Qed.

Lemma disconnect_absent u c w :
  session (manager w) u c = None → status_of (manager w) u c ≠ Some true →
  disconnect u c w = (Ret tt, w).
Proof.
  intros Hs Hst.
  destruct w as [[ac sb cs] r wi d]. unfold session, status_of in *. run.
  assert (Hcs : ∀ st b, cs !! u = Some st → st !! c = Some b →
                <[u := <[c := false]> st]> cs = cs).
  { intros st b H1 H2. rewrite H1 in Hst. simpl in Hst.
    assert (b = false) as -> by (destruct b; congruence).
    by rewrite (insert_id st), (insert_id cs). }
  destruct (cs !! u) as [st|] eqn:E1; simpl.
  - destruct (st !! c) as [b|] eqn:E2; simpl.
    + rewrite (Hcs st b) by done.
      destruct (ac !! u) as [conns|]; simpl in *; [|done]. by rewrite Hs.
    + destruct (ac !! u) as [conns|]; simpl in *; [|done]. by rewrite Hs.
  - destruct (ac !! u) as [conns|]; simpl in *; [|done]. by rewrite Hs.
Qed.

(** Whatever the state, the session is gone after [disconnect]. *)
Lemma disconnect_clears u c w :
  session (manager (disconnect u c w).2) u c = None ∧
  status_of (manager (disconnect u c w).2) u c ≠ Some true.
Proof.
  destruct w as [[ac sb cs] r wi d]. unfold session, status_of. run.
  destruct (cs !! u) as [st|] eqn:E1; simpl;
    [destruct (st !! c) as [b|] eqn:E2; simpl|];
    (destruct (ac !! u) as [conns|] eqn:E3; simpl;
      [destruct (conns !! c) as [x|] eqn:E4; simpl|]);
    rewrite ?E1, ?E3; simpl; rewrite ?E2, ?E4; simpl;
    rewrite ?lookup_insert_eq; simpl; rewrite ?lookup_insert_eq; simpl;
    try (split; [done|congruence]).
  all: destruct (size (delete c conns) =? 0)%nat eqn:E5; simpl;
    rewrite ?lookup_insert_eq, ?E1; simpl;
    (destruct (sb !! c) as [s|] eqn:E6; simpl;
      [destruct (bool_decide (u ∈ s)) eqn:E7; simpl;
        [destruct (size (s ∖ {[u]}) =? 0)%nat eqn:E8; simpl|]|]);
    rewrite ?lookup_delete_eq, ?lookup_insert_eq; simpl;
    rewrite ?lookup_delete_eq, ?lookup_insert_eq, ?E1; simpl; rewrite ?E2; simpl;
    try (split; [done|congruence]).
Qed.

Lemma disconnect_twice u c w :
  disconnect u c (disconnect u c w).2 = (Ret tt, (disconnect u c w).2).
Proof.
  destruct (disconnect_clears u c w). by apply disconnect_absent.
Qed.
End disconnect_facts.

(** ** The registry after a connect *)

Section connect_facts.
Implicit Types (m : ConnectionManager) (w : World) (u c : Z).

Lemma session_registered ws m u c u' c' :
  session (registered ws u c m) u' c' =
    if decide (u' = u ∧ c' = c) then Some ws else session m u' c'.
Proof.
  unfold session, registered; simpl.
  destruct (decide (u' = u)) as [->|Hu].
  - rewrite lookup_insert_eq. simpl.
    destruct (decide (c' = c)) as [->|Hc].
    + rewrite lookup_insert_eq. by rewrite decide_True.
    + rewrite lookup_insert_ne by done. rewrite decide_False by naive_solver.
      destruct (active_connections m !! u); simpl; [done|apply lookup_empty].
  - rewrite lookup_insert_ne by done. by rewrite decide_False by naive_solver.
Qed.

Lemma status_registered ws m u c u' c' :
  status_of (registered ws u c m) u' c' =
    if decide (u' = u ∧ c' = c) then Some true else status_of m u' c'.
Proof.
  unfold status_of, registered; simpl.
  destruct (decide (u' = u)) as [->|Hu].
  - rewrite lookup_insert_eq. simpl.
    destruct (decide (c' = c)) as [->|Hc].
    + rewrite lookup_insert_eq. by rewrite decide_True.
    + rewrite lookup_insert_ne by done. rewrite decide_False by naive_solver.
      destruct (connection_status m !! u); simpl; [done|apply lookup_empty].
  - rewrite lookup_insert_ne by done. by rewrite decide_False by naive_solver.
Qed.

Lemma subscribed_registered ws m u c u' c' :
  subscribed (registered ws u c m) c' u' ↔ (u' = u ∧ c' = c) ∨ subscribed m c' u'.
Proof.
  unfold subscribed, registered; simpl.
  destruct (decide (c' = c)) as [->|Hc].
  - rewrite lookup_insert_eq. split.
    + intros (s & [= <-] & Hin). apply elem_of_union in Hin as [Hin|Hin].
      * left. set_solver.
      * right. destruct (channel_subscribers m !! c); simpl in *; [eauto|set_solver].
    + intros [[-> _]|(s & Hs & Hin)]; eexists; (split; [done|]); [set_solver|].
      rewrite Hs. simpl. set_solver.
  - rewrite lookup_insert_ne by done. naive_solver.
Qed.

Lemma consistent_registered ws m u c :
  consistent m → consistent (registered ws u c m).
Proof.
  intros Hm. split.
  - unfold registered; simpl. rewrite !dom_insert_L. by rewrite (cons_dom m Hm).
  - intros u0 x. unfold registered; simpl. intros Hx.
    apply lookup_insert_Some in Hx as [[_ <-]|[_ Hx]].
    + apply insert_non_empty.
    + by apply (cons_nonempty m Hm u0).
  - intros u0 c0. rewrite session_registered, status_registered.
    case_decide; [split; eauto|apply (cons_status m Hm)].
  - intros u0 c0. rewrite session_registered, subscribed_registered.
    pose proof (cons_subs m Hm u0 c0).
    case_decide; [split; eauto|naive_solver].
  - intros c0 x. unfold registered; simpl. intros Hx.
    apply lookup_insert_Some in Hx as [[_ <-]|[_ Hx]].
    + set_solver.
    + by apply (cons_subs_nonempty m Hm c0).
Qed.

Lemma connect_effect ws u c w :
  consistent (manager w) →
  connect ws u c w =
    (Ret tt,
     if accept_raises ws then with_wire (λ l, l ++ [Accept (ws_id ws)]) w
     else
       {| manager := registered ws u c (manager w);
          redis_client :=
            if send_json_raises ws then redis_client w
            else registered_redis u c (manager w) (redis_client w);
          wire := wire w ++ [Accept (ws_id ws)] ++ [SendJson (ws_id ws) (confirmation c)];
          db := db w |}).
Proof.
  intros Hm. pose proof (cons_dom _ Hm) as Hd.
  destruct w as [[ac sb cs] r wi d]. unfold registered, registered_redis. run.
  destruct (accept_raises ws); simpl; [done|].
  assert (Hcs : ac !! u = None → cs !! u = None).
  { intros H. apply not_elem_of_dom. rewrite <- Hd. by apply not_elem_of_dom. }
  assert (Hcs' : ∀ x, ac !! u = Some x → ∃ st, cs !! u = Some st).
  { intros x H. apply elem_of_dom. rewrite <- Hd. apply elem_of_dom. eauto. }
  destruct (ac !! u) as [conns|] eqn:Ha; simpl.
  - destruct (Hcs' conns eq_refl) as [st Hst].
    destruct (sb !! c) as [s|] eqn:Hsb; destruct (send_json_raises ws); walk;
      rewrite ?insert_insert_eq, <- ?app_assoc; try reflexivity;
      match goal with |- context [Nat.eqb ?a 1] => destruct (Nat.eqb a 1) end;
      reflexivity.
  - pose proof (Hcs eq_refl) as Hst.
    destruct (sb !! c) as [s|] eqn:Hsb; destruct (send_json_raises ws); walk;
      rewrite ?insert_insert_eq, <- ?app_assoc, ?Hst; try reflexivity;
      match goal with |- context [Nat.eqb ?a 1] => destruct (Nat.eqb a 1) end;
      reflexivity.
Qed.
End connect_facts.

(** ** What [send_personal_message] and [broadcast_to_channel] do *)

Section send_facts.
Implicit Types (w : World) (u c : Z) (e : Event).

(** The test [not websocket.client_state.DISCONNECTED] is false for every
    handle, so the branch with [send_json] is never taken. *)
Lemma send_personal_message_unfold e u c w :
  send_personal_message e u c w =
    (Ret false,
     match session (manager w) u c with
     | Some _ => (disconnect u c w).2
     | None => w
     end).
Proof.
  unfold send_personal_message, session, bind, try_except, the_active, gets, ret.
  destruct (active_connections (manager w) !! u) as [conns|]; simpl; [|done].
  destruct (conns !! c) as [ws|]; simpl; [|done].
  pose proof (disconnect_returns u c w) as Hr.
  destruct (disconnect u c w) as [[[]|x] w']; simpl in *; [done|discriminate].
Qed.

Lemma disconnect_keeps_wire u c w :
  wire (disconnect u c w).2 = wire w ∧ db (disconnect u c w).2 = db w.
Proof.
  destruct w as [[ac sb cs] r wi d]. run.
  destruct (cs !! u) as [st|] eqn:E1; simpl;
    [destruct (st !! c) as [b|] eqn:E2; simpl|];
    (destruct (ac !! u) as [conns|] eqn:E3; simpl;
      [destruct (conns !! c) as [x|] eqn:E4; simpl|]);
    rewrite ?E1, ?E3; simpl; rewrite ?E2, ?E4; simpl; try done.
  all: destruct (size (delete c conns) =? 0)%nat eqn:E5; simpl;
    rewrite ?lookup_insert_eq, ?E1; simpl;
    (destruct (sb !! c) as [s|] eqn:E6; simpl;
      [destruct (bool_decide (u ∈ s)) eqn:E7; simpl;
        [destruct (size (s ∖ {[u]}) =? 0)%nat eqn:E8; simpl|]|]);
    done.
Qed.

Lemma subscribed_default (m : ConnectionManager) c u :
  u ∈ default ∅ (channel_subscribers m !! c) ↔ subscribed m c u.
Proof.
  unfold subscribed. destruct (channel_subscribers m !! c) as [s|]; simpl.
  - naive_solver.
  - split; [set_solver|]. by intros (s & ? & _).
Qed.

Lemma broadcast_turn_effect c e u w :
  consistent (manager w) →
  ∃ w', broadcast_turn c e u w = (Ret tt, w') ∧
        consistent (manager w') ∧
        (∀ u' c', session (manager w') u' c' =
                  if decide (u' = u ∧ c' = c) then None else session (manager w) u' c') ∧
        wire w' = wire w ∧ db w' = db w.
Proof.
  intros Hm. unfold broadcast_turn, bind.
  rewrite send_personal_message_unfold.
  destruct (session (manager w) u c) as [ws|] eqn:Hs.
  - rewrite (disconnect_registered u c w ws) by done.
    pose proof (consistent_dropped _ u c ws Hm Hs) as Hm'.
    assert (Hn : ¬ subscribed (dropped u c (manager w)) c u).
    { rewrite (subscribed_dropped _ u c ws) by done. naive_solver. }
    unfold the_subscribers, gets.
    cbn [snd manager negb andb].
    rewrite bool_decide_eq_false_2 by (by rewrite subscribed_default).
    eexists; split; [reflexivity|]. cbn [manager wire db].
    split; [done|]. split; [|done]. intros. apply session_dropped.
  - assert (Hn : ¬ subscribed (manager w) c u).
    { rewrite (cons_subs _ Hm), Hs. by intros [? ?]. }
    unfold the_subscribers, gets. cbn [negb andb].
    rewrite bool_decide_eq_false_2 by (by rewrite subscribed_default).
    eexists; split; [reflexivity|]. split; [done|]. split; [|done].
    intros u' c'. case_decide as Hd; [|done]. by destruct Hd as [-> ->].
Qed.

Lemma broadcast_loop_effect c e (l : list Z) w :
  consistent (manager w) →
  ∃ w', for_each l (broadcast_turn c e) w = (Ret tt, w') ∧
        consistent (manager w') ∧
        (∀ u' c', session (manager w') u' c' =
                  if decide (u' ∈ l ∧ c' = c) then None else session (manager w) u' c') ∧
        wire w' = wire w ∧ db w' = db w.
Proof.
  revert w. induction l as [|u l IH]; intros w Hm; cbn [for_each].
  - exists w. split; [done|]. split; [done|]. split; [|done].
    intros u' c'. case_decide as Hd; [|done]. destruct Hd as [Hin _]. by apply not_elem_of_nil in Hin.
  - destruct (broadcast_turn_effect c e u w Hm) as (w1 & E1 & Hm1 & Hs1 & Hw1 & Hd1).
    destruct (IH w1 Hm1) as (w2 & E2 & Hm2 & Hs2 & Hw2 & Hd2).
    exists w2. unfold bind. rewrite E1, E2.
    split; [done|]. split; [done|]. split; [|split; congruence].
    intros u' c'. rewrite Hs2, Hs1.
    repeat case_decide; try done; exfalso; set_solver.
Qed.

Lemma broadcast_to_channel_loop c e w :
  broadcast_to_channel c e w =
    match channel_subscribers (manager w) !! c with
    | Some s => for_each (elements s) (broadcast_turn c e) w
    | None => (Ret tt, w)
    end.
Proof.
  unfold broadcast_to_channel, bind, the_subscribers, gets.
  destruct (channel_subscribers (manager w) !! c); reflexivity.
Qed.

(** Without any assumption on the state, the loop returns normally. *)
Lemma broadcast_turn_returns c e u w : (broadcast_turn c e u w).1 = Ret tt.
Proof.
  unfold broadcast_turn, bind. rewrite send_personal_message_unfold.
  unfold the_subscribers, gets. simpl.
  destruct (bool_decide _); [apply disconnect_returns|done].
Qed.

Lemma broadcast_loop_returns c e (l : list Z) w :
  (for_each l (broadcast_turn c e) w).1 = Ret tt.
Proof.
  revert w. induction l as [|u l IH]; intros w; simpl; [done|].
  unfold bind. pose proof (broadcast_turn_returns c e u w) as H.
  destruct (broadcast_turn c e u w) as [[[]|x] w1]; simpl in *; [apply IH|discriminate].
Qed.
End send_facts.

(** ** Every state that is reached is consistent *)

Section runs.
Implicit Types (w : World) (u c : Z) (k : Call).

Lemma consistent_fresh : consistent fresh_manager.
Proof.
  split; simpl.
  - done.
  - intros u conns H. by rewrite lookup_empty in H.
  - intros u c. unfold session, status_of; simpl. rewrite !lookup_empty. simpl.
    split; [by intros [? ?]|done].
  - intros u c. unfold session, subscribed; simpl. rewrite !lookup_empty. simpl.
    split; [by intros (? & ? & ?)|by intros [? ?]].
  - intros c s H. by rewrite lookup_empty in H.
Qed.

Lemma consistent_absent (m : ConnectionManager) u c :
  consistent m → session m u c = None → status_of m u c ≠ Some true.
Proof.
  intros Hm Hs Hst. apply (cons_status m Hm) in Hst. rewrite Hs in Hst. by destruct Hst.
Qed.

Lemma disconnect_effect u c w :
  consistent (manager w) →
  disconnect u c w =
    (Ret tt,
     match session (manager w) u c with
     | Some _ => {| manager := dropped u c (manager w);
                    redis_client := dropped_redis u c (manager w) (redis_client w);
                    wire := wire w; db := db w |}
     | None => w
     end).
Proof.
  intros Hm. destruct (session (manager w) u c) as [ws|] eqn:Hs.
  - by apply (disconnect_registered u c w ws).
  - apply disconnect_absent; [done|]. by apply consistent_absent.
Qed.

Lemma consistent_disconnect u c w :
  consistent (manager w) → consistent (manager (disconnect u c w).2).
Proof.
  intros Hm. rewrite disconnect_effect by done. simpl.
  destruct (session (manager w) u c) as [ws|] eqn:Hs; [|done].
  by apply (consistent_dropped _ u c ws).
Qed.

Lemma consistent_after k w :
  consistent (manager w) → consistent (manager (after k w)).
Proof.
  intros Hm. unfold after. destruct k as [ws u c|u c|e u c|c e]; simpl.
  - rewrite connect_effect by done. simpl.
    destruct (accept_raises ws); simpl; [done|]. by apply consistent_registered.
  - by apply consistent_disconnect.
  - unfold bind. rewrite send_personal_message_unfold. simpl.
    destruct (session (manager w) u c); [|done]. by apply consistent_disconnect.
  - rewrite broadcast_to_channel_loop.
    destruct (channel_subscribers (manager w) !! c) as [s|]; [|done].
    destruct (broadcast_loop_effect c e (elements s) w Hm) as (w' & -> & Hm' & _).
    done.
Qed.

Lemma consistent_after_all (ks : list Call) w :
  consistent (manager w) → consistent (manager (after_all ks w)).
Proof.
  revert w. induction ks as [|k ks IH]; intros w Hm; simpl; [done|].
  apply IH. by apply consistent_after.
Qed.

Lemma consistent_run (ks : list Call) sets d :
  consistent (manager (after_all ks (fresh_world sets d))).
Proof. apply consistent_after_all. apply consistent_fresh. Qed.

Lemma is_user_in_channel_true w u c :
  is_user_in_channel w u c = true ↔ status_of (manager w) u c = Some true.
Proof.
  unfold is_user_in_channel, status_of.
  destruct (connection_status (manager w) !! u) as [st|]; simpl; [|done].
  destruct (st !! c) as [[]|]; simpl; naive_solver.
Qed.

Lemma is_user_connected_true w u :
  is_user_connected w u = true ↔ ∃ c, status_of (manager w) u c = Some true.
Proof.
  unfold is_user_connected, status_of.
  destruct (connection_status (manager w) !! u) as [st|]; simpl.
  - rewrite existsb_exists. split.
    + intros ([c b] & Hin & Hb). simpl in Hb. subst b. exists c.
      apply elem_of_map_to_list. by apply list_elem_of_In.
    + intros (c & Hc). exists (c, true). split; [|done].
      apply list_elem_of_In. by apply elem_of_map_to_list.
  - split; [done|by intros (? & ?)].
Qed.

Lemma is_user_connected_sessions w u :
  consistent (manager w) →
  is_user_connected w u = true ↔ ∃ c, is_Some (session (manager w) u c).
Proof.
  intros Hm. rewrite is_user_connected_true.
  split; intros (c & H); exists c; by apply (cons_status _ Hm).
Qed.
End runs.

(** ** The manager: registry, idempotence, delivery *)

Section manager_claims.
Implicit Types (w : World) (u c : Z) (ks : list Call).

Lemma only_session_dropped (m : ConnectionManager) u c :
  (∀ c', c' ≠ c → session m u c' = None) →
  active_connections (dropped u c m) !! u = None ∧
  connection_status (dropped u c m) !! u = None.
Proof.
  intros Honly. unfold dropped; simpl.
  assert (E : delete c (default ∅ (active_connections m !! u)) = ∅).
  { apply map_eq. intros c'. rewrite lookup_empty.
    destruct (decide (c' = c)) as [->|Hc]; [apply lookup_delete_eq|].
    rewrite lookup_delete_ne by done. specialize (Honly c' Hc). unfold session in Honly.
    destruct (active_connections m !! u); simpl in *; [done|apply lookup_empty]. }
  apply size_zero_map in E. rewrite E. by rewrite !lookup_delete_eq.
Qed.

(** C10: in every state that a sequence of connect, disconnect,
    send_personal_message and broadcast_to_channel calls reaches from a
    fresh manager, [active_connections] and [connection_status] have the
    same set of user keys; a connect that is accepted leaves the user in
    both, and a disconnect of the user's only session removes the user from
    both. *)
Theorem active_and_status_same_users (sets : gmap string (gset string)) (d : Db) ks :
  let w := after_all ks (fresh_world sets d) in
  dom (active_connections (manager w)) = dom (connection_status (manager w)) ∧
  (∀ ws u c, accept_raises ws = false →
     u ∈ dom (active_connections (manager (after (Connect ws u c) w))) ∧
     u ∈ dom (connection_status (manager (after (Connect ws u c) w)))) ∧
  (∀ u c, is_Some (session (manager w) u c) →
     (∀ c', c' ≠ c → session (manager w) u c' = None) →
     (u ∉ dom (active_connections (manager (after (Disconnect u c) w)))) ∧
     (u ∉ dom (connection_status (manager (after (Disconnect u c) w))))).
Proof.
  intros w. pose proof (consistent_run ks sets d) as Hm. fold w in Hm.
  split; [apply (cons_dom _ Hm)|]. split.
  - intros ws u c Hacc. unfold after; simpl.
    rewrite connect_effect by done. rewrite Hacc. simpl.
    rewrite !dom_insert_L. set_solver.
  - intros u c [ws Hs] Honly. unfold after; simpl.
    rewrite disconnect_effect by done. rewrite Hs. simpl.
    destruct (only_session_dropped (manager w) u c Honly) as [Ha Hst].
    split; by apply not_elem_of_dom.
Qed.

(** C4: in a state reached by the manager's operations, disconnect of a
    session that is not registered returns normally and leaves the whole
    world as it was: the three dictionaries, the Redis subscriptions and the
    online set; and from any state at all, a second disconnect in a row
    returns normally and changes nothing. *)
Theorem disconnect_is_idempotent (sets : gmap string (gset string)) (d : Db) ks u c :
  let w := after_all ks (fresh_world sets d) in
  session (manager w) u c = None →
  disconnect u c w = (Ret tt, w) ∧
  (∀ w0, (disconnect u c w0).1 = Ret tt ∧
         disconnect u c (disconnect u c w0).2 = (Ret tt, (disconnect u c w0).2)).
Proof.
  intros w Hs. pose proof (consistent_run ks sets d) as Hm. fold w in Hm. split.
  - rewrite disconnect_effect by done. by rewrite Hs.
  - intros w0. split; [apply disconnect_returns|apply disconnect_twice].
Qed.

(** C5, as the code has it: for a registered session, whatever its
    transport, send_personal_message writes nothing to the socket, returns
    False and disconnects the session, after which is_user_in_channel is
    False.  The branch that calls [send_json] and returns True is guarded by
    [not websocket.client_state.DISCONNECTED], which is False for every
    handle. *)
Theorem send_personal_message_never_writes
    (sets : gmap string (gset string)) (d : Db) ks e u c ws :
  let w := after_all ks (fresh_world sets d) in
  session (manager w) u c = Some ws →
  (send_personal_message e u c w).1 = Ret false ∧
  wire (send_personal_message e u c w).2 = wire w ∧
  session (manager (send_personal_message e u c w).2) u c = None ∧
  is_user_in_channel (send_personal_message e u c w).2 u c = false.
Proof.
  intros w Hs. rewrite send_personal_message_unfold, Hs. simpl.
  split; [done|]. split; [apply disconnect_keeps_wire|].
  destruct (disconnect_clears u c w) as [H1 H2]. split; [done|].
  apply not_true_iff_false. by rewrite is_user_in_channel_true.
Qed.

(** C3: broadcast_to_channel runs its loop over the elements of the
    subscriber set read when the call starts.  From any state it returns
    normally.  In a state reached by the manager's operations, the sessions
    it touches are exactly those of the users of that snapshot on this
    channel: each of their sends fails and each is disconnected, one by one,
    and every other session is left as it was, although the live set shrinks
    while the loop runs. *)
Theorem broadcast_runs_over_the_snapshot
    (sets : gmap string (gset string)) (d : Db) ks c e :
  let w := after_all ks (fresh_world sets d) in
  let snapshot := default ∅ (channel_subscribers (manager w) !! c) in
  (∀ w0, (broadcast_to_channel c e w0).1 = Ret tt) ∧
  broadcast_to_channel c e w = for_each (elements snapshot) (broadcast_turn c e) w ∧
  (∃ w', broadcast_to_channel c e w = (Ret tt, w') ∧
         (∀ u c', session (manager w') u c' =
                  if decide (u ∈ snapshot ∧ c' = c) then None
                  else session (manager w) u c') ∧
         (∀ u, u ∈ snapshot →
               is_user_in_channel w' u c = false ∧
               u ∉ default ∅ (channel_subscribers (manager w') !! c))).
Proof.
  intros w snapshot. pose proof (consistent_run ks sets d) as Hm. fold w in Hm.
  split; [|split].
  - intros w0. rewrite broadcast_to_channel_loop.
    destruct (channel_subscribers (manager w0) !! c); [apply broadcast_loop_returns|done].
  - rewrite broadcast_to_channel_loop. unfold snapshot.
    destruct (channel_subscribers (manager w) !! c); simpl; [done|].
    by rewrite elements_empty.
  - assert (E : broadcast_to_channel c e w = for_each (elements snapshot) (broadcast_turn c e) w).
    { rewrite broadcast_to_channel_loop. unfold snapshot.
      destruct (channel_subscribers (manager w) !! c); simpl; [done|].
      by rewrite elements_empty. }
    destruct (broadcast_loop_effect c e (elements snapshot) w Hm)
      as (w' & Hrun & Hm' & Hs & _).
    exists w'. split; [by rewrite E|].
    assert (Hs' : ∀ u c', session (manager w') u c' =
                          if decide (u ∈ snapshot ∧ c' = c) then None
                          else session (manager w) u c').
    { intros u c'. rewrite Hs. repeat case_decide; try done; exfalso; set_solver. }
    split; [done|]. intros u Hin.
    assert (Hnone : session (manager w') u c = None).
    { rewrite Hs'. by rewrite decide_True. }
    split.
    + apply not_true_iff_false. rewrite is_user_in_channel_true.
      by apply consistent_absent.
    + rewrite subscribed_default, (cons_subs _ Hm'), Hnone. by intros [? ?].
Qed.
End manager_claims.

Lemma active_and_status_same_users_witness :
  dom (active_connections (manager (after_all [Connect (healthy 1) 1 7] (fresh_world ∅ empty_db)))) =
  dom (connection_status (manager (after_all [Connect (healthy 1) 1 7] (fresh_world ∅ empty_db)))).
Proof.
  exact (proj1 (active_and_status_same_users ∅ empty_db [Connect (healthy 1) 1 7])).
Defined.

Lemma disconnect_is_idempotent_witness :
  session (manager (after_all [Connect (healthy 1) 1 7; Disconnect 1 7]
                              (fresh_world ∅ empty_db))) 1 7 = None ∧
  disconnect 1 7 (after_all [Connect (healthy 1) 1 7; Disconnect 1 7] (fresh_world ∅ empty_db)) =
    (Ret tt, after_all [Connect (healthy 1) 1 7; Disconnect 1 7] (fresh_world ∅ empty_db)).
Proof.
  assert (H : session (manager (after_all [Connect (healthy 1) 1 7; Disconnect 1 7]
                                          (fresh_world ∅ empty_db))) 1 7 = None)
    by (vm_compute; reflexivity).
  split; [exact H|].
  exact (proj1 (disconnect_is_idempotent ∅ empty_db
                  [Connect (healthy 1) 1 7; Disconnect 1 7] 1 7 H)).
Defined.

Lemma send_personal_message_never_writes_witness :
  session (manager (after_all [Connect (healthy 1) 1 7] (fresh_world ∅ empty_db))) 1 7
    = Some (healthy 1) ∧
  (send_personal_message hello 1 7
     (after_all [Connect (healthy 1) 1 7] (fresh_world ∅ empty_db))).1 = Ret false.
Proof.
  assert (H : session (manager (after_all [Connect (healthy 1) 1 7] (fresh_world ∅ empty_db))) 1 7
              = Some (healthy 1))
    by (vm_compute; reflexivity).
  split; [exact H|].
  exact (proj1 (send_personal_message_never_writes ∅ empty_db
                  [Connect (healthy 1) 1 7] hello 1 7 (healthy 1) H)).
Defined.

Lemma broadcast_runs_over_the_snapshot_witness :
  ∃ w', broadcast_to_channel 7 hello
          (after_all [Connect (healthy 1) 1 7; Connect (healthy 2) 2 7] (fresh_world ∅ empty_db))
          = (Ret tt, w') ∧
        is_user_in_channel w' 2 7 = false.
Proof.
  destruct (proj2 (proj2 (broadcast_runs_over_the_snapshot ∅ empty_db
                            [Connect (healthy 1) 1 7; Connect (healthy 2) 2 7] 7 hello)))
    as (w' & Hrun & _ & Hout).
  exists w'. split; [exact Hrun|].
  apply Hout. refine (bool_decide_unpack _ _). vm_compute. exact I.
Defined.

(** ** Presence *)

Section presence.
Implicit Types (w : World) (u c : Z) (ks : list Call).

Lemma redis_sets_unsubscribe ch (r : RedisClient) :
  redis_sets (unsubscribe ch r) = redis_sets r.
Proof. unfold unsubscribe. by destruct (pubsub_clients r !! ch). Qed.

Lemma online_dropped_redis u c (m : ConnectionManager) (r : RedisClient) :
  get_set_members "online_users" (dropped_redis u c m r) =
    if (size (delete c (default ∅ (active_connections m !! u))) =? 0)%nat
    then get_set_members "online_users" r ∖ {[pretty u]}
    else get_set_members "online_users" r.
Proof.
  unfold dropped_redis, get_set_members.
  destruct (size (delete c _) =? 0)%nat; destruct (size (_ ∖ _) =? 0)%nat;
    rewrite ?redis_sets_unsubscribe; simpl; by rewrite ?lookup_insert_eq.
Qed.

Lemma disconnect_presence u c w :
  consistent (manager w) →
  removal_justified w (disconnect u c w).2 ∧ sessions_shrink w (disconnect u c w).2.
Proof.
  intros Hm. rewrite disconnect_effect by done.
  destruct (session (manager w) u c) as [ws|] eqn:Hs; simpl.
  - split.
    + intros u0 Hin Hout. unfold online_users in *. cbn [snd redis_client] in Hout.
      rewrite online_dropped_redis in Hout.
      destruct (size _ =? 0)%nat eqn:E; [|contradiction].
      destruct (decide (pretty u0 = pretty u)) as [Heq|Hne].
      2:{ exfalso. apply Hout. apply elem_of_difference. split; [done|].
          by rewrite elem_of_singleton. }
      apply (inj pretty) in Heq. subst u0.
      split; [eauto|]. intros c'. unfold session, dropped; simpl.
      rewrite E. by rewrite lookup_delete_eq.
    + intros u0 c0. cbn [snd manager]. rewrite session_dropped.
      case_decide; [by intros [? ?]|done].
  - split; [intros u0 Hin Hout; done|intros u0 c0; done].
Qed.

Lemma presence_trans w1 w2 w3 :
  removal_justified w1 w2 → sessions_shrink w1 w2 →
  removal_justified w2 w3 → sessions_shrink w2 w3 →
  removal_justified w1 w3 ∧ sessions_shrink w1 w3.
Proof.
  intros R12 S12 R23 S23. split.
  - intros u Hin Hout.
    destruct (decide (pretty u ∈ online_users w2)) as [Hmid|Hmid].
    + destruct (R23 u Hmid Hout) as [(c & Hc) Hnone]. split; [|done].
      exists c. by apply S12.
    + destruct (R12 u Hin Hmid) as [Hhad Hnone]. split; [done|].
      intros c. destruct (session (manager w3) u c) eqn:E; [|done].
      assert (is_Some (session (manager w2) u c)) as [x Hx] by (apply S23; eauto).
      rewrite Hnone in Hx. done.
  - intros u c H. by apply S12, S23.
Qed.

Lemma broadcast_turn_disconnect c e u w :
  consistent (manager w) → broadcast_turn c e u w = disconnect u c w.
Proof.
  intros Hm. unfold broadcast_turn, bind. rewrite send_personal_message_unfold.
  pose proof (consistent_disconnect u c w Hm) as Hm'.
  rewrite (disconnect_effect u c w Hm) in *.
  destruct (session (manager w) u c) as [ws|] eqn:Hs.
  - assert (Hn : ¬ subscribed (dropped u c (manager w)) c u).
    { rewrite (subscribed_dropped _ u c ws) by done. naive_solver. }
    unfold the_subscribers, gets. cbn [snd manager negb andb].
    by rewrite bool_decide_eq_false_2 by (by rewrite subscribed_default).
  - assert (Hn : ¬ subscribed (manager w) c u).
    { rewrite (cons_subs _ Hm), Hs. by intros [? ?]. }
    unfold the_subscribers, gets. cbn [negb andb].
    by rewrite bool_decide_eq_false_2 by (by rewrite subscribed_default).
Qed.

Lemma broadcast_loop_presence c e (l : list Z) w :
  consistent (manager w) →
  removal_justified w (for_each l (broadcast_turn c e) w).2 ∧
  sessions_shrink w (for_each l (broadcast_turn c e) w).2.
Proof.
  revert w. induction l as [|u l IH]; intros w Hm; cbn [for_each].
  - split; [by intros u Hin Hout|by intros u c0].
  - unfold bind. rewrite broadcast_turn_disconnect by done.
    pose proof (disconnect_presence u c w Hm) as [R1 S1].
    pose proof (consistent_disconnect u c w Hm) as Hm1.
    rewrite (disconnect_effect u c w Hm) in *. cbn [snd] in *.
    match goal with
    | |- context [for_each l _ ?w1] => destruct (IH w1 Hm1) as [R2 S2]
    end.
    eapply presence_trans; eauto.
Qed.

Lemma online_connect ws u c w :
  consistent (manager w) →
  online_users (after (Connect ws u c) w) =
    if accept_raises ws || send_json_raises ws then online_users w
    else {[pretty u]} ∪ online_users w.
Proof.
  intros Hm. unfold after, online_users; simpl. rewrite connect_effect by done. simpl.
  destruct (accept_raises ws); simpl; [done|].
  destruct (send_json_raises ws); simpl; [done|].
  unfold registered_redis, get_set_members.
  by destruct (size _ =? 1)%nat; simpl; rewrite lookup_insert_eq.
Qed.

Lemma after_presence k w :
  consistent (manager w) → removal_justified w (after k w).
Proof.
  intros Hm. destruct k as [ws u c|u c|e u c|c e].
  - intros u0 Hin Hout. rewrite online_connect in Hout by done.
    destruct (accept_raises ws || send_json_raises ws); [done|].
    exfalso. apply Hout. apply elem_of_union. by right.
  - apply disconnect_presence; done.
  - unfold after; simpl. unfold bind. rewrite send_personal_message_unfold. simpl.
    destruct (session (manager w) u c); [apply disconnect_presence; done|].
    by intros u0 Hin Hout.
  - unfold after; simpl. rewrite broadcast_to_channel_loop.
    destruct (channel_subscribers (manager w) !! c) as [s|]; simpl.
    + by apply broadcast_loop_presence.
    + by intros u0 Hin Hout.
Qed.

(** C6: in every state reached by the manager's operations,
    is_user_connected is True exactly while the user has a registered
    session; after the user's only session is disconnected it is False; a
    connect adds the user to the Redis set [online_users] when its handshake
    and its confirmation go through, which is when connect reaches
    [add_to_set], and leaves the set as it is otherwise; and whatever call
    takes the user out of that set, the user had a session before it and has
    none after it. *)
Theorem presence_follows_sessions (sets : gmap string (gset string)) (d : Db) ks u :
  let w := after_all ks (fresh_world sets d) in
  (is_user_connected w u = true ↔ ∃ c, is_Some (session (manager w) u c)) ∧
  (∀ c, (∀ c', c' ≠ c → session (manager w) u c' = None) →
        is_user_connected (after (Disconnect u c) w) u = false) ∧
  (∀ ws c,
     online_users (after (Connect ws u c) w) =
       (if accept_raises ws || send_json_raises ws then online_users w
        else {[pretty u]} ∪ online_users w) ∧
     (accept_raises ws = false → is_user_connected (after (Connect ws u c) w) u = true)) ∧
  (∀ k, pretty u ∈ online_users w → pretty u ∉ online_users (after k w) →
        is_user_connected w u = true ∧ is_user_connected (after k w) u = false).
Proof.
  intros w. pose proof (consistent_run ks sets d) as Hm. fold w in Hm.
  split; [by apply is_user_connected_sessions|]. split; [|split].
  - intros c Honly. apply not_true_iff_false.
    rewrite is_user_connected_sessions by (by apply consistent_after).
    intros (c0 & x & Hx). unfold after in Hx; simpl in Hx.
    rewrite disconnect_effect in Hx by done.
    destruct (session (manager w) u c) as [ws|] eqn:Hs; simpl in Hx.
    + rewrite session_dropped in Hx. case_decide as Hd; [done|].
      rewrite Honly in Hx; [done|]. intros ->. by apply Hd.
    + destruct (decide (c0 = c)) as [->|Hc]; [congruence|].
      rewrite Honly in Hx; done.
  - intros ws c. split; [by apply online_connect|]. intros Hacc.
    rewrite is_user_connected_sessions by (by apply consistent_after).
    exists c. unfold after; simpl. rewrite connect_effect by done.
    rewrite Hacc. simpl. rewrite session_registered. rewrite decide_True by done. eauto.
  - intros k Hin Hout.
    destruct (after_presence k w Hm u Hin Hout) as [Hhad Hnone]. split.
    + by apply is_user_connected_sessions.
    + apply not_true_iff_false.
      rewrite is_user_connected_sessions by (by apply consistent_after).
      intros (c & x & Hx). by rewrite Hnone in Hx.
Qed.
End presence.

Lemma presence_follows_sessions_witness :
  online_users (after (Connect (healthy 1) 1 7) (after_all [] (fresh_world ∅ empty_db))) =
    {[pretty 1]} ∪ online_users (after_all [] (fresh_world ∅ empty_db)) ∧
  (is_user_connected (after_all [Connect (healthy 1) 1 7] (fresh_world ∅ empty_db)) 1 = true ↔
   ∃ c, is_Some (session (manager (after_all [Connect (healthy 1) 1 7]
                                             (fresh_world ∅ empty_db))) 1 c)).
Proof.
  split.
  - exact (proj1 (proj1 (proj2 (proj2 (presence_follows_sessions ∅ empty_db [] 1)))
                    (healthy 1) 7)).
  - exact (proj1 (presence_follows_sessions ∅ empty_db [Connect (healthy 1) 1 7] 1)).
Defined.

(** ** Persistence and the published message *)

Section persistence.
Implicit Types (w : World) (d : Db).

Lemma create_message_returns mc sender w m w' :
  create_message mc sender w = (Ret m, w') →
  m = new_message mc sender (db w) ∧
  messages (db w') = messages (db w) ++ [m] ∧
  manager w' = manager w ∧ redis_client w' = redis_client w ∧ wire w' = wire w.
Proof.
  destruct w as [mg r wi d]. unfold create_message, db_commit, new_message. run.
  destruct (commit_faults d) as [|[] rest]; simpl; intros [= <- <-]; done.
Qed.

Lemma create_message_succeeds mc sender w :
  commit_succeeds (db w) →
  ∃ w', create_message mc sender w = (Ret (new_message mc sender (db w)), w').
Proof.
  destruct w as [mg r wi d]. unfold commit_succeeds, create_message, db_commit, new_message.
  run. destruct (commit_faults d) as [|[] rest]; simpl; intros H; eauto. done.
Qed.

Lemma create_message_fails mc sender w :
  head (commit_faults (db w)) = Some true →
  ∃ w', create_message mc sender w = (Raise DatabaseError, w') ∧
        messages (db w') = messages (db w) ∧
        manager w' = manager w ∧ redis_client w' = redis_client w ∧ wire w' = wire w.
Proof.
  destruct w as [mg r wi d]. unfold create_message, db_commit. run.
  destruct (commit_faults d) as [|[] rest]; simpl; intros H; try done. eauto 10.
Qed.
End persistence.

Section delivery.
Variable json_content : string → option string.
Implicit Types (w : World) (ws : WebSocket) (user : User) (c : Z).

(** C2: when a frame decodes and its commit goes through, the endpoint
    publishes exactly one event, on the topic of the channel, of type
    [message], whose payload carries the id, content, sender_id, channel_id
    and created_at of the [Message] that create_message returned and stored,
    with status [sent]; and whenever create_message returns, the message it
    returns has status SENT. *)
Theorem published_message_is_the_stored_one ws user c data text w :
  json_content data = Some text →
  commit_succeeds (db w) →
  (∃ m w',
     create_message {| mc_content := text; mc_channel_id := c |} (user_id user) w
       = (Ret m, w') ∧
     status m = SENT ∧ content m = text ∧ sender_id m = user_id user ∧ channel_id m = c ∧
     m ∈ messages (db w') ∧
     receive_turn json_content ws user c (Text data) w
       = (Ret tt, with_redis (publish (redis_channel c) (message_event m)) w') ∧
     message_event m =
       {| message_type := "message";
          data := DataMessage (id m) text (user_id user) c "sent" (created_at m) |}) ∧
  (∀ mc sender w0 m w1, create_message mc sender w0 = (Ret m, w1) → status m = SENT).
Proof.
  intros Hjson Hcommit. split.
  - destruct (create_message_succeeds {| mc_content := text; mc_channel_id := c |}
                (user_id user) w Hcommit) as (w' & Hc).
    destruct (create_message_returns _ _ _ _ _ Hc) as (Hm & Hmsgs & _).
    exists (new_message {| mc_content := text; mc_channel_id := c |} (user_id user) (db w)), w'.
    split; [done|]. repeat (split; [done|]).
    split; [rewrite Hmsgs; set_solver|]. split; [|done].
    unfold receive_turn, try_except, bind, receive_text, ret. rewrite Hjson.
    cbn [ret]. unfold ret. rewrite Hc. reflexivity.
  - intros mc sender w0 m w1 H. apply create_message_returns in H as [-> _]. done.
Qed.
End delivery.

Lemma published_message_is_the_stored_one_witness :
  sample_json "hi" = Some "hi" ∧
  commit_succeeds (db (fresh_world ∅ empty_db)) ∧
  ∃ m w',
    receive_turn sample_json (healthy 1) alice 7 (Text "hi") (fresh_world ∅ empty_db)
      = (Ret tt, with_redis (publish (redis_channel 7) (message_event m)) w') ∧
    status m = SENT.
Proof.
  assert (H1 : sample_json "hi" = Some "hi") by reflexivity.
  assert (H2 : commit_succeeds (db (fresh_world ∅ empty_db))) by (vm_compute; discriminate).
  split; [exact H1|]. split; [exact H2|].
  destruct (proj1 (published_message_is_the_stored_one sample_json (healthy 1) alice 7
                     "hi" "hi" (fresh_world ∅ empty_db) H1 H2))
    as (m & w' & _ & Hst & _ & _ & _ & _ & Hturn & _).
  exists m, w'. split; [exact Hturn|exact Hst].
Defined.

(** ** Frames that fail *)

Section failed_frames.
Variable json_content : string → option string.
Implicit Types (w : World) (ws : WebSocket) (user : User) (c : Z).

Lemma receive_turn_failed ws user c data w :
  frame_fails json_content data (db w) →
  ∃ w1, receive_turn json_content ws user c (Text data) w =
          ((if send_json_raises ws then Raise WebSocketDisconnect else Ret tt),
           with_wire (λ l, l ++ [SendJson (ws_id ws) error_event]) w1) ∧
        messages (db w1) = messages (db w) ∧ manager w1 = manager w ∧
        redis_client w1 = redis_client w ∧ wire w1 = wire w.
Proof.
  intros Hfail. unfold receive_turn, try_except, bind, receive_text, ret.
  destruct (json_content data) as [text|] eqn:Hj.
  - destruct Hfail as [Hn|Hfault]; [congruence|].
    destruct (create_message_fails {| mc_content := text; mc_channel_id := c |}
                (user_id user) w Hfault) as (w1 & -> & H1 & H2 & H3 & H4).
    exists w1. split; [|done].
    unfold ws_send_json, bind, modify, raise, ret. by destruct (send_json_raises ws).
  - exists w. split; [|done].
    unfold raise, ws_send_json, bind, modify, ret. by destruct (send_json_raises ws).
Qed.

(** C7, amended: for every frame that does not decode or whose message
    cannot be stored, the endpoint writes one [error] event to the same
    socket, publishes nothing and stores nothing; when that write goes
    through the turn ends normally and the loop goes on with the next frame,
    and when the write itself raises the turn raises WebSocketDisconnect,
    which ends the loop.  In every turn, whatever the frame, what is
    published is nothing or one [message] event of a stored message. *)
Theorem failed_frame_is_reported ws user c data w :
  frame_fails json_content data (db w) →
  wire (receive_turn json_content ws user c (Text data) w).2
    = wire w ++ [SendJson (ws_id ws) error_event] ∧
  published (redis_client (receive_turn json_content ws user c (Text data) w).2)
    = published (redis_client w) ∧
  messages (db (receive_turn json_content ws user c (Text data) w).2) = messages (db w) ∧
  manager (receive_turn json_content ws user c (Text data) w).2 = manager w ∧
  (receive_turn json_content ws user c (Text data) w).1
    = (if send_json_raises ws then Raise WebSocketDisconnect else Ret tt) ∧
  (send_json_raises ws = false →
   ∀ rest, receive_loop json_content ws user c (Text data :: rest) w
           = receive_loop json_content ws user c rest
               (receive_turn json_content ws user c (Text data) w).2) ∧
  (∀ inb w0,
     published (redis_client (receive_turn json_content ws user c inb w0).2)
       = published (redis_client w0) ∨
     ∃ m, m ∈ messages (db (receive_turn json_content ws user c inb w0).2) ∧
          published (redis_client (receive_turn json_content ws user c inb w0).2)
            = published (redis_client w0) ++ [(redis_channel c, message_event m)]).
Proof.
  intros Hfail.
  destruct (receive_turn_failed ws user c data w Hfail) as (w1 & E & H1 & H2 & H3 & H4).
  rewrite E. simpl. rewrite H1, H2, H3, H4.
  repeat (split; [done|]). split.
  - intros Hsend rest. unfold receive_loop. cbn [for_each]. unfold bind.
    rewrite E, Hsend. reflexivity.
  - intros inb w0. unfold receive_turn, try_except, bind, receive_text, ret.
    destruct inb as [data0| |]; simpl.
    + destruct (json_content data0) as [text|].
      * destruct (create_message {| mc_content := text; mc_channel_id := c |}
                    (user_id user) w0) as [[m|x] w2] eqn:Hc.
        -- right. exists m. apply create_message_returns in Hc as (_ & Hm & _ & Hr & _).
           simpl. rewrite Hm, Hr. split; [set_solver|done].
        -- left.
           assert (Hr : redis_client w2 = redis_client w0).
           { destruct w0 as [mg r wi d]. unfold create_message, db_commit in Hc. run.
             destruct (commit_faults d) as [|[] ?]; simpl in Hc; by simplify_eq. }
           destruct x; unfold raise, ws_send_json, bind, modify, ret;
             destruct (send_json_raises ws); simpl; by rewrite Hr.
      * left. unfold raise, ws_send_json, bind, modify, ret.
        by destruct (send_json_raises ws).
    + by left.
    + left. unfold raise, ws_send_json, bind, modify, ret.
      by destruct (send_json_raises ws).
Qed.
End failed_frames.

(** C7 as stated fails: a frame that does not decode, on a session whose
    socket cannot be written, ends the receive loop: the turn raises
    WebSocketDisconnect and the frame after it is never read. *)
Lemma decode_failure_on_broken_socket_ends_the_loop :
  sample_json "" = None ∧
  (receive_turn sample_json (broken 1) alice 7 (Text "") (fresh_world ∅ empty_db)).1
    = Raise WebSocketDisconnect ∧
  receive_loop sample_json (broken 1) alice 7 [Text ""; Text "hi"] (fresh_world ∅ empty_db)
    = (Raise WebSocketDisconnect,
       with_wire (λ l, l ++ [SendJson 1 error_event]) (fresh_world ∅ empty_db)).
Proof. vm_compute. repeat split; reflexivity. Qed.

Lemma failed_frame_is_reported_witness :
  frame_fails sample_json "" (db (fresh_world ∅ empty_db)) ∧
  wire (receive_turn sample_json (healthy 1) alice 7 (Text "") (fresh_world ∅ empty_db)).2
    = wire (fresh_world ∅ empty_db) ++ [SendJson (ws_id (healthy 1)) error_event].
Proof.
  assert (H : frame_fails sample_json "" (db (fresh_world ∅ empty_db))) by (left; reflexivity).
  split; [exact H|].
  exact (proj1 (failed_frame_is_reported sample_json (healthy 1) alice 7 ""
                  (fresh_world ∅ empty_db) H)).
Defined.

(** ** The handshake *)

Section handshake.
Variable jwt_decode : string → JwtResult.
Variable json_content : string → option string.
Implicit Types (w : World) (ws : WebSocket) (c : Z).

(** C8: when the credential does not authenticate, or the authenticated
    user is not a member of the requested channel, the endpoint calls
    [close] with code 1008 and stops: the manager (sessions, subscriber
    sets), the Redis client (subscriptions, online set) and the database
    are as they were, and nothing but [close] is called on the socket. *)
Theorem rejected_handshake_registers_nothing ws token c (script : list Inbound) w :
  authentication_fails jwt_decode token (db w) ∨
  (∃ user, authenticates_as jwt_decode token (db w) user ∧ is_member (db w) user c = false) →
  manager (websocket_endpoint jwt_decode json_content ws token c script w).2 = manager w ∧
  redis_client (websocket_endpoint jwt_decode json_content ws token c script w).2
    = redis_client w ∧
  db (websocket_endpoint jwt_decode json_content ws token c script w).2 = db w ∧
  (∃ rest,
     wire (websocket_endpoint jwt_decode json_content ws token c script w).2
       = wire w ++ Close (ws_id ws) WS_1008_POLICY_VIOLATION :: rest ∧
     (rest = [] ∨ rest = [Close (ws_id ws) WS_1011_INTERNAL_ERROR])).
Proof.
  intros [Hauth|(user & (name & Hjwt & Huser) & Hmember)];
    destruct w as [mg r wi d];
    unfold websocket_endpoint, websocket_auth, get_user_from_token, authentication_fails in *;
    run.
  - destruct (jwt_decode token) as [[name|]| |]; simpl in *; rewrite ?Hauth; simpl;
      try done;
      destruct (close_raises ws); simpl; (repeat (split; [done|]));
      rewrite <- ?app_assoc; eexists; (split; [reflexivity|]); eauto.
  - rewrite Hjwt. simpl. rewrite Huser. simpl. rewrite Hmember. simpl.
    destruct (close_raises ws); simpl; (repeat (split; [done|]));
      eexists; (split; [reflexivity|]); eauto.
Qed.
End handshake.

Lemma rejected_handshake_registers_nothing_witness :
  authentication_fails sample_jwt "forged" (db (fresh_world ∅ empty_db)) ∧
  manager (websocket_endpoint sample_jwt sample_json (healthy 1) "forged" 7 [Text "hi"]
             (fresh_world ∅ empty_db)).2
    = manager (fresh_world ∅ empty_db).
Proof.
  assert (H : authentication_fails sample_jwt "forged" (db (fresh_world ∅ empty_db)))
    by exact I.
  split; [exact H|].
  exact (proj1 (rejected_handshake_registers_nothing sample_jwt sample_json (healthy 1)
                  "forged" 7 [Text "hi"] (fresh_world ∅ empty_db) (or_introl H))).
Defined.

(** ** The status of a message *)

Section message_status.
Implicit Types (w : World) (m : Message) (i : nat).

Lemma update_first_lookup {A} (p : A → bool) (f : A → A) (l : list A) i x :
  l !! i = Some x →
  update_first p f l !! i = Some x ∨ update_first p f l !! i = Some (f x).
Proof.
  revert i. induction l as [|y l IH]; intros i H; [done|]. simpl.
  destruct (p y); destruct i as [|i]; simpl in *; simplify_eq; eauto.
Qed.

Lemma db_commit_messages (change : Db → Db) w :
  (∀ d, messages (change (set_commit_faults (tail (commit_faults d)) d)) = messages (change d)) →
  messages (db (db_commit change w).2) = messages (db w) ∨
  messages (db (db_commit change w).2) = messages (change (db w)).
Proof.
  intros Hch. destruct w as [mg r wi d]. unfold db_commit. run.
  destruct (commit_faults d) as [|[] rest] eqn:E; simpl; eauto.
  right. specialize (Hch d). rewrite E in Hch. done.
Qed.

Lemma create_message_world mc sender w :
  (create_message mc sender w).2 =
  (db_commit (λ d, set_messages (messages d ++ [new_message mc sender (db w)]) d) w).2.
Proof.
  unfold create_message, new_message, bind, gets. simpl.
  by destruct (db_commit _ w) as [[[]|x] w1].
Qed.

Lemma mark_messages_as_read_world c u w :
  (mark_messages_as_read c u w).2 =
  (db_commit (λ d, set_messages
     ((λ m, if unread_from_others c u m then with_status READ m else m) <$> messages d) d) w).2.
Proof.
  unfold mark_messages_as_read, bind, gets. simpl.
  by destruct (db_commit _ w) as [[[]|x] w1].
Qed.

Lemma update_message_status_world mid s w :
  (update_message_status mid s w).2 = w ∨
  (update_message_status mid s w).2 =
  (db_commit (λ d, set_messages
     (update_first (λ m, bool_decide (id m = mid)) (with_status s) (messages d)) d) w).2.
Proof.
  unfold update_message_status, bind, gets. simpl.
  destruct (find _ (messages (db w))); [right|by left].
  by destruct (db_commit _ w) as [[[]|x] w1].
Qed.

(** C9, amended: create_message leaves every stored message as it is and
    stores the new one as SENT; mark_messages_as_read leaves a message as it
    is or moves it to READ, so it never moves one back; update_message_status
    leaves a message as it is or gives it the status it was called with,
    whatever that status is, so it moves a message forward only when the
    caller asks for a status that is not earlier than the current one. *)
Theorem status_moves_as_requested w i m :
  messages (db w) !! i = Some m →
  (∀ mc sender, messages (db (create_message mc sender w).2) !! i = Some m) ∧
  (∀ mc sender m' w', create_message mc sender w = (Ret m', w') → status m' = SENT) ∧
  (∀ c u, ∃ m', messages (db (mark_messages_as_read c u w).2) !! i = Some m' ∧
                id m' = id m ∧ (status m' = status m ∨ status m' = READ) ∧
                (status_rank (status m) ≤ status_rank (status m'))%Z) ∧
  (∀ mid s, ∃ m', messages (db (update_message_status mid s w).2) !! i = Some m' ∧
                  id m' = id m ∧ (status m' = status m ∨ status m' = s) ∧
                  ((status_rank (status m) ≤ status_rank s)%Z →
                   (status_rank (status m) ≤ status_rank (status m'))%Z)).
Proof.
  intros Hm.
  assert (Hsame : ∃ m', Some m = Some m' ∧ id m' = id m ∧
                        (status m' = status m ∨ status m' = READ) ∧
                        (status_rank (status m) ≤ status_rank (status m'))%Z).
  { exists m. split; [done|]. split; [done|]. split; [by left|lia]. }
  split; [|split; [|split]].
  - intros mc sender. rewrite create_message_world.
    destruct (db_commit_messages
                (λ d, set_messages (messages d ++ [new_message mc sender (db w)]) d) w)
      as [E|E]; [done| |]; rewrite E; simpl; [done|].
    by apply lookup_app_l_Some.
  - intros mc sender m' w' H. by apply create_message_returns in H as [-> _].
  - intros c u. rewrite mark_messages_as_read_world.
    destruct (db_commit_messages
                (λ d, set_messages
                   ((λ m, if unread_from_others c u m then with_status READ m else m)
                      <$> messages d) d) w)
      as [E|E]; [done| |]; rewrite E; simpl.
    + by rewrite Hm.
    + rewrite list_lookup_fmap, Hm. simpl.
      destruct (unread_from_others c u m); [|done].
      eexists; split; [reflexivity|]. simpl. split; [done|]. split; [by right|].
      destruct (status m); simpl; lia.
  - intros mid s.
    assert (Hkeep : ∃ m', Some m = Some m' ∧ id m' = id m ∧
                          (status m' = status m ∨ status m' = s) ∧
                          ((status_rank (status m) ≤ status_rank s)%Z →
                           (status_rank (status m) ≤ status_rank (status m'))%Z)).
    { exists m. split; [done|]. split; [done|]. split; [by left|lia]. }
    destruct (update_message_status_world mid s w) as [E|E]; rewrite E; [by rewrite Hm|].
    destruct (db_commit_messages
                (λ d, set_messages
                   (update_first (λ m, bool_decide (id m = mid)) (with_status s) (messages d)) d) w)
      as [E'|E']; [done| |]; rewrite E'; simpl; [by rewrite Hm|].
    destruct (update_first_lookup (λ m0, bool_decide (id m0 = mid)) (with_status s)
                (messages (db w)) i m Hm) as [H|H]; rewrite H; [done|].
    eexists; split; [reflexivity|]. simpl. split; [done|]. split; [by right|done].
Qed.
End message_status.

(** C9 as stated fails: update_message_status, called with SENT on a message
    that is READ, stores SENT. *)
Lemma update_message_status_moves_back :
  messages (db (fresh_world ∅ read_db)) !! 0%nat = Some read_message ∧
  messages (db (update_message_status 1 SENT (fresh_world ∅ read_db)).2) !! 0%nat
    = Some (with_status SENT read_message) ∧
  (status_rank (status (with_status SENT read_message)) < status_rank (status read_message))%Z.
Proof. vm_compute. repeat split; reflexivity. Qed.

Lemma status_moves_as_requested_witness :
  messages (db (fresh_world ∅ read_db)) !! 0%nat = Some read_message ∧
  (∀ mc sender,
     messages (db (create_message mc sender (fresh_world ∅ read_db)).2) !! 0%nat
       = Some read_message).
Proof.
  assert (H : messages (db (fresh_world ∅ read_db)) !! 0%nat = Some read_message)
    by reflexivity.
  split; [exact H|].
  exact (proj1 (status_moves_as_requested (fresh_world ∅ read_db) 0%nat read_message H)).
Defined.

(** ** The Redis subscription of a channel *)

(** C1, where the code departs from it.  User 1 connects to channel 7 on a
    fresh process: the subscriber set becomes {1} and one PubSub object is
    subscribed to [chat:7].  User 1 connects to channel 7 again, on a second
    socket: the set was not empty and stays {1}, its length is still 1, and
    [subscribe] runs again, so a second PubSub object is subscribed and
    takes the place of the first in [pubsub_clients].  User 1 disconnects:
    the set is empty and its key is deleted, [unsubscribe] closes the second
    object, and the first is still subscribed to [chat:7]. *)
Theorem reconnect_leaves_a_subscription :
  let w0 := fresh_world ∅ empty_db in
  let w1 := after (Connect (healthy 1) 1 7) w0 in
  let w2 := after (Connect (healthy 2) 1 7) w1 in
  let w3 := after (Disconnect 1 7) w2 in
  (channel_subscribers (manager w1) !! 7 = Some {[1]} ∧
   pubsubs (redis_client w1) = [(0%nat, "chat:7")]) ∧
  (channel_subscribers (manager w2) !! 7 = Some {[1]} ∧
   pubsubs (redis_client w2) = [(0%nat, "chat:7"); (1%nat, "chat:7")] ∧
   pubsub_clients (redis_client w2) !! "chat:7" = Some 1%nat) ∧
  (channel_subscribers (manager w3) !! 7 = None ∧
   pubsubs (redis_client w3) = [(0%nat, "chat:7")] ∧
   pubsub_clients (redis_client w3) !! "chat:7" = None).
Proof. vm_compute. repeat split; reflexivity. Qed.

Section subscriptions.
Implicit Types (w : World) (u c : Z) (k : Call).






End subscriptions.

(** A connect whose confirmation cannot be written registers the session
    and the subscriber, then skips the subscription and the online set. *)
Lemma unconfirmed_connect_is_not_subscribed :
  let w1 := after (Connect (broken 1) 1 7) (fresh_world ∅ empty_db) in
  channel_subscribers (manager w1) !! 7 = Some {[1]} ∧
  is_user_connected w1 1 = true ∧
  pubsubs (redis_client w1) = [] ∧
  online_users w1 = ∅.
Proof. vm_compute. repeat split; reflexivity. Qed.

(** ** Runs of the endpoint *)

(** alice opens channel 7, sends one frame and closes.  The frame is stored
    and published.  The only frame written to her socket is the
    confirmation: the join notification is not, because the broadcast of it
    goes through send_personal_message, which removes her session instead
    (see C5), so that the manager is empty again before the first frame is
    read. *)
Example endpoint_run :
  let r := websocket_endpoint sample_jwt sample_json (healthy 1) "t-alice" 7
             [Text "hi"; PeerClosed] (fresh_world ∅ chat_db) in
  let stored := {| id := 1; content := "hi"; status := SENT; sender_id := 1;
                   channel_id := 7; created_at := 100 |} in
  r.1 = Ret tt ∧
  messages (db r.2) = [stored] ∧
  published (redis_client r.2) = [("chat:7", message_event stored)] ∧
  wire r.2 = [Accept 1; SendJson 1 (confirmation 7)] ∧
  manager r.2 = fresh_manager ∧
  manager (after_all [Connect (healthy 1) 1 7;
                      BroadcastToChannel 7 (notification "alice joined the chat")]
                     (fresh_world ∅ chat_db)) = fresh_manager.
Proof. vm_compute. repeat split; reflexivity. Qed.

(** alice asks for channel 8, of which she is no member. *)
Example endpoint_rejects_non_member :
  let r := websocket_endpoint sample_jwt sample_json (healthy 1) "t-alice" 8
             [Text "hi"] (fresh_world ∅ chat_db) in
  r.1 = Ret tt ∧ wire r.2 = [Close 1 1008] ∧ manager r.2 = fresh_manager ∧
  redis_client r.2 = redis_client (fresh_world ∅ chat_db).
Proof. vm_compute. repeat split; reflexivity. Qed.

(** * Further properties of the code *)

(** ** The manager *)

Section manager_more.
Implicit Types (w : World) (u c : Z) (ks : list Call).

Lemma connect_returns ws u c w : (connect ws u c w).1 = Ret tt.
Proof.
  unfold connect, try_except.
  match goal with |- context [bind ?a ?b w] => destruct (bind a b w) as [[[]|x] w1] end;
    reflexivity.
Qed.

(** X1: in every state that the manager's operations reach, a user is in the
    subscriber set of a channel exactly when a socket is registered for that
    user on that channel, is_user_in_channel returns True exactly then, no
    subscriber set is empty and no user is left with an empty dictionary of
    connections. *)
Theorem registry_is_consistent (sets : gmap string (gset string)) (d : Db) ks :
  let w := after_all ks (fresh_world sets d) in
  (∀ u c, u ∈ default ∅ (channel_subscribers (manager w) !! c) ↔
          is_Some (session (manager w) u c)) ∧
  (∀ u c, is_user_in_channel w u c = true ↔ is_Some (session (manager w) u c)) ∧
  (∀ c s, channel_subscribers (manager w) !! c = Some s → s ≠ ∅) ∧
  (∀ u conns, active_connections (manager w) !! u = Some conns → conns ≠ ∅).
Proof.
  intros w. pose proof (consistent_run ks sets d) as Hm. fold w in Hm.
  split; [|split; [|split]].
  - intros u c. rewrite subscribed_default. apply (cons_subs _ Hm).
  - intros u c. rewrite is_user_in_channel_true. symmetry. apply (cons_status _ Hm).
  - apply (cons_subs_nonempty _ Hm).
  - apply (cons_nonempty _ Hm).
Qed.

(** X2: connect never raises.  When the handshake is refused it leaves the
    manager, the Redis client and the database as they were.  When the
    handshake is accepted it registers the socket for that user and channel,
    in place of the socket that was registered there if there was one, and
    leaves every other session as it was; the user is then in the channel
    and connected, whether or not the confirmation could be written. *)
Theorem connect_registers_one_session (sets : gmap string (gset string)) (d : Db) ks ws u c :
  let w := after_all ks (fresh_world sets d) in
  (∀ w0, (connect ws u c w0).1 = Ret tt) ∧
  (accept_raises ws = true →
   manager (after (Connect ws u c) w) = manager w ∧
   redis_client (after (Connect ws u c) w) = redis_client w ∧
   db (after (Connect ws u c) w) = db w) ∧
  (accept_raises ws = false →
   (∀ u' c', session (manager (after (Connect ws u c) w)) u' c' =
             if decide (u' = u ∧ c' = c) then Some ws else session (manager w) u' c') ∧
   is_user_in_channel (after (Connect ws u c) w) u c = true ∧
   is_user_connected (after (Connect ws u c) w) u = true ∧
   u ∈ default ∅ (channel_subscribers (manager (after (Connect ws u c) w)) !! c)).
Proof.
  intros w. pose proof (consistent_run ks sets d) as Hm. fold w in Hm.
  split; [intros w0; apply connect_returns|].
  unfold after; simpl. rewrite connect_effect by done. split.
  - intros ->. done.
  - intros ->. cbn [snd manager].
    pose proof (consistent_registered ws _ u c Hm) as Hm'.
    assert (Hs : session (registered ws u c (manager w)) u c = Some ws).
    { rewrite session_registered. by rewrite decide_True. }
    split; [intros u' c'; apply session_registered|]. split; [|split].
    + apply is_user_in_channel_true. cbn [manager]. apply (cons_status _ Hm'). eauto.
    + apply is_user_connected_sessions; [done|]. exists c. cbn [manager]. eauto.
    + rewrite subscribed_default. apply (cons_subs _ Hm'). eauto.
Qed.

(** X3: in a state reached by the manager's operations, disconnect removes
    the one session it is called for and nothing else: every other session
    and every other membership of a subscriber set is as before, and
    nothing is written to a socket or to the database. *)
Theorem disconnect_touches_one_session (sets : gmap string (gset string)) (d : Db) ks u c :
  let w := after_all ks (fresh_world sets d) in
  (∀ u' c', session (manager (after (Disconnect u c) w)) u' c' =
            if decide (u' = u ∧ c' = c) then None else session (manager w) u' c') ∧
  (∀ u' c', u' ∈ default ∅ (channel_subscribers (manager (after (Disconnect u c) w)) !! c') ↔
            u' ∈ default ∅ (channel_subscribers (manager w) !! c') ∧ ¬ (u' = u ∧ c' = c)) ∧
  wire (after (Disconnect u c) w) = wire w ∧
  db (after (Disconnect u c) w) = db w.
Proof.
  intros w. pose proof (consistent_run ks sets d) as Hm. fold w in Hm.
  unfold after; simpl. rewrite disconnect_effect by done.
  destruct (session (manager w) u c) as [ws|] eqn:Hs; cbn [snd manager wire db].
  - split; [intros u' c'; apply session_dropped|]. split; [|done].
    intros u' c'. rewrite !subscribed_default. by apply (subscribed_dropped _ u c ws).
  - split; [|split; [|done]].
    + intros u' c'. case_decide as Hd; [|done]. by destruct Hd as [-> ->].
    + intros u' c'. split; [|by intros [? _]]. intros Hin. split; [done|].
      intros [-> ->]. apply subscribed_default, (cons_subs _ Hm) in Hin.
      rewrite Hs in Hin. by destruct Hin.
Qed.
End manager_more.

Section manager_round_trips.
Implicit Types (w : World) (u c : Z) (ks : list Call) (r : RedisClient).

(** A property kept by connect and by disconnect is kept by every call. *)
Lemma after_invariant (P : World → Prop) :
  (∀ w u c, consistent (manager w) → P w → P (disconnect u c w).2) →
  (∀ w ws u c, consistent (manager w) → P w → P (connect ws u c w).2) →
  ∀ k w, consistent (manager w) → P w → P (after k w).
Proof.
  intros Hd Hc k w Hm HP. unfold after. destruct k as [ws u c|u c|e u c|c e]; simpl.
  - by apply Hc.
  - by apply Hd.
  - unfold bind. rewrite send_personal_message_unfold. simpl.
    destruct (session (manager w) u c); [by apply Hd|done].
  - rewrite broadcast_to_channel_loop.
    destruct (channel_subscribers (manager w) !! c) as [s|]; [|done].
    generalize (elements s). intros l. revert w Hm HP.
    induction l as [|u l IH]; intros w Hm HP; cbn [for_each]; [done|].
    unfold bind. rewrite broadcast_turn_disconnect by done.
    pose proof (Hd w u c Hm HP) as HP1.
    pose proof (consistent_disconnect u c w Hm) as Hm1.
    rewrite (disconnect_effect u c w Hm) in *. cbn [snd] in *.
    by apply IH.
Qed.

Lemma run_invariant (P : World → Prop) :
  (∀ w u c, consistent (manager w) → P w → P (disconnect u c w).2) →
  (∀ w ws u c, consistent (manager w) → P w → P (connect ws u c w).2) →
  ∀ ks w, consistent (manager w) → P w → P (after_all ks w).
Proof.
  intros Hd Hc ks. induction ks as [|k ks IH]; intros w Hm HP; simpl; [done|].
  apply IH; [by apply consistent_after|by apply after_invariant].
Qed.

(** The two dictionaries of the Redis client have the same keys. *)
Lemma callbacks_match_pubsubs (sets : gmap string (gset string)) (d : Db) ks :
  dom (callback_map (redis_client (after_all ks (fresh_world sets d)))) =
  dom (pubsub_clients (redis_client (after_all ks (fresh_world sets d)))).
Proof.
  apply (run_invariant (λ w, dom (callback_map (redis_client w)) =
                             dom (pubsub_clients (redis_client w)))).
  - intros w u c Hm H. rewrite disconnect_effect by done.
    destruct (session (manager w) u c); [|done]. cbn [snd redis_client].
    unfold dropped_redis.
    set (r1 := if (size (delete c (default ∅ (active_connections (manager w) !! u))) =? 0)%nat
               then remove_from_set "online_users" (pretty u) (redis_client w)
               else redis_client w).
    assert (H1 : dom (callback_map r1) = dom (pubsub_clients r1))
      by (unfold r1; by destruct (_ =? 0)%nat).
    clearbody r1. destruct (_ =? 0)%nat; [|exact H1]. unfold unsubscribe.
    destruct (pubsub_clients r1 !! redis_channel c); [|exact H1]. simpl.
    by rewrite !dom_delete_L, H1.
  - intros w ws u c Hm H. rewrite connect_effect by done.
    destruct (accept_raises ws); [done|]. cbn [snd redis_client].
    destruct (send_json_raises ws); [done|]. unfold registered_redis. simpl.
    destruct (_ =? 1)%nat; [|done]. simpl. by rewrite !dom_insert_L, H.
  - apply consistent_fresh.
  - done.
Qed.

(** X4: in a state reached by the manager's operations, disconnect of a
    registered session keeps the Redis subscription of the channel, with its
    callback and its PubSub object, as long as another user is subscribed to
    the channel; when the user was the only subscriber, the entries of the
    channel in [pubsub_clients] and [callback_map] and its subscriber set
    are gone. *)
Theorem subscription_outlives_one_subscriber
    (sets : gmap string (gset string)) (d : Db) ks u c ws :
  let w := after_all ks (fresh_world sets d) in
  session (manager w) u c = Some ws →
  ((∃ u', u' ≠ u ∧ u' ∈ default ∅ (channel_subscribers (manager w) !! c)) →
   pubsub_clients (redis_client (after (Disconnect u c) w)) = pubsub_clients (redis_client w) ∧
   callback_map (redis_client (after (Disconnect u c) w)) = callback_map (redis_client w) ∧
   pubsubs (redis_client (after (Disconnect u c) w)) = pubsubs (redis_client w)) ∧
  ((∀ u', u' ∈ default ∅ (channel_subscribers (manager w) !! c) → u' = u) →
   pubsub_clients (redis_client (after (Disconnect u c) w)) !! redis_channel c = None ∧
   callback_map (redis_client (after (Disconnect u c) w)) !! redis_channel c = None ∧
   channel_subscribers (manager (after (Disconnect u c) w)) !! c = None).
Proof.
  intros w Hs. pose proof (consistent_run ks sets d) as Hm. fold w in Hm.
  pose proof (callbacks_match_pubsubs sets d ks) as Hk. fold w in Hk.
  unfold after; simpl. rewrite (disconnect_registered u c w ws) by done.
  cbn [snd manager redis_client]. unfold dropped_redis, dropped. cbn [channel_subscribers].
  set (s := default ∅ (channel_subscribers (manager w) !! c)).
  set (r1 := if (size (delete c (default ∅ (active_connections (manager w) !! u))) =? 0)%nat
             then remove_from_set "online_users" (pretty u) (redis_client w)
             else redis_client w).
  assert (Hr1 : pubsub_clients r1 = pubsub_clients (redis_client w) ∧
                callback_map r1 = callback_map (redis_client w) ∧
                pubsubs r1 = pubsubs (redis_client w)).
  { unfold r1. by destruct (_ =? 0)%nat. }
  destruct Hr1 as (H1 & H2 & H3). clearbody r1. split.
  - intros (u' & Hne & Hin).
    assert (E : (size (s ∖ {[u]}) =? 0)%nat = false).
    { apply not_true_iff_false. rewrite size_zero_set. intros Hempty.
      assert (u' ∈ s ∖ {[u]}) as Hin' by set_solver. rewrite Hempty in Hin'. set_solver. }
    rewrite E. done.
  - intros Honly.
    assert (E : (size (s ∖ {[u]}) =? 0)%nat = true).
    { apply size_zero_set. apply set_eq. intros x. split; [|set_solver].
      intros Hx. assert (x = u) by (apply Honly; set_solver). set_solver. }
    rewrite E. unfold unsubscribe.
    destruct (pubsub_clients r1 !! redis_channel c) as [h|] eqn:Hh; simpl.
    + by rewrite !lookup_delete_eq.
    + rewrite lookup_delete_eq. split; [done|]. split; [|done].
      rewrite H2. apply not_elem_of_dom. rewrite Hk. apply not_elem_of_dom.
      by rewrite <- H1.
Qed.

(** X5: in a state reached by the manager's operations, a connect whose
    handshake is accepted, for a session that was not registered, followed
    by the disconnect of that session, gives back [active_connections] and
    [channel_subscribers] exactly as they were.  In [connection_status] the
    one trace is the flag of that channel, which is left as False when the
    user has other sessions. *)
Theorem connect_then_disconnect_restores_registry
    (sets : gmap string (gset string)) (d : Db) ks ws u c :
  let w := after_all ks (fresh_world sets d) in
  let w2 := after (Disconnect u c) (after (Connect ws u c) w) in
  session (manager w) u c = None →
  accept_raises ws = false →
  active_connections (manager w2) = active_connections (manager w) ∧
  channel_subscribers (manager w2) = channel_subscribers (manager w) ∧
  connection_status (manager w2) =
    match connection_status (manager w) !! u with
    | Some st => <[u := <[c := false]> st]> (connection_status (manager w))
    | None => connection_status (manager w)
    end ∧
  (∀ c', is_user_in_channel w2 u c' = is_user_in_channel w u c').
Proof.
  intros w w2 Hs Hacc. pose proof (consistent_run ks sets d) as Hm. fold w in Hm.
  assert (Hm1 : consistent (manager (after (Connect ws u c) w)))
    by (by apply consistent_after).
  assert (E1 : manager (after (Connect ws u c) w) = registered ws u c (manager w)).
  { unfold after; simpl. rewrite connect_effect by done. by rewrite Hacc. }
  assert (E2 : manager w2 = dropped u c (registered ws u c (manager w))).
  { unfold w2, after at 1; simpl. rewrite disconnect_effect by done. rewrite E1.
    rewrite session_registered, decide_True by done. done. }
  assert (Hsub : u ∉ default ∅ (channel_subscribers (manager w) !! c)).
  { rewrite subscribed_default, (cons_subs _ Hm), Hs. by intros [? ?]. }
  assert (Hdom : dom (active_connections (manager w)) = dom (connection_status (manager w)))
    by apply (cons_dom _ Hm).
  assert (Hac : active_connections (manager w2) = active_connections (manager w) ∧
                channel_subscribers (manager w2) = channel_subscribers (manager w) ∧
                connection_status (manager w2) =
                  match connection_status (manager w) !! u with
                  | Some st => <[u := <[c := false]> st]> (connection_status (manager w))
                  | None => connection_status (manager w)
                  end).
  { rewrite E2. unfold dropped, registered. cbn [active_connections channel_subscribers
      connection_status]. rewrite !lookup_insert_eq. cbn [default from_option Datatypes.id].
    assert (Hc : default ∅ (active_connections (manager w) !! u) !! c = None).
    { unfold session in Hs. destruct (active_connections (manager w) !! u); simpl in *;
        [done|apply lookup_empty]. }
    rewrite (delete_insert_id _ c ws Hc).
    assert (Hset : ({[u]} ∪ default ∅ (channel_subscribers (manager w) !! c)) ∖ {[u]}
                   = default ∅ (channel_subscribers (manager w) !! c)) by set_solver.
    rewrite Hset. split; [|split].
    - destruct (active_connections (manager w) !! u) as [conns|] eqn:Ha; cbn [default from_option Datatypes.id].
      + assert ((size conns =? 0)%nat = false) as ->.
        { apply not_true_iff_false. rewrite size_zero_map. by apply (cons_nonempty _ Hm u). }
        rewrite insert_insert_eq. by apply insert_id.
      + rewrite map_size_empty. simpl. by apply delete_insert_id.
    - destruct (channel_subscribers (manager w) !! c) as [s|] eqn:Hsb; cbn [default from_option Datatypes.id].
      + assert ((size s =? 0)%nat = false) as ->.
        { apply not_true_iff_false. rewrite size_zero_set.
          by apply (cons_subs_nonempty _ Hm c). }
        rewrite insert_insert_eq. by apply insert_id.
      + rewrite size_empty. simpl. by apply delete_insert_id.
    - destruct (active_connections (manager w) !! u) as [conns|] eqn:Ha; cbn [default from_option Datatypes.id].
      + assert (is_Some (connection_status (manager w) !! u)) as [st Hst].
        { apply elem_of_dom. rewrite <- Hdom. apply elem_of_dom. eauto. }
        rewrite Hst. cbn [default from_option Datatypes.id].
        assert ((size conns =? 0)%nat = false) as ->.
        { apply not_true_iff_false. rewrite size_zero_map. by apply (cons_nonempty _ Hm u). }
        by rewrite !insert_insert_eq.
      + assert (connection_status (manager w) !! u = None) as Hst.
        { apply not_elem_of_dom. rewrite <- Hdom. by apply not_elem_of_dom. }
        rewrite Hst. rewrite map_size_empty. simpl. by apply delete_insert_id. }
  destruct Hac as (Ha & Hb & Hcs). split; [done|]. split; [done|]. split; [done|].
  intros c'. unfold is_user_in_channel. rewrite Hcs.
  destruct (connection_status (manager w) !! u) as [st|] eqn:Hst; [|by rewrite Hst].
  rewrite lookup_insert_eq. destruct (decide (c' = c)) as [->|Hc'].
  - rewrite lookup_insert_eq. simpl.
    assert (Hn : status_of (manager w) u c ≠ Some true) by (by apply consistent_absent).
    unfold status_of in Hn. rewrite Hst in Hn. simpl in Hn.
    destruct (st !! c) as [[]|]; done.
  - by rewrite lookup_insert_ne.
Qed.

End manager_round_trips.

(** ** The persistence layer *)

Section crud_facts.
Implicit Types (w : World) (d : Db) (m : Message).

Lemma set_commit_faults_same d : set_commit_faults (commit_faults d) d = d.
Proof. by destruct d. Qed.

(** A commit that goes through writes the change and uses up one entry of
    the schedule. *)
Lemma db_commit_ok (change : Db → Db) w :
  commit_succeeds (db w) →
  db_commit change w =
    (Ret tt, with_db (λ d, change (set_commit_faults (tail (commit_faults d)) d)) w).
Proof.
  destruct w as [mg r wi d]. unfold commit_succeeds, db_commit. run.
  destruct (commit_faults d) as [|[] rest] eqn:E; simpl; intros H; try done.
  by rewrite <- E, set_commit_faults_same.
Qed.

Lemma db_commit_fault (change : Db → Db) w :
  head (commit_faults (db w)) = Some true →
  db_commit change w =
    (Raise DatabaseError, with_db (λ d, set_commit_faults (tail (commit_faults d)) d) w).
Proof.
  destruct w as [mg r wi d]. unfold db_commit. run.
  destruct (commit_faults d) as [|[] rest] eqn:E; simpl; intros H; done.
Qed.

Lemma find_update_first {A} (p : A → bool) (f : A → A) (l : list A) :
  (∀ x, p x = true → p (f x) = true) →
  find p (update_first p f l) = f <$> find p l.
Proof.
  intros Hp. induction l as [|x l IH]; [done|]. simpl.
  destruct (p x) eqn:E; simpl; [by rewrite (Hp x E)|]. by rewrite E.
Qed.

Lemma update_first_other {A} (p : A → bool) (f : A → A) (l : list A) i x :
  l !! i = Some x → p x = false → update_first p f l !! i = Some x.
Proof.
  revert i. induction l as [|y l IH]; intros i H Hp; [done|]. simpl.
  destruct (p y) eqn:E; destruct i as [|i]; simpl in *; simplify_eq; try congruence; eauto.
Qed.

Lemma update_first_length {A} (p : A → bool) (f : A → A) (l : list A) :
  length (update_first p f l) = length l.
Proof. induction l as [|y l IH]; [done|]. simpl. destruct (p y); simpl; by rewrite ?IH. Qed.

Lemma find_None_iff {A} (p : A → bool) (l : list A) :
  find p l = None ↔ ∀ x, x ∈ l → p x = false.
Proof.
  split.
  - intros H x Hx. apply (find_none p l H). by apply list_elem_of_In.
  - intros H. induction l as [|y l IH]; [done|]. simpl.
    rewrite (H y) by set_solver. apply IH. intros x Hx. apply H. set_solver.
Qed.

Lemma max_id_bound (l : list Z) x : x ∈ l → (x ≤ foldr Z.max 0 l)%Z.
Proof.
  induction l as [|y l IH]; [by intros H; apply not_elem_of_nil in H|].
  intros H. apply elem_of_cons in H as [->|H]; simpl; [lia|].
  specialize (IH H). lia.
Qed.

(** X6: mark_messages_as_read, when its commit goes through, returns the
    messages of that channel that others sent and that were not READ, now
    READ; afterwards every message of the channel from another sender is
    READ, while the messages of other channels and the user's own messages
    are as they were; a second call returns the empty list and changes no
    message. *)
Theorem mark_messages_as_read_marks_the_unread c u w :
  commit_succeeds (db w) →
  ∃ w',
    mark_messages_as_read c u w =
      (Ret (with_status READ <$>
              filter (λ m, channel_id m = c ∧ sender_id m ≠ u ∧ status m ≠ READ)
                     (messages (db w))), w') ∧
    length (messages (db w')) = length (messages (db w)) ∧
    (∀ m, m ∈ messages (db w') → channel_id m = c → sender_id m ≠ u → status m = READ) ∧
    (∀ i m, messages (db w) !! i = Some m → channel_id m ≠ c ∨ sender_id m = u →
            messages (db w') !! i = Some m) ∧
    (commit_succeeds (db w') →
     ∃ w'', mark_messages_as_read c u w' = (Ret [], w'') ∧
            messages (db w'') = messages (db w')).
Proof.
  intros Hc.
  assert (Hun : ∀ m, unread_from_others c u m = true ↔
                     channel_id m = c ∧ sender_id m ≠ u ∧ status m ≠ READ).
  { intros m. unfold unread_from_others.
    rewrite !andb_true_iff, !negb_true_iff, !bool_decide_eq_true, !bool_decide_eq_false.
    tauto. }
  assert (Hfilter : ∀ l : list Message,
            filter (λ m, unread_from_others c u m = true) l =
            filter (λ m, channel_id m = c ∧ sender_id m ≠ u ∧ status m ≠ READ) l).
  { intros l. apply list_filter_iff. intros m. apply Hun. }
  assert (Hgen : ∀ w0, commit_succeeds (db w0) →
            mark_messages_as_read c u w0 =
              (Ret (with_status READ <$>
                      filter (λ m, channel_id m = c ∧ sender_id m ≠ u ∧ status m ≠ READ)
                             (messages (db w0))),
               with_db (λ d, set_messages
                          ((λ m, if unread_from_others c u m then with_status READ m else m)
                             <$> messages d) (set_commit_faults (tail (commit_faults d)) d))
                       w0)).
  { intros w0 H0. unfold mark_messages_as_read, bind, gets.
    rewrite db_commit_ok by done. unfold ret. by rewrite Hfilter. }
  eexists. split; [by apply Hgen|]. cbn [db with_db messages set_messages].
  set (mark := λ m, if unread_from_others c u m then with_status READ m else m).
  assert (Hdone : ∀ m, m ∈ mark <$> messages (db w) → unread_from_others c u m = false).
  { intros m Hm. apply list_elem_of_fmap in Hm as (m0 & -> & _). unfold mark.
    destruct (unread_from_others c u m0) eqn:E; [|done].
    apply not_true_iff_false. rewrite Hun. simpl. tauto. }
  split; [by rewrite length_fmap|]. split; [|split].
  - intros m Hm H1 H2. specialize (Hdone m Hm).
    destruct (decide (status m = READ)) as [|Hn]; [done|].
    assert (unread_from_others c u m = true) by (by apply Hun). congruence.
  - intros i m Hi Hor. rewrite list_lookup_fmap, Hi. simpl. unfold mark.
    destruct (unread_from_others c u m) eqn:E; [|done].
    apply Hun in E. destruct Hor; tauto.
  - intros Hc'. eexists. split.
    + rewrite Hgen by done. cbn [db with_db messages set_messages]. fold mark.
      assert (filter (λ m, channel_id m = c ∧ sender_id m ≠ u ∧ status m ≠ READ)
                     (mark <$> messages (db w)) = []) as ->; [|done].
      rewrite <- Hfilter. generalize Hdone. generalize (mark <$> messages (db w)).
      intros l Hl. induction l as [|m l IH]; [done|].
      rewrite filter_cons. rewrite decide_False by (rewrite Hl; [done|set_solver]).
      apply IH. intros m0 H0. apply Hl. set_solver.
    + cbn [db with_db messages set_messages].
      assert (Hid : ∀ l : list Message,
                (∀ m, m ∈ l → unread_from_others c u m = false) →
                (λ m, if unread_from_others c u m then with_status READ m else m) <$> l = l).
      { intros l Hl. induction l as [|m l IH]; [done|]. rewrite fmap_cons.
        rewrite IH by (intros m0 H0; apply Hl; set_solver).
        by rewrite Hl by set_solver. }
      by apply Hid.
Qed.
End crud_facts.

Section crud_updates.
Implicit Types (w : World) (d : Db) (m : Message).

(** X7: update_message_status with an id that no message has returns None
    and leaves the world as it is, without a commit.  With the id of a
    message, when the commit goes through, it returns that message with the
    new status, a lookup of the id then finds that message with the new
    status, and every message with another id is as it was; when the commit
    raises, DatabaseError is raised and no message has changed. *)
Theorem update_message_status_sets_one_row mid s w :
  (find (λ m, bool_decide (id m = mid)) (messages (db w)) = None →
   update_message_status mid s w = (Ret None, w)) ∧
  (∀ m, find (λ m, bool_decide (id m = mid)) (messages (db w)) = Some m →
     (commit_succeeds (db w) →
      ∃ w', update_message_status mid s w = (Ret (Some (with_status s m)), w') ∧
            find (λ m, bool_decide (id m = mid)) (messages (db w')) = Some (with_status s m) ∧
            length (messages (db w')) = length (messages (db w)) ∧
            (∀ i m0, messages (db w) !! i = Some m0 → id m0 ≠ mid →
                     messages (db w') !! i = Some m0)) ∧
     (head (commit_faults (db w)) = Some true →
      ∃ w', update_message_status mid s w = (Raise DatabaseError, w') ∧
            messages (db w') = messages (db w))).
Proof.
  split.
  - intros H. unfold update_message_status, bind, gets. by rewrite H.
  - intros m Hm. split.
    + intros Hc. eexists. split.
      * unfold update_message_status, bind, gets. rewrite Hm.
        rewrite db_commit_ok by done. reflexivity.
      * cbn [db with_db messages set_messages set_commit_faults].
        split; [|split].
        -- rewrite find_update_first, Hm; [done|]. by intros x Hx.
        -- apply update_first_length.
        -- intros i m0 Hi Hne. apply update_first_other; [done|].
           by apply bool_decide_eq_false_2.
    + intros Hf. eexists. split.
      * unfold update_message_status, bind, gets. rewrite Hm.
        rewrite db_commit_fault by done. reflexivity.
      * done.
Qed.

(** X8: update_user_status with an id that no user has returns None and
    leaves the world as it is.  With the id of a user, when the commit goes
    through, it returns that user with the new status, get_user then finds
    the user with the new status, and the users with another id and all
    messages and channels are as they were. *)
Theorem update_user_status_sets_one_row uid s w :
  (get_user (db w) uid = None → update_user_status uid s w = (Ret None, w)) ∧
  (∀ u, get_user (db w) uid = Some u → commit_succeeds (db w) →
     ∃ w', update_user_status uid s w = (Ret (Some (with_user_status s u)), w') ∧
           get_user (db w') uid = Some (with_user_status s u) ∧
           (∀ i u0, users (db w) !! i = Some u0 → user_id u0 ≠ uid →
                    users (db w') !! i = Some u0) ∧
           messages (db w') = messages (db w) ∧ channels (db w') = channels (db w) ∧
           manager w' = manager w ∧ redis_client w' = redis_client w).
Proof.
  unfold get_user. split.
  - intros H. unfold update_user_status, bind, gets. by rewrite H.
  - intros u Hu Hc. eexists. split.
    + unfold update_user_status, bind, gets. rewrite Hu.
      rewrite db_commit_ok by done. reflexivity.
    + cbn [db with_db users set_users set_commit_faults messages channels manager
           redis_client].
      split; [|split; [|done]].
      * rewrite find_update_first, Hu; [done|]. by intros x Hx.
      * intros i u0 Hi Hne. apply update_first_other; [done|].
        by apply bool_decide_eq_false_2.
Qed.

(** X9: when the ids of the stored messages are pairwise distinct and the
    commit goes through, create_message appends one message, whose id is
    larger than every stored id, so that the ids stay pairwise distinct and
    a lookup of the new id finds the new message; when the commit raises,
    DatabaseError is raised and nothing is stored. *)
Theorem create_message_keeps_ids_distinct mc sender w :
  NoDup (id <$> messages (db w)) →
  (commit_succeeds (db w) →
   ∃ m w', create_message mc sender w = (Ret m, w') ∧
           messages (db w') = messages (db w) ++ [m] ∧
           (∀ m0, m0 ∈ messages (db w) → (id m0 < id m)%Z) ∧
           NoDup (id <$> messages (db w')) ∧
           find (λ m0, bool_decide (id m0 = id m)) (messages (db w')) = Some m) ∧
  (head (commit_faults (db w)) = Some true →
   ∃ w', create_message mc sender w = (Raise DatabaseError, w') ∧
         messages (db w') = messages (db w)).
Proof.
  intros Hnd. split.
  - intros Hc.
    destruct (create_message_succeeds mc sender w Hc) as (w' & E).
    destruct (create_message_returns _ _ _ _ _ E) as (_ & Hmsgs & _).
    exists (new_message mc sender (db w)), w'. split; [done|]. split; [done|].
    assert (Hlt : ∀ m0, m0 ∈ messages (db w) →
                        (id m0 < id (new_message mc sender (db w)))%Z).
    { intros m0 H0. unfold new_message, next_message_id. simpl.
      assert (id m0 ≤ foldr Z.max 0 (id <$> messages (db w)))%Z; [|lia].
      apply max_id_bound. apply list_elem_of_fmap. eauto. }
    split; [done|]. split.
    + rewrite Hmsgs, fmap_app. apply NoDup_app. split; [done|]. split.
      * intros x Hx Hin. apply list_elem_of_fmap in Hx as (m0 & -> & H0).
        rewrite list_fmap_singleton in Hin. apply list_elem_of_singleton in Hin.
        specialize (Hlt m0 H0). rewrite Hin in Hlt. lia.
      * simpl. apply NoDup_singleton.
    + rewrite Hmsgs. generalize Hlt. generalize (new_message mc sender (db w)).
      generalize (messages (db w)).
      intros l m Hl. induction l as [|m0 l IH]; simpl.
      * by rewrite bool_decide_eq_true_2.
      * rewrite bool_decide_eq_false_2.
        -- apply IH. intros m1 H1. apply Hl. set_solver.
        -- assert (id m0 < id m)%Z by (apply Hl; set_solver). lia.
  - intros Hf. destruct (create_message_fails mc sender w Hf) as (w' & E & Hm & _).
    eauto.
Qed.
End crud_updates.

Section queries.
Implicit Types (w : World) (d : Db) (m : Message).

#[local] Instance newer_first_total : Total newer_first.
Proof. intros m1 m2. unfold newer_first. lia. Qed.

#[local] Instance newer_first_trans : Transitive newer_first.
Proof. intros m1 m2 m3. unfold newer_first. lia. Qed.

Lemma StronglySorted_take_drop {A} (R : relation A) (l : list A) n k :
  StronglySorted R l → StronglySorted R (take k (drop n l)).
Proof.
  intros H. rewrite <- (take_drop n l) in H. apply StronglySorted_app_1_r in H.
  rewrite <- (take_drop k (drop n l)) in H. by apply StronglySorted_app_1_l in H.
Qed.

Lemma get_messages_of_channel d c limit skip m :
  m ∈ get_messages d c limit skip → m ∈ messages d ∧ channel_id m = c.
Proof.
  intros Hm.
  assert (Hrows : m ∈ merge_sort newer_first (filter (λ m, channel_id m = c) (messages d))).
  { unfold get_messages, sql_limit, sql_offset in Hm. case_bool_decide.
    - by apply (subseteq_drop (Z.to_nat skip)).
    - by apply (subseteq_drop (Z.to_nat skip)), (subseteq_take (Z.to_nat limit)). }
  rewrite merge_sort_Permutation in Hrows. apply list_elem_of_filter in Hrows. tauto.
Qed.

(** X10: get_messages returns stored messages of the requested channel only,
    newest first; with a limit that is not negative it returns at most that
    many; a page of [a] messages followed by the next page of [b] messages
    is the page of [a + b] messages; and with a negative limit and no
    offset it returns every message of the channel. *)
Theorem get_messages_pages d c :
  (∀ limit skip m, m ∈ get_messages d c limit skip → m ∈ messages d ∧ channel_id m = c) ∧
  (∀ limit skip, StronglySorted newer_first (get_messages d c limit skip)) ∧
  (∀ limit skip, (0 ≤ limit)%Z →
     (length (get_messages d c limit skip) ≤ Z.to_nat limit)%nat) ∧
  (∀ a b skip, (0 ≤ a)%Z → (0 ≤ b)%Z → (0 ≤ skip)%Z →
     get_messages d c a skip ++ get_messages d c b (skip + a) =
     get_messages d c (a + b) skip) ∧
  (∀ limit skip, (limit < 0)%Z → (skip ≤ 0)%Z →
     get_messages d c limit skip ≡ₚ filter (λ m, channel_id m = c) (messages d)).
Proof.
  set (rows := merge_sort newer_first (filter (λ m, channel_id m = c) (messages d))).
  assert (Hsorted : StronglySorted newer_first rows).
  { apply StronglySorted_merge_sort; apply _. }
  split; [|split; [|split; [|split]]].
  - intros limit skip m. apply get_messages_of_channel.
  - intros limit skip. unfold get_messages, sql_limit, sql_offset. fold rows.
    case_bool_decide.
    + rewrite <- (take_drop (Z.to_nat skip) rows) in Hsorted.
      by apply StronglySorted_app_1_r in Hsorted.
    + by apply StronglySorted_take_drop.
  - intros limit skip Hl. unfold get_messages, sql_limit, sql_offset. fold rows.
    rewrite bool_decide_eq_false_2 by lia. rewrite length_take. lia.
  - intros a b skip Ha Hb Hs. unfold get_messages, sql_limit, sql_offset. fold rows.
    rewrite !bool_decide_eq_false_2 by lia.
    rewrite !Z2Nat.inj_add by lia. rewrite <- drop_drop. apply take_take_drop.
  - intros limit skip Hl Hs. unfold get_messages, sql_limit, sql_offset. fold rows.
    rewrite bool_decide_eq_true_2 by lia.
    replace (Z.to_nat skip) with 0%nat by lia. simpl. apply merge_sort_Permutation.
Qed.
End queries.

Section rest_facts.
Variable jwt_decode : string → JwtResult.
Implicit Types (w : World) (d : Db) (u : User).

Lemma get_current_user_cases token w :
  (∃ user, authenticates_as jwt_decode token (db w) user ∧
     Main.get_current_user jwt_decode token w = (Ret (Response user), w)) ∨
  (authentication_fails jwt_decode token (db w) ∧ jwt_decode token ≠ JwtFault ∧
     Main.get_current_user jwt_decode token w =
       (Ret (HTTPException 401 "Could not validate credentials"), w)) ∨
  (jwt_decode token = JwtFault ∧
     Main.get_current_user jwt_decode token w = (Raise AuthError, w)).
Proof.
  unfold Main.get_current_user, get_user_from_token, authenticates_as, authentication_fails.
  destruct (jwt_decode token) as [[name|]| |] eqn:Hjwt; simpl.
  - unfold bind, gets, ret. simpl.
    destruct (get_user_by_username (db w) name) as [user|] eqn:Huser.
    + left. exists user. split; [by exists name|done].
    + right. left. done.
  - right. left. done.
  - right. left. done.
  - right. right. done.
Qed.

(** X11: GET /messages answers with messages only to an authenticated member
    of the channel, and then with messages of that channel; a token that
    does not authenticate gets 401 and a caller who is no member gets 403;
    in no case does the request change the state. *)
Theorem messages_are_served_to_members_only token c limit skip w :
  (Main.get_messages jwt_decode token c limit skip w).2 = w ∧
  match (Main.get_messages jwt_decode token c limit skip w).1 with
  | Ret (Response l) =>
      (∃ user, authenticates_as jwt_decode token (db w) user ∧
         is_member (db w) user c = true) ∧
      l = get_messages (db w) c limit skip ∧
      ∀ m, m ∈ l → m ∈ messages (db w) ∧ channel_id m = c
  | Ret (HTTPException code _) =>
      (code = 401%Z ∧ authentication_fails jwt_decode token (db w)) ∨
      (code = 403%Z ∧ ∃ user, authenticates_as jwt_decode token (db w) user ∧
         is_member (db w) user c = false)
  | Raise _ => jwt_decode token = JwtFault
  end.
Proof.
  unfold Main.get_messages, depends, bind.
  destruct (get_current_user_cases token w)
    as [(user & Hauth & Hcur)|[(Hfail & _ & Hcur)|(Hfault & Hcur)]]; rewrite Hcur; simpl.
  - unfold gets. simpl.
    destruct (is_member (db w) user c) eqn:Hmem; simpl.
    + split; [done|]. split; [by exists user|]. split; [done|].
      intros m Hm. by apply get_messages_of_channel in Hm.
    + split; [done|]. right. split; [done|]. by exists user.
  - split; [done|]. by left.
  - done.
Qed.

(** X12: POST /messages/read from a caller who is not an authenticated
    member of the channel marks nothing: the state stays as it was and the
    answer is no list of messages. *)
Theorem marking_read_needs_membership token c w :
  (∀ user, authenticates_as jwt_decode token (db w) user →
     is_member (db w) user c = false) →
  (Main.mark_messages_as_read jwt_decode token c w).2 = w ∧
  ∀ l, (Main.mark_messages_as_read jwt_decode token c w).1 ≠ Ret (Response l).
Proof.
  intros Hno. unfold Main.mark_messages_as_read, depends, bind.
  destruct (get_current_user_cases token w)
    as [(user & Hauth & Hcur)|[(Hfail & _ & Hcur)|(Hfault & Hcur)]]; rewrite Hcur; simpl.
  - unfold gets. simpl. rewrite (Hno user Hauth). simpl. done.
  - done.
  - done.
Qed.
End rest_facts.

Section accounts.
Implicit Types (w : World) (d : Db) (u : User).

Lemma get_user_by_username_None d name :
  get_user_by_username d name = None ↔ name ∉ username <$> users d.
Proof.
  unfold get_user_by_username. rewrite find_None_iff, list_elem_of_fmap. split.
  - intros H (u & -> & Hu). specialize (H u Hu). by rewrite bool_decide_eq_true_2 in H.
  - intros H u Hu. apply bool_decide_eq_false_2. intros <-. apply H. by exists u.
Qed.

Lemma get_user_by_username_Some d name u :
  get_user_by_username d name = Some u → u ∈ users d ∧ username u = name.
Proof.
  unfold get_user_by_username. intros H. apply find_some in H as [Hin Hp].
  split; [by apply list_elem_of_In|]. by apply bool_decide_eq_true_1 in Hp.
Qed.

Lemma find_app_None {A} (p : A → bool) (l : list A) x :
  find p l = None → find p (l ++ [x]) = if p x then Some x else None.
Proof.
  induction l as [|y l IH]; simpl; [done|]. destruct (p y); [done|]. apply IH.
Qed.

(** X13: POST /signup answers 400 and changes nothing when the username is
    taken; otherwise, when the commit goes through, it appends one user
    with that username and a fresh id, who is then found by
    get_user_by_username, so that a second signup with the name answers
    400; when the commit raises the table of users is as before.  Hence
    usernames and ids that are distinct stay distinct. *)
Theorem signup_takes_free_names_only name w :
  match Main.signup name w with
  | (Ret (Response user), w') =>
      username user = name ∧
      (name ∉ username <$> users (db w)) ∧
      (user_id user ∉ user_id <$> users (db w)) ∧
      users (db w') = users (db w) ++ [user] ∧
      get_user_by_username (db w') name = Some user ∧
      (Main.signup name w').1 = Ret (HTTPException 400 "Username already registered")
  | (Ret (HTTPException code _), w') =>
      code = 400%Z ∧ w' = w ∧ name ∈ (username <$> users (db w))
  | (Raise _, w') =>
      users (db w') = users (db w) ∧ head (commit_faults (db w)) = Some true
  end ∧
  (NoDup (username <$> users (db w)) →
   NoDup (username <$> users (db (Main.signup name w).2))) ∧
  (NoDup (user_id <$> users (db w)) →
   NoDup (user_id <$> users (db (Main.signup name w).2))).
Proof.
  unfold Main.signup, bind, gets. 
  destruct (get_user_by_username (db w) name) as [u0|] eqn:Hfind.
  - simpl. split; [|done]. split; [done|]. split; [done|].
    apply get_user_by_username_Some in Hfind as [Hin <-].
    apply list_elem_of_fmap. by exists u0.
  - pose proof (proj1 (get_user_by_username_None _ _) Hfind) as Hfree.
    assert (Hid : next_user_id (db w) ∉ user_id <$> users (db w)).
    { intros Hin. apply max_id_bound in Hin. unfold next_user_id in Hin. lia. }
    unfold create_user, bind, gets.
    destruct (decide (head (commit_faults (db w)) = Some true)) as [Hfault|Hok].
    + rewrite (db_commit_fault _ w Hfault). destruct w as [mg r wi d]. simpl. done.
    + rewrite (db_commit_ok _ w Hok). destruct w as [mg r wi d]. simpl in *.
      unfold ret. simpl.
      assert (Hnew : get_user_by_username
                (set_users (users d ++ [{| user_id := next_user_id d; username := name;
                                          user_status := OFFLINE |}])
                   (set_commit_faults (tail (commit_faults d)) d)) name =
              Some {| user_id := next_user_id d; username := name;
                      user_status := OFFLINE |}).
      { unfold get_user_by_username. simpl. unfold get_user_by_username in Hfind.
        rewrite (find_app_None _ _ _ Hfind). simpl. by rewrite bool_decide_eq_true_2. }
      split; [|split].
      * split; [done|]. split; [done|]. split; [done|]. split; [done|].
        split; [done|]. by rewrite Hnew.
      * intros Hnd. rewrite fmap_app. simpl. apply NoDup_app. split; [done|].
        split; [|apply NoDup_singleton]. intros x Hx Hx'.
        apply list_elem_of_singleton in Hx'. by subst.
      * intros Hnd. rewrite fmap_app. simpl. apply NoDup_app. split; [done|].
        split; [|apply NoDup_singleton]. intros x Hx Hx'.
        apply list_elem_of_singleton in Hx'. by subst.
Qed.
End accounts.

Section channel_lists.
Variable jwt_decode : string → JwtResult.
Implicit Types (w : World) (d : Db) (u : User) (ch : Channel).

Lemma get_user_of_stored d u :
  u ∈ users d → ∃ u', get_user d (user_id u) = Some u' ∧ user_id u' = user_id u.
Proof.
  intros Hin. unfold get_user.
  destruct (find _ (users d)) as [u'|] eqn:Hfind.
  - exists u'. split; [done|]. apply find_some in Hfind as [_ Hp].
    by apply bool_decide_eq_true_1 in Hp.
  - rewrite find_None_iff in Hfind. specialize (Hfind u Hin).
    by rewrite bool_decide_eq_true_2 in Hfind.
Qed.

Lemma get_channel_of_stored d ch :
  NoDup (chan_id <$> channels d) → ch ∈ channels d →
  get_channel d (chan_id ch) = Some ch.
Proof.
  unfold get_channel. generalize (channels d). intros l.
  induction l as [|ch0 l IH]; intros Hnd Hin; [by apply not_elem_of_nil in Hin|].
  simpl in *. apply NoDup_cons in Hnd as [Hfresh Hnd].
  apply elem_of_cons in Hin as [<-|Hin].
  - by rewrite bool_decide_eq_true_2.
  - rewrite bool_decide_eq_false_2; [by apply IH|].
    intros Heq. apply Hfresh. rewrite Heq. apply list_elem_of_fmap. by exists ch.
Qed.

Lemma get_channel_stored d c ch :
  get_channel d c = Some ch → ch ∈ channels d ∧ chan_id ch = c.
Proof.
  unfold get_channel. intros H. apply find_some in H as [Hin Hp].
  split; [by apply list_elem_of_In|]. by apply bool_decide_eq_true_1 in Hp.
Qed.

(** X14: with channel ids that are distinct, the channels that GET /channels
    lists for a caller are the channels on which GET /messages answers the
    same caller with messages. *)
Theorem listed_channels_are_the_readable_ones token w l :
  NoDup (chan_id <$> channels (db w)) →
  (Main.get_channels jwt_decode token w).1 = Ret (Response l) →
  ∀ c limit skip,
    c ∈ chan_id <$> l ↔
    ∃ ms, (Main.get_messages jwt_decode token c limit skip w).1 = Ret (Response ms).
Proof.
  intros Hnd Hl c limit skip. revert Hl.
  unfold Main.get_channels, Main.get_messages, depends, bind.
  destruct (get_current_user_cases jwt_decode token w)
    as [(user & Hauth & Hcur)|[(Hfail & _ & Hcur)|(Hfault & Hcur)]]; rewrite Hcur; simpl;
    [|done|done].
  unfold gets, ret. simpl. intros [= <-].
  destruct Hauth as (name & _ & Hfound).
  apply get_user_by_username_Some in Hfound as [Hin _].
  destruct (get_user_of_stored _ _ Hin) as (u' & Hu' & Hid).
  unfold get_channels_for_user. rewrite Hu', Hid.
  rewrite list_elem_of_fmap. unfold is_member. split.
  - intros (ch & -> & Hch). apply list_elem_of_filter in Hch as [Hmem Hch].
    rewrite (get_channel_of_stored _ _ Hnd Hch). rewrite bool_decide_eq_true_2 by done.
    simpl. eauto.
  - intros [ms Hms]. destruct (get_channel (db w) c) as [ch|] eqn:Hget; [|done].
    apply get_channel_stored in Hget as [Hch <-]. exists ch. split; [done|].
    apply list_elem_of_filter. split; [|done].
    destruct (bool_decide (user_id user ∈ members ch)) eqn:Hb; [|done].
    by apply bool_decide_eq_true_1 in Hb.
Qed.
End channel_lists.

Section routing.
Variable json_loads : string → option Event.
Implicit Types (w : World) (u c : Z) (ks : list Call) (r : RedisClient).



End routing.

Section frames_in_order.
Variable json_content : string → option string.
Implicit Types (w : World) (ws : WebSocket) (user : User) (c : Z) (m : Message).

(** One turn on a text frame, on a socket whose writes go through: the
    frame is stored and published, or it is answered with an error. *)
Lemma receive_turn_text ws user c data w :
  send_json_raises ws = false →
  ∃ w', receive_turn json_content ws user c (Text data) w = (Ret tt, w') ∧
    manager w' = manager w ∧
    ((∃ text, json_content data = Some text ∧
        messages (db w') = messages (db w) ++
          [new_message {| mc_content := text; mc_channel_id := c |} (user_id user) (db w)] ∧
        published (redis_client w') = published (redis_client w) ++
          [(redis_channel c,
            message_event
              (new_message {| mc_content := text; mc_channel_id := c |} (user_id user) (db w)))] ∧
        wire w' = wire w ∧
        (commit_faults (db w) = [] → commit_faults (db w') = [])) ∨
     (messages (db w') = messages (db w) ∧
      published (redis_client w') = published (redis_client w) ∧
      wire w' = wire w ++ [SendJson (ws_id ws) error_event] ∧
      (commit_faults (db w) = [] → json_content data = None ∧ commit_faults (db w') = []))).
Proof.
  intros Hsend. destruct w as [mg r wi d].
  unfold receive_turn, receive_text, create_message, db_commit, new_message. run.
  destruct (json_content data) as [text|] eqn:Hj; simpl.
  - destruct (commit_faults d) as [|[] rest] eqn:Hf; simpl.
    + eexists. split; [done|]. split; [done|]. left. exists text. done.
    + rewrite Hsend. simpl. eexists. split; [done|]. split; [done|]. right. done.
    + eexists. split; [done|]. split; [done|]. left. exists text. done.
  - rewrite Hsend. simpl. eexists. split; [done|]. split; [done|]. right. done.
Qed.

(** X17: on a socket whose writes go through, the receive loop goes through
    any sequence of text frames without ending; the messages it stores are
    appended in the order of arrival and are exactly the messages it
    publishes to the topic of the channel, in the same order, each with the
    connected user as sender, the channel of the connection and status
    SENT; every other frame is answered with one error event; the manager is
    not touched.  When no commit fails, the stored contents are the contents
    of the frames that decode. *)
Theorem stored_frames_are_published_in_order ws user c (datas : list string) w :
  send_json_raises ws = false →
  ∃ w' new,
    receive_loop json_content ws user c (Text <$> datas) w = (Ret tt, w') ∧
    manager w' = manager w ∧
    messages (db w') = messages (db w) ++ new ∧
    published (redis_client w') =
      published (redis_client w) ++ ((λ m, (redis_channel c, message_event m)) <$> new) ∧
    Forall (λ m, sender_id m = user_id user ∧ channel_id m = c ∧ status m = SENT) new ∧
    sublist (content <$> new) (omap json_content datas) ∧
    (length new ≤ length datas)%nat ∧
    wire w' = wire w ++
      replicate (length datas - length new) (SendJson (ws_id ws) error_event) ∧
    (commit_faults (db w) = [] → content <$> new = omap json_content datas).
Proof.
  intros Hsend. revert w. induction datas as [|data datas IH]; intros w.
  - exists w, []. simpl. unfold ret. rewrite !app_nil_r. repeat split; done.
  - destruct (receive_turn_text ws user c data w Hsend) as (w1 & Hturn & Hmg & Hcase).
    destruct (IH w1) as (w' & new & Hloop & Hmg' & Hmsgs & Hpub & Hnew & Hsub & Hlen & Hwire & Hall).
    unfold receive_loop in *. cbn [fmap list_fmap for_each]. unfold bind. rewrite Hturn.
    destruct Hcase as [(text & Hj & Hm1 & Hp1 & Hw1 & Hf1)|(Hm1 & Hp1 & Hw1 & Hf1)].
    + eexists w', (_ :: new). split; [exact Hloop|]. split; [congruence|].
      split; [by rewrite Hmsgs, Hm1, <- app_assoc|].
      split; [by rewrite Hpub, Hp1, <- app_assoc|].
      split; [by constructor|].
      simpl. rewrite Hj. simpl.
      split; [by apply sublist_skip|]. split; [lia|].
      split; [by rewrite Hwire, Hw1|].
      intros Hf. f_equal. exact (Hall (Hf1 Hf)).
    + exists w', new. split; [exact Hloop|]. split; [congruence|].
      split; [by rewrite Hmsgs, Hm1|]. split; [by rewrite Hpub, Hp1|].
      split; [done|]. simpl.
      split. { destruct (json_content data); [by apply sublist_cons|done]. }
      split; [lia|].
      split. { rewrite Hwire, Hw1, <- app_assoc. f_equal.
               replace (S (length datas) - length new)%nat
                 with (S (length datas - length new)) by lia. done. }
      intros Hf. destruct (Hf1 Hf) as [-> Hf']. by apply Hall.
Qed.
End frames_in_order.

Section endpoint_runs.
Variable jwt_decode : string → JwtResult.
Variable json_content : string → option string.
Implicit Types (w : World) (ws : WebSocket) (user : User) (u c : Z).

(** A broadcast to a channel removes every session on that channel and
    writes to no socket. *)
Lemma broadcast_clears c e w :
  consistent (manager w) →
  ∃ w', broadcast_to_channel c e w = (Ret tt, w') ∧
        consistent (manager w') ∧
        (∀ u c', session (manager w') u c' =
                 if decide (c' = c) then None else session (manager w) u c') ∧
        wire w' = wire w ∧ db w' = db w.
Proof.
  intros Hm. rewrite broadcast_to_channel_loop.
  destruct (channel_subscribers (manager w) !! c) as [s|] eqn:Hs.
  - destruct (broadcast_loop_effect c e (elements s) w Hm) as (w' & E & Hm' & Hs' & Hw & Hd).
    exists w'. split; [done|]. split; [done|]. split; [|done].
    intros u c'. rewrite Hs'. destruct (decide (c' = c)) as [->|Hne].
    + case_decide as Hin; [done|].
      destruct (session (manager w) u c) as [x|] eqn:Hx; [|done].
      exfalso. apply Hin. split; [|done]. apply elem_of_elements.
      assert (Hsub : subscribed (manager w) c u) by (apply (cons_subs _ Hm); eauto).
      destruct Hsub as (s' & Hs'' & Hu). by simplify_eq.
    + case_decide as Hin; [by destruct Hin|done].
  - exists w. split; [done|]. split; [done|]. split; [|done].
    intros u c'. case_decide as Hc; [|done]. subst c'.
    destruct (session (manager w) u c) as [x|] eqn:Hx; [|done].
    assert (Hsub : subscribed (manager w) c u) by (apply (cons_subs _ Hm); eauto).
    destruct Hsub as (s' & Hs'' & Hu). by simplify_eq.
Qed.

Lemma update_user_status_quiet uid s w :
  manager (update_user_status uid s w).2 = manager w ∧
  wire (update_user_status uid s w).2 = wire w.
Proof.
  destruct w as [mg r wi d]. unfold update_user_status, db_commit. run.
  destruct (find _ (users d)); simpl; [|done].
  destruct (commit_faults d) as [|[] rest]; done.
Qed.

Lemma receive_turn_quiet ws user c inb w :
  ∃ n, manager (receive_turn json_content ws user c inb w).2 = manager w ∧
       wire (receive_turn json_content ws user c inb w).2 =
         wire w ++ replicate n (SendJson (ws_id ws) error_event).
Proof.
  destruct w as [mg r wi d].
  unfold receive_turn, receive_text, create_message, db_commit. run.
  destruct inb as [data| |]; simpl.
  - destruct (json_content data) as [text|]; simpl.
    + destruct (commit_faults d) as [|[] rest]; simpl;
        try (exists 0%nat; simpl; by rewrite app_nil_r).
      exists 1%nat. by destruct (send_json_raises ws).
    + exists 1%nat. by destruct (send_json_raises ws).
  - exists 0%nat. simpl. by rewrite app_nil_r.
  - exists 1%nat. by destruct (send_json_raises ws).
Qed.

Lemma receive_loop_quiet ws user c (script : list Inbound) w :
  ∃ n, manager (receive_loop json_content ws user c script w).2 = manager w ∧
       wire (receive_loop json_content ws user c script w).2 =
         wire w ++ replicate n (SendJson (ws_id ws) error_event).
Proof.
  unfold receive_loop. revert w. induction script as [|inb script IH]; intros w.
  - exists 0%nat. simpl. by rewrite app_nil_r.
  - cbn [for_each]. unfold bind.
    destruct (receive_turn_quiet ws user c inb w) as (n & Hm & Hw).
    destruct (receive_turn json_content ws user c inb w) as [[[]|x] w1]; simpl in *.
    + destruct (IH w1) as (n' & Hm' & Hw'). exists (n + n')%nat.
      rewrite Hm', Hw', Hm, Hw, replicate_add, app_assoc. done.
    + by exists n.
Qed.

Lemma websocket_auth_ok ws token user w :
  authenticates_as jwt_decode token (db w) user →
  websocket_auth jwt_decode ws token w = (Ret (Some user), w).
Proof.
  intros (name & Hjwt & Huser).
  unfold websocket_auth, get_user_from_token, try_except, bind, gets, ret.
  rewrite Hjwt. simpl. by rewrite Huser.
Qed.

(** X18: when a member's handshake reaches connect, in a state reached by
    the manager's operations, the endpoint ends, whatever the peer and the
    database do, in a state where the channel has no session and no
    subscriber set, while the sessions on other channels are as they were;
    and all that the endpoint writes to a socket is the accept, the
    confirmation after an accepted handshake, and error events: the join
    and leave notifications of its broadcasts reach no socket. *)
Theorem endpoint_ends_without_subscribers
    (sets : gmap string (gset string)) (d : Db) ks ws token c (script : list Inbound) user :
  let w := after_all ks (fresh_world sets d) in
  let w' := (websocket_endpoint jwt_decode json_content ws token c script w).2 in
  authenticates_as jwt_decode token (db w) user →
  is_member (db w) user c = true →
  (∀ u c', session (manager w') u c' =
           if decide (c' = c) then None else session (manager w) u c') ∧
  channel_subscribers (manager w') !! c = None ∧
  ∃ n, wire w' =
       wire w ++
       (if accept_raises ws then [Accept (ws_id ws)]
        else [Accept (ws_id ws); SendJson (ws_id ws) (confirmation c)]) ++
       replicate n (SendJson (ws_id ws) error_event).
Proof.
  intros w w' Hauth Hmem.
  pose proof (consistent_run ks sets d) as Hm. fold w in Hm.
  set (e1 := notification (username user +:+ " joined the chat")).
  set (e2 := notification (username user +:+ " left the chat")).
  pose proof (connect_effect ws (user_id user) c w Hm) as Hc.
  pose proof (consistent_after (Connect ws (user_id user) c) w Hm) as Hm1.
  unfold after in Hm1. cbn [call] in Hm1.
  destruct (connect ws (user_id user) c w) as [r1 w1] eqn:Hconnect.
  injection Hc as -> Hw1. cbn [snd] in Hm1.
  assert (Hs1 : ∀ u c', c' ≠ c → session (manager w1) u c' = session (manager w) u c').
  { intros u c' Hne. rewrite Hw1. destruct (accept_raises ws); [done|].
    cbn [manager]. rewrite session_registered. case_decide as Hd; [|done].
    by destruct Hd as [_ ->]. }
  assert (Hwire1 : wire w1 = wire w ++
            (if accept_raises ws then [Accept (ws_id ws)]
             else [Accept (ws_id ws); SendJson (ws_id ws) (confirmation c)])).
  { rewrite Hw1. by destruct (accept_raises ws). }
  clear Hw1.
  destruct (broadcast_clears c e1 w1 Hm1) as (w2 & Hb & Hm2 & Hs2 & Hwire2 & _).
  set (final := λ w0 : World,
         manager w0 = manager w2 ∧
         ∃ n, wire w0 = wire w2 ++ replicate n (SendJson (ws_id ws) error_event)).
  assert (Hquiet : ∀ w0 n,
            manager w0 = manager w2 →
            wire w0 = wire w2 ++ replicate n (SendJson (ws_id ws) error_event) →
            ∀ x, final (match x with
                        | WebSocketDisconnect =>
                            disconnect (user_id user) c >>
                            broadcast_to_channel c e2 >>
                            let* w5 := gets (λ w5, w5) in
                            if negb (is_user_connected w5 (user_id user))
                            then update_user_status (user_id user) OFFLINE >> ret tt
                            else ret tt
                        | _ => try_except (disconnect (user_id user) c) (λ _, ret tt)
                        end w0).2).
  { intros w0 n Hmg Hwire x.
    assert (Hm0 : consistent (manager w0)) by (by rewrite Hmg).
    assert (Hnone : ∀ u, session (manager w0) u c = None).
    { intros u. rewrite Hmg, Hs2. by rewrite decide_True. }
    assert (Hd : disconnect (user_id user) c w0 = (Ret tt, w0)).
    { rewrite disconnect_effect by done. by rewrite Hnone. }
    assert (Hnosub : channel_subscribers (manager w0) !! c = None).
    { destruct (channel_subscribers (manager w0) !! c) as [s|] eqn:Hsub; [|done].
      exfalso. pose proof (cons_subs_nonempty _ Hm0 c s Hsub) as Hne.
      apply set_choose_L in Hne as [u Hu].
      assert (Hsome : is_Some (session (manager w0) u c)).
      { apply (cons_subs _ Hm0). by exists s. }
      rewrite Hnone in Hsome. by destruct Hsome. }
    assert (Hother : final (try_except (disconnect (user_id user) c) (λ _, ret tt) w0).2).
    { unfold try_except. rewrite Hd. split; [done|]. by exists n. }
    destruct x; try exact Hother.
    unfold bind. rewrite Hd. cbv beta iota.
    rewrite broadcast_to_channel_loop, Hnosub. unfold gets. cbv beta iota.
    destruct (negb (is_user_connected w0 (user_id user))).
    - destruct (update_user_status_quiet (user_id user) OFFLINE w0) as [Ho1 Ho2].
      destruct (update_user_status (user_id user) OFFLINE w0) as [[r5|x5] w5];
        unfold ret; cbn [snd] in *; (split; [congruence|]); exists n; congruence.
    - unfold ret. cbn [snd]. split; [done|]. by exists n. }
  assert (Hfinal : final w').
  { unfold w', websocket_endpoint, bind at 1.
    rewrite (websocket_auth_ok ws token user w Hauth).
    unfold bind at 1, gets. rewrite Hmem. cbn [negb].
    fold e1 e2. unfold try_except at 1. unfold bind at 1. rewrite Hconnect. cbv beta iota.
    unfold bind at 1. rewrite Hb. cbv beta iota.
    unfold bind at 1.
    destruct (update_user_status_quiet (user_id user) ONLINE w2) as [Hu1 Hu2].
    destruct (update_user_status (user_id user) ONLINE w2) as [[r3|x3] w3]; cbn [snd] in *.
    - destruct (receive_loop_quiet ws user c script w3) as (n & Hl1 & Hl2).
      destruct (receive_loop json_content ws user c script w3) as [[[]|x4] w4];
        cbn [snd] in *.
      + split; [congruence|]. exists n. congruence.
      + apply (Hquiet w4 n); congruence.
    - apply (Hquiet w3 0%nat); [done|]. cbn [replicate]. by rewrite app_nil_r. }
  destruct Hfinal as [Hmg (n & Hwire)].
  assert (Hsess : ∀ u c', session (manager w') u c' =
                          if decide (c' = c) then None else session (manager w) u c').
  { intros u c'. rewrite Hmg, Hs2. case_decide; [done|]. by apply Hs1. }
  split; [done|]. split.
  - destruct (channel_subscribers (manager w') !! c) as [s|] eqn:Hsub; [|done].
    exfalso. rewrite Hmg in Hsub.
    pose proof (cons_subs_nonempty _ Hm2 c s Hsub) as Hne.
    apply set_choose_L in Hne as [u Hu].
    assert (Hsome : is_Some (session (manager w2) u c)).
    { apply (cons_subs _ Hm2). by exists s. }
    rewrite Hs2, decide_True in Hsome by done. by destruct Hsome.
  - exists n. by rewrite Hwire, Hwire2, Hwire1, <- app_assoc.
Qed.
End endpoint_runs.

Section online_list.
Implicit Types (w : World) (u c : Z) (ks : list Call).

Lemma after_invariant_confirmed (P : World → Prop) :
  (∀ w u c, consistent (manager w) → P w → P (disconnect u c w).2) →
  (∀ w ws u c, consistent (manager w) → confirmed (Connect ws u c) → P w →
               P (connect ws u c w).2) →
  ∀ ks w, Forall confirmed ks → consistent (manager w) → P w → P (after_all ks w).
Proof.
  intros Hd Hc ks. induction ks as [|k ks IH]; intros w Hks Hm HP; simpl; [done|].
  apply Forall_cons in Hks as [Hk Hks].
  apply IH; [done|by apply consistent_after|].
  unfold after. destruct k as [ws u c|u c|e u c|c e]; simpl.
  - by apply Hc.
  - by apply Hd.
  - unfold bind. rewrite send_personal_message_unfold. simpl.
    destruct (session (manager w) u c); [by apply Hd|done].
  - rewrite broadcast_to_channel_loop.
    destruct (channel_subscribers (manager w) !! c) as [s|]; [|done].
    generalize (elements s). intros l. clear Hk. revert w Hm HP.
    induction l as [|u l IHl]; intros w Hm HP; cbn [for_each]; [done|].
    unfold bind. rewrite broadcast_turn_disconnect by done.
    pose proof (Hd w u c Hm HP) as HP1.
    pose proof (consistent_disconnect u c w Hm) as Hm1.
    rewrite (disconnect_effect u c w Hm) in *. cbn [snd] in *.
    by apply IHl.
Qed.

Lemma online_users_disconnect u c w ws :
  session (manager w) u c = Some ws →
  online_users {| manager := dropped u c (manager w);
                  redis_client := dropped_redis u c (manager w) (redis_client w);
                  wire := wire w; db := db w |} =
    if (size (delete c (default ∅ (active_connections (manager w) !! u))) =? 0)%nat
    then online_users w ∖ {[pretty u]} else online_users w.
Proof. intros _. unfold online_users. cbn [redis_client]. apply online_dropped_redis. Qed.

(** X19: starting with an empty Redis set [online_users], in every state
    reached by the manager's operations GET /online-users lists, without
    repetition, only users that are connected: each entry is the id of a
    user for whom is_user_connected is True. *)
Theorem online_users_are_connected (d : Db) ks :
  let w := after_all ks (fresh_world ∅ d) in
  ∃ l, Main.get_online_users w = (Ret (Response l), w) ∧
       NoDup l ∧
       ∀ x, x ∈ l → ∃ u, x = pretty u ∧ is_user_connected w u = true.
Proof.
  intros w. exists (elements (online_users w)). split; [done|].
  split; [apply NoDup_elements|].
  pose proof (consistent_run ks ∅ d) as Hm. fold w in Hm.
  assert (H : ∀ x, x ∈ online_users w →
                   ∃ u, x = pretty u ∧ is_Some (active_connections (manager w) !! u)).
  { unfold w.
    apply (run_invariant (λ w, ∀ x, x ∈ online_users w →
             ∃ u, x = pretty u ∧ is_Some (active_connections (manager w) !! u))).
    - intros w0 u c Hm0 H x. rewrite disconnect_effect by done.
      destruct (session (manager w0) u c) as [ws|] eqn:Hs; [|apply H]. cbn [snd].
      rewrite (online_users_disconnect u c w0 ws Hs). unfold dropped. cbn [manager active_connections].
      destruct (_ =? 0)%nat.
      + intros Hx. apply elem_of_difference in Hx as [Hx Hne].
        destruct (H x Hx) as (u0 & -> & Hu0). exists u0. split; [done|].
        rewrite lookup_delete_ne; [done|]. intros ->. apply Hne. by apply elem_of_singleton.
      + intros Hx. destruct (H x Hx) as (u0 & -> & Hu0). exists u0. split; [done|].
        destruct (decide (u0 = u)) as [->|Hne].
        * rewrite lookup_insert_eq. eauto.
        * by rewrite lookup_insert_ne.
    - intros w0 ws u c Hm0 H x.
      pose proof (online_connect ws u c w0 Hm0) as Hon. unfold after in Hon.
      cbn [call] in Hon. rewrite Hon. rewrite connect_effect by done.
      destruct (accept_raises ws); [apply H|]. cbn [snd manager orb].
      unfold registered. cbn [active_connections].
      assert (Hold : x ∈ online_users w0 →
                ∃ u0, x = pretty u0 ∧
                  is_Some (<[u := <[c := ws]> (default ∅ (active_connections (manager w0) !! u))]>
                             (active_connections (manager w0)) !! u0)).
      { intros Hx. destruct (H x Hx) as (u0 & -> & Hu0). exists u0. split; [done|].
        destruct (decide (u0 = u)) as [->|Hne].
        - rewrite lookup_insert_eq. eauto.
        - by rewrite lookup_insert_ne. }
      destruct (send_json_raises ws); [exact Hold|].
      intros Hx. apply elem_of_union in Hx as [Hx|Hx]; [|by apply Hold].
      apply elem_of_singleton in Hx. exists u. split; [done|].
      rewrite lookup_insert_eq. eauto.
    - apply consistent_fresh.
    - intros x Hx. unfold online_users, get_set_members in Hx. simpl in Hx.
      rewrite lookup_empty in Hx. simpl in Hx. by apply not_elem_of_empty in Hx. }
  intros x Hx. apply elem_of_elements in Hx.
  destruct (H x Hx) as (u & -> & [conns Hconns]). exists u. split; [done|].
  apply is_user_connected_sessions; [done|].
  pose proof (cons_nonempty _ Hm u conns Hconns) as Hne.
  apply map_choose in Hne as (c & ws & Hc). exists c, ws.
  unfold session. rewrite Hconns. done.
Qed.

(** X20: as long as no connect was stopped by its confirmation, every user
    that is connected is in the Redis set [online_users], whatever the set
    held at the start, and is listed by GET /online-users. *)
Theorem connected_users_are_online
    (sets : gmap string (gset string)) (d : Db) ks u :
  let w := after_all ks (fresh_world sets d) in
  Forall confirmed ks →
  is_user_connected w u = true →
  pretty u ∈ online_users w ∧
  ∃ l, (Main.get_online_users w).1 = Ret (Response l) ∧ pretty u ∈ l.
Proof.
  intros w Hks Hconn.
  pose proof (consistent_run ks sets d) as Hm. fold w in Hm.
  assert (H : ∀ u, is_Some (active_connections (manager w) !! u) →
                   pretty u ∈ online_users w).
  { unfold w.
    apply (after_invariant_confirmed
             (λ w, ∀ u, is_Some (active_connections (manager w) !! u) →
                        pretty u ∈ online_users w)); [| |done|apply consistent_fresh|].
    - intros w0 u0 c Hm0 H u1. rewrite disconnect_effect by done.
      destruct (session (manager w0) u0 c) as [ws|] eqn:Hs; [|apply H]. cbn [snd].
      rewrite (online_users_disconnect u0 c w0 ws Hs). unfold dropped.
      cbn [manager active_connections].
      destruct (_ =? 0)%nat.
      + intros Hu1. destruct (decide (u1 = u0)) as [->|Hne].
        * rewrite lookup_delete_eq in Hu1. by destruct Hu1.
        * rewrite lookup_delete_ne in Hu1 by done.
          apply elem_of_difference. split; [by apply H|].
          intros Heq. apply elem_of_singleton in Heq. by apply (inj pretty) in Heq.
      + intros Hu1. apply H. destruct (decide (u1 = u0)) as [->|Hne].
        * unfold session in Hs.
          destruct (active_connections (manager w0) !! u0); [eauto|done].
        * by rewrite lookup_insert_ne in Hu1.
    - intros w0 ws u0 c Hm0 Hk H u1.
      pose proof (online_connect ws u0 c w0 Hm0) as Hon. unfold after in Hon.
      cbn [call] in Hon. rewrite Hon. rewrite connect_effect by done.
      destruct (accept_raises ws) eqn:Hacc; [apply H|]. cbn [snd manager orb].
      destruct Hk as [Hk|Hk]; [congruence|]. rewrite Hk.
      unfold registered. cbn [active_connections]. intros Hu1.
      apply elem_of_union. destruct (decide (u1 = u0)) as [->|Hne].
      + left. by apply elem_of_singleton.
      + right. apply H. by rewrite lookup_insert_ne in Hu1.
    - intros u1 Hu1. simpl in Hu1. rewrite lookup_empty in Hu1. by destruct Hu1. }
  assert (Hin : pretty u ∈ online_users w).
  { apply H. apply is_user_connected_sessions in Hconn as (c & ws & Hs); [|done].
    unfold session in Hs. destruct (active_connections (manager w) !! u); [eauto|done]. }
  split; [done|]. exists (elements (online_users w)). split; [done|].
  by apply elem_of_elements.
Qed.
End online_list.

Section stored_status.
Variable jwt_decode : string → JwtResult.
Variable json_content : string → option string.
Implicit Types (w : World) (ws : WebSocket) (user : User) (c : Z).

Lemma update_user_status_run uid s w (u0 : User) :
  commit_faults (db w) = [] →
  get_user (db w) uid = Some u0 →
  ∃ w', update_user_status uid s w = (Ret (Some (with_user_status s u0)), w') ∧
        manager w' = manager w ∧
        commit_faults (db w') = [] ∧
        get_user (db w') uid = Some (with_user_status s u0).
Proof.
  intros Hf Hu.
  assert (Hc : commit_succeeds (db w)) by (unfold commit_succeeds; by rewrite Hf).
  unfold update_user_status, bind, gets. unfold get_user in Hu. rewrite Hu.
  rewrite (db_commit_ok _ w Hc). unfold ret. eexists. split; [reflexivity|].
  destruct w as [mg r wi d].
  cbn [with_db db manager set_users set_commit_faults users commit_faults] in *.
  split; [done|]. split; [by rewrite Hf|]. unfold get_user, set_users. cbn [users].
  rewrite find_update_first; [by rewrite Hu|].
  intros x Hx. apply bool_decide_eq_true_1 in Hx. by apply bool_decide_eq_true_2.
Qed.

(** A turn ends normally or with WebSocketDisconnect; it leaves the users
    as they are, and uses no commit when none is scheduled to fail. *)
Lemma receive_turn_db ws user c inb w :
  ((receive_turn json_content ws user c inb w).1 = Ret tt ∨
   (receive_turn json_content ws user c inb w).1 = Raise WebSocketDisconnect) ∧
  (inb = PeerClosed →
   (receive_turn json_content ws user c inb w).1 = Raise WebSocketDisconnect) ∧
  users (db (receive_turn json_content ws user c inb w).2) = users (db w) ∧
  (commit_faults (db w) = [] →
   commit_faults (db (receive_turn json_content ws user c inb w).2) = []).
Proof.
  destruct w as [mg r wi d].
  unfold receive_turn, receive_text, create_message, db_commit. run.
  destruct inb as [data| |]; simpl.
  - destruct (json_content data) as [text|]; simpl.
    + destruct (commit_faults d) as [|[] rest] eqn:Hf; simpl;
        destruct (send_json_raises ws); simpl; rewrite ?Hf; repeat split; eauto; done.
    + destruct (send_json_raises ws); simpl; repeat split; eauto; done.
  - repeat split; eauto.
  - destruct (send_json_raises ws); simpl; repeat split; eauto; done.
Qed.

Lemma receive_loop_closed ws user c (script : list Inbound) w :
  PeerClosed ∈ script →
  commit_faults (db w) = [] →
  ∃ w', receive_loop json_content ws user c script w = (Raise WebSocketDisconnect, w') ∧
        manager w' = manager w ∧
        users (db w') = users (db w) ∧
        commit_faults (db w') = [].
Proof.
  unfold receive_loop. revert w.
  induction script as [|inb script IH]; intros w Hin Hf;
    [by apply not_elem_of_nil in Hin|].
  cbn [for_each]. unfold bind.
  destruct (receive_turn_db ws user c inb w) as (Hout & Hclosed & Husers & Hfaults).
  destruct (receive_turn_quiet json_content ws user c inb w) as (n & Hmg & _).
  destruct (receive_turn json_content ws user c inb w) as [[[]|x] w1]; cbn [fst snd] in *.
  - apply elem_of_cons in Hin as [<-|Hin]; [by specialize (Hclosed eq_refl)|].
    destruct (IH w1 Hin (Hfaults Hf)) as (w' & Hrun & Hmg' & Husers' & Hf').
    exists w'. split; [done|]. split; [congruence|]. split; [congruence|done].
  - destruct Hout as [Hout|Hout]; [done|]. injection Hout as ->.
    exists w1. split; [done|]. split; [done|]. split; [done|]. by apply Hfaults.
Qed.

(** X21: when an authenticated member's request reaches connect in a state
    reached by the manager's operations, no commit fails and the peer
    closes, the endpoint leaves the stored status of the user's row as
    OFFLINE when the user has no session on another channel, and as ONLINE
    when the user has one; is_user_connected at the end tells which. *)
Theorem stored_status_follows_remaining_sessions
    (sets : gmap string (gset string)) (d : Db) ks ws token c (script : list Inbound) user :
  let w := after_all ks (fresh_world sets d) in
  let w' := (websocket_endpoint jwt_decode json_content ws token c script w).2 in
  authenticates_as jwt_decode token (db w) user →
  is_member (db w) user c = true →
  commit_faults (db w) = [] →
  PeerClosed ∈ script →
  (is_user_connected w' (user_id user) = true ↔
   ∃ c', c' ≠ c ∧ is_Some (session (manager w) (user_id user) c')) ∧
  ∃ u1, get_user (db w') (user_id user) = Some u1 ∧
        user_status u1 =
          if is_user_connected w' (user_id user) then ONLINE else OFFLINE.
Proof.
  intros w w' Hauth Hmem Hfaults Hclosed.
  pose proof (consistent_run ks sets d) as Hm. fold w in Hm.
  set (e1 := notification (username user +:+ " joined the chat")).
  set (e2 := notification (username user +:+ " left the chat")).
  assert (Hrow : ∃ u0, get_user (db w) (user_id user) = Some u0).
  { destruct Hauth as (name & _ & Hfound).
    destruct (get_user_by_username_Some _ _ _ Hfound) as [Hin _].
    destruct (get_user_of_stored _ _ Hin) as (u0 & Hu0 & _). eauto. }
  destruct Hrow as [u0 Hu0].
  pose proof (connect_effect ws (user_id user) c w Hm) as Hc.
  pose proof (consistent_after (Connect ws (user_id user) c) w Hm) as Hm1.
  unfold after in Hm1. cbn [call] in Hm1.
  destruct (connect ws (user_id user) c w) as [r1 w1] eqn:Hconnect.
  injection Hc as -> Hw1. cbn [snd] in Hm1.
  assert (Hs1 : ∀ u c', c' ≠ c → session (manager w1) u c' = session (manager w) u c').
  { intros u c' Hne. rewrite Hw1. destruct (accept_raises ws); [done|].
    cbn [manager]. rewrite session_registered. case_decide as Hd; [|done].
    by destruct Hd as [_ ->]. }
  assert (Hdb1 : db w1 = db w) by (rewrite Hw1; by destruct (accept_raises ws)).
  clear Hw1.
  destruct (broadcast_clears c e1 w1 Hm1) as (w2 & Hb & Hm2 & Hs2 & _ & Hdb2).
  assert (Hf2 : commit_faults (db w2) = []) by (by rewrite Hdb2, Hdb1).
  assert (Hu2 : get_user (db w2) (user_id user) = Some u0) by (by rewrite Hdb2, Hdb1).
  destruct (update_user_status_run (user_id user) ONLINE w2 u0 Hf2 Hu2)
    as (w3 & Hup & Hmg3 & Hf3 & Hu3).
  destruct (receive_loop_closed ws user c script w3 Hclosed Hf3)
    as (w4 & Hloop & Hmg4 & Husers4 & Hf4).
  assert (Hu4 : get_user (db w4) (user_id user) = Some (with_user_status ONLINE u0)).
  { unfold get_user in *. by rewrite Husers4. }
  assert (Hm4 : consistent (manager w4)) by (by rewrite Hmg4, Hmg3).
  assert (Hsess : ∀ u c', session (manager w4) u c' =
                          if decide (c' = c) then None else session (manager w) u c').
  { intros u c'. rewrite Hmg4, Hmg3, Hs2. case_decide; [done|]. by apply Hs1. }
  assert (Hd : disconnect (user_id user) c w4 = (Ret tt, w4)).
  { rewrite disconnect_effect by done. by rewrite Hsess, decide_True. }
  assert (Hnosub : channel_subscribers (manager w4) !! c = None).
  { destruct (channel_subscribers (manager w4) !! c) as [s|] eqn:Hsub; [|done].
    exfalso. pose proof (cons_subs_nonempty _ Hm4 c s Hsub) as Hne.
    apply set_choose_L in Hne as [u Hu].
    assert (Hsome : is_Some (session (manager w4) u c)).
    { apply (cons_subs _ Hm4). by exists s. }
    rewrite Hsess, decide_True in Hsome by done. by destruct Hsome. }
  assert (Hconn : is_user_connected w4 (user_id user) = true ↔
                  ∃ c', c' ≠ c ∧ is_Some (session (manager w) (user_id user) c')).
  { rewrite is_user_connected_sessions by done. split.
    - intros (c' & Hc'). rewrite Hsess in Hc'. case_decide; [by destruct Hc'|eauto].
    - intros (c' & Hne & Hc'). exists c'. rewrite Hsess. by rewrite decide_False. }
  assert (Hsame : ∀ w0, manager w0 = manager w4 →
            is_user_connected w0 (user_id user) = is_user_connected w4 (user_id user)).
  { intros w0 H0. unfold is_user_connected. by rewrite H0. }
  set (final := λ w0 : World,
         w0 = w4 ∧ is_user_connected w4 (user_id user) = true ∨
         is_user_connected w4 (user_id user) = false ∧
         manager w0 = manager w4 ∧
         get_user (db w0) (user_id user) =
           Some (with_user_status OFFLINE (with_user_status ONLINE u0))).
  assert (Hend : final w').
  { unfold w', websocket_endpoint, bind at 1.
    rewrite (websocket_auth_ok jwt_decode ws token user w Hauth).
    unfold bind at 1, gets. rewrite Hmem. cbn [negb].
    fold e1 e2. unfold try_except at 1. unfold bind at 1. rewrite Hconnect. cbv beta iota.
    unfold bind at 1. rewrite Hb. cbv beta iota.
    unfold bind at 1. rewrite Hup. cbv beta iota. rewrite Hloop.
    unfold bind. rewrite Hd. cbv beta iota.
    rewrite broadcast_to_channel_loop, Hnosub. unfold gets. cbv beta iota.
    destruct (is_user_connected w4 (user_id user)) eqn:Hc4; cbn [negb].
    - left. done.
    - right. split; [done|].
      destruct (update_user_status_run (user_id user) OFFLINE w4 _ Hf4 Hu4)
        as (w5 & Hoff & Hmg5 & _ & Hu5).
      rewrite Hoff. unfold ret. cbn [snd]. done. }
  destruct Hend as [[-> Hon]|(Hoff & Hmg & Hu')].
  - split; [done|]. exists (with_user_status ONLINE u0). split; [done|]. by rewrite Hon.
  - rewrite (Hsame w' Hmg). split; [done|].
    exists (with_user_status OFFLINE (with_user_status ONLINE u0)). split; [done|].
    by rewrite Hoff.
Qed.
End stored_status.

Section decoder_faults.
Variable jwt_decode : string → JwtResult.
Variable json_content : string → option string.
Implicit Types (w : World) (ws : WebSocket) (c : Z).

(** X22: when decoding the token raises something that is no JWTError, the
    endpoint calls [close] with code 1011 and nothing else on the socket,
    and registers nothing: the manager, the Redis client and the database
    are as they were; it returns normally unless that [close] raises, in
    which case the exception leaves the endpoint. *)
Theorem decoder_fault_closes_with_1011 ws token c (script : list Inbound) w :
  jwt_decode token = JwtFault →
  manager (websocket_endpoint jwt_decode json_content ws token c script w).2 = manager w ∧
  redis_client (websocket_endpoint jwt_decode json_content ws token c script w).2
    = redis_client w ∧
  db (websocket_endpoint jwt_decode json_content ws token c script w).2 = db w ∧
  wire (websocket_endpoint jwt_decode json_content ws token c script w).2
    = wire w ++ [Close (ws_id ws) WS_1011_INTERNAL_ERROR] ∧
  (websocket_endpoint jwt_decode json_content ws token c script w).1
    = if close_raises ws then Raise TransportError else Ret tt.
Proof.
  intros Hjwt. destruct w as [mg r wi d].
  unfold websocket_endpoint, websocket_auth, get_user_from_token. run.
  rewrite Hjwt. simpl. by destruct (close_raises ws).
Qed.
End decoder_faults.

(** ** The properties above on sample runs *)

Lemma subscription_outlives_one_subscriber_witness :
  session (manager (after_all two_subscribers (fresh_world ∅ empty_db))) 1 7
    = Some (healthy 1) ∧
  pubsubs (redis_client (after (Disconnect 1 7)
                           (after_all two_subscribers (fresh_world ∅ empty_db))))
    = pubsubs (redis_client (after_all two_subscribers (fresh_world ∅ empty_db))).
Proof.
  assert (H : session (manager (after_all two_subscribers (fresh_world ∅ empty_db))) 1 7
              = Some (healthy 1))
    by (vm_compute; reflexivity).
  assert (Hother : ∃ u', u' ≠ 1%Z ∧
            u' ∈ default ∅ (channel_subscribers
                              (manager (after_all two_subscribers (fresh_world ∅ empty_db)))
                            !! 7%Z)).
  { exists 2%Z. split; [lia|]. refine (bool_decide_unpack _ _). vm_compute. exact I. }
  split; [exact H|].
  exact (proj2 (proj2 (proj1 (subscription_outlives_one_subscriber ∅ empty_db
                                two_subscribers 1 7 (healthy 1) H) Hother))).
Defined.

Lemma connect_then_disconnect_restores_registry_witness :
  session (manager (after_all [] (fresh_world ∅ empty_db))) 1 7 = None ∧
  accept_raises (healthy 1) = false ∧
  active_connections
    (manager (after (Disconnect 1 7)
                (after (Connect (healthy 1) 1 7) (after_all [] (fresh_world ∅ empty_db)))))
    = active_connections (manager (after_all [] (fresh_world ∅ empty_db))).
Proof.
  assert (H1 : session (manager (after_all [] (fresh_world ∅ empty_db))) 1 7 = None)
    by reflexivity.
  assert (H2 : accept_raises (healthy 1) = false) by reflexivity.
  split; [exact H1|]. split; [exact H2|].
  exact (proj1 (connect_then_disconnect_restores_registry ∅ empty_db [] (healthy 1) 1 7
                  H1 H2)).
Defined.

Lemma mark_messages_as_read_marks_the_unread_witness :
  commit_succeeds (db (fresh_world ∅ unread_db)) ∧
  ∃ w', (mark_messages_as_read 7 1 (fresh_world ∅ unread_db)).1
          = Ret [with_status READ unread_message] ∧
        mark_messages_as_read 7 1 (fresh_world ∅ unread_db)
          = (Ret (with_status READ <$>
                    filter (λ m, channel_id m = 7%Z ∧ sender_id m ≠ 1%Z ∧ status m ≠ READ)
                           (messages (db (fresh_world ∅ unread_db)))), w').
Proof.
  assert (H : commit_succeeds (db (fresh_world ∅ unread_db))) by (vm_compute; discriminate).
  split; [exact H|].
  destruct (mark_messages_as_read_marks_the_unread 7 1 (fresh_world ∅ unread_db) H)
    as (w' & Hrun & _).
  exists w'. split; [reflexivity|exact Hrun].
Defined.

Lemma create_message_keeps_ids_distinct_witness :
  NoDup (id <$> messages (db (fresh_world ∅ read_db))) ∧
  commit_succeeds (db (fresh_world ∅ read_db)) ∧
  ∃ m w', create_message {| mc_content := "hi"; mc_channel_id := 7 |} 1
            (fresh_world ∅ read_db) = (Ret m, w') ∧
          NoDup (id <$> messages (db w')).
Proof.
  assert (H1 : NoDup (id <$> messages (db (fresh_world ∅ read_db))))
    by (simpl; apply NoDup_singleton).
  assert (H2 : commit_succeeds (db (fresh_world ∅ read_db))) by (vm_compute; discriminate).
  split; [exact H1|]. split; [exact H2|].
  destruct (proj1 (create_message_keeps_ids_distinct
                     {| mc_content := "hi"; mc_channel_id := 7 |} 1
                     (fresh_world ∅ read_db) H1) H2)
    as (m & w' & Hrun & _ & _ & Hnd & _).
  exists m, w'. split; [exact Hrun|exact Hnd].
Defined.

Lemma marking_read_needs_membership_witness :
  (∀ user, authenticates_as sample_jwt "t-alice" (db (fresh_world ∅ chat_db)) user →
           is_member (db (fresh_world ∅ chat_db)) user 8 = false) ∧
  (Main.mark_messages_as_read sample_jwt "t-alice" 8 (fresh_world ∅ chat_db)).2
    = fresh_world ∅ chat_db.
Proof.
  assert (H : ∀ user, authenticates_as sample_jwt "t-alice" (db (fresh_world ∅ chat_db)) user →
                      is_member (db (fresh_world ∅ chat_db)) user 8 = false).
  { intros user (name & Hjwt & Hfound). vm_compute in Hjwt. injection Hjwt as <-.
    vm_compute in Hfound. injection Hfound as <-. reflexivity. }
  split; [exact H|].
  exact (proj1 (marking_read_needs_membership sample_jwt "t-alice" 8
                  (fresh_world ∅ chat_db) H)).
Defined.

Lemma listed_channels_are_the_readable_ones_witness :
  NoDup (chan_id <$> channels (db (fresh_world ∅ chat_db))) ∧
  (Main.get_channels sample_jwt "t-alice" (fresh_world ∅ chat_db)).1
    = Ret (Response [{| chan_id := 7; members := [1] |}]) ∧
  (7 ∈ chan_id <$> [{| chan_id := 7; members := [1] |}] ↔
   ∃ ms, (Main.get_messages sample_jwt "t-alice" 7 50 0 (fresh_world ∅ chat_db)).1
           = Ret (Response ms)).
Proof.
  assert (H1 : NoDup (chan_id <$> channels (db (fresh_world ∅ chat_db)))).
  { refine (bool_decide_unpack _ _). vm_compute. exact I. }
  assert (H2 : (Main.get_channels sample_jwt "t-alice" (fresh_world ∅ chat_db)).1
               = Ret (Response [{| chan_id := 7; members := [1] |}]))
    by (vm_compute; reflexivity).
  split; [exact H1|]. split; [exact H2|].
  exact (listed_channels_are_the_readable_ones sample_jwt "t-alice" (fresh_world ∅ chat_db)
           [{| chan_id := 7; members := [1] |}] H1 H2 7 50 0).
Defined.


Lemma stored_frames_are_published_in_order_witness :
  send_json_raises (healthy 1) = false ∧
  ∃ w' new,
    receive_loop sample_json (healthy 1) alice 7 (Text <$> ["hi"; ""; "yo"])
      (fresh_world ∅ chat_db) = (Ret tt, w') ∧
    messages (db w') = messages (db (fresh_world ∅ chat_db)) ++ new ∧
    content <$> new = ["hi"; "yo"].
Proof.
  assert (H : send_json_raises (healthy 1) = false) by reflexivity.
  split; [exact H|].
  destruct (stored_frames_are_published_in_order sample_json (healthy 1) alice 7
              ["hi"; ""; "yo"] (fresh_world ∅ chat_db) H)
    as (w' & new & Hrun & _ & Hmsgs & _ & _ & _ & _ & _ & Hall).
  exists w', new. split; [exact Hrun|]. split; [exact Hmsgs|].
  exact (Hall eq_refl).
Defined.

Lemma endpoint_ends_without_subscribers_witness :
  authenticates_as sample_jwt "t-alice" (db (after_all [] (fresh_world ∅ chat_db))) alice ∧
  is_member (db (after_all [] (fresh_world ∅ chat_db))) alice 7 = true ∧
  channel_subscribers
    (manager (websocket_endpoint sample_jwt sample_json (healthy 1) "t-alice" 7
                [Text "hi"; PeerClosed] (after_all [] (fresh_world ∅ chat_db))).2) !! 7
    = None.
Proof.
  assert (H1 : authenticates_as sample_jwt "t-alice"
                 (db (after_all [] (fresh_world ∅ chat_db))) alice).
  { exists "alice". split; reflexivity. }
  assert (H2 : is_member (db (after_all [] (fresh_world ∅ chat_db))) alice 7 = true)
    by reflexivity.
  split; [exact H1|]. split; [exact H2|].
  exact (proj1 (proj2 (endpoint_ends_without_subscribers sample_jwt sample_json ∅ chat_db []
                         (healthy 1) "t-alice" 7 [Text "hi"; PeerClosed] alice H1 H2))).
Defined.

Lemma connected_users_are_online_witness :
  Forall confirmed [Connect (healthy 1) 1 7] ∧
  is_user_connected (after_all [Connect (healthy 1) 1 7] (fresh_world ∅ empty_db)) 1 = true ∧
  pretty 1%Z ∈ online_users (after_all [Connect (healthy 1) 1 7] (fresh_world ∅ empty_db)).
Proof.
  assert (H1 : Forall confirmed [Connect (healthy 1) 1 7]).
  { constructor; [right; reflexivity|constructor]. }
  assert (H2 : is_user_connected
                 (after_all [Connect (healthy 1) 1 7] (fresh_world ∅ empty_db)) 1 = true)
    by (vm_compute; reflexivity).
  split; [exact H1|]. split; [exact H2|].
  exact (proj1 (connected_users_are_online ∅ empty_db [Connect (healthy 1) 1 7] 1 H1 H2)).
Defined.

Lemma stored_status_follows_remaining_sessions_witness :
  authenticates_as sample_jwt "t-alice" (db (after_all [] (fresh_world ∅ chat_db))) alice ∧
  is_member (db (after_all [] (fresh_world ∅ chat_db))) alice 7 = true ∧
  commit_faults (db (after_all [] (fresh_world ∅ chat_db))) = [] ∧
  PeerClosed ∈ [Text "hi"; PeerClosed] ∧
  ∃ u1,
    get_user
      (db (websocket_endpoint sample_jwt sample_json (healthy 1) "t-alice" 7
             [Text "hi"; PeerClosed] (after_all [] (fresh_world ∅ chat_db))).2) 1 = Some u1 ∧
    user_status u1 = OFFLINE.
Proof.
  assert (H1 : authenticates_as sample_jwt "t-alice"
                 (db (after_all [] (fresh_world ∅ chat_db))) alice).
  { exists "alice". split; reflexivity. }
  assert (H2 : is_member (db (after_all [] (fresh_world ∅ chat_db))) alice 7 = true)
    by reflexivity.
  assert (H3 : commit_faults (db (after_all [] (fresh_world ∅ chat_db))) = [])
    by reflexivity.
  assert (H4 : PeerClosed ∈ [Text "hi"; PeerClosed]) by (repeat constructor).
  split; [exact H1|]. split; [exact H2|]. split; [exact H3|]. split; [exact H4|].
  destruct (proj2 (stored_status_follows_remaining_sessions sample_jwt sample_json ∅ chat_db
                     [] (healthy 1) "t-alice" 7 [Text "hi"; PeerClosed] alice H1 H2 H3 H4))
    as (u1 & Hu1 & Hst).
  exists u1. split; [exact Hu1|]. rewrite Hst. vm_compute. reflexivity.
Defined.

Lemma decoder_fault_closes_with_1011_witness :
  faulty_jwt "any" = JwtFault ∧
  wire (websocket_endpoint faulty_jwt sample_json (healthy 1) "any" 7 [Text "hi"]
          (fresh_world ∅ chat_db)).2
    = wire (fresh_world ∅ chat_db) ++ [Close (ws_id (healthy 1)) WS_1011_INTERNAL_ERROR].
Proof.
  assert (H : faulty_jwt "any" = JwtFault) by reflexivity.
  split; [exact H|].
  exact (proj1 (proj2 (proj2 (proj2 (decoder_fault_closes_with_1011 faulty_jwt sample_json
                                       (healthy 1) "any" 7 [Text "hi"]
                                       (fresh_world ∅ chat_db) H))))).
Defined.
